(** * Air-quality art: a shallow embedding of the two visualisers

    The development follows [weather_art_project/beijing_air_quality_art.py]
    and [weather_art_project/kandinsky_air_art.py].

    Conventions of the embedding:
    - a Python float is a real number ([R]); [max], [min], [<], [<=] are the
      real ones, [np.radians d] is [d * PI / 180];
    - a pandas DataFrame is the list of its rows, in positional order; a
      cell of the [datetime] column is a datetime object (the mock
      generator's), the raw text [pd.read_csv] leaves there, or a missing
      value; [==] on the column is pandas', under which a missing value
      equals nothing, itself included;
    - colours and labels are the strings of the source;
    - the process-wide [random] module is an explicit random source that
      every generation rule takes and returns;
    - the matplotlib axes object is a record of what was drawn on it. *)

From Stdlib Require Import Reals Lra Lia ZArith List String Bool Arith.
Import ListNotations.

Open Scope string_scope.
Open Scope R_scope.

(** ** Records and frames *)

(** A cell of the [datetime] column: a datetime object, counted in hours
    since 2023-01-01 00:00, as [generate_mock_data] makes them; the text of
    the cell, as [pd.read_csv] (called without [parse_dates]) leaves it; or
    the missing value [pd.read_csv] puts for an empty cell. *)
Inductive Timestamp : Type :=
| Datetime (hours : Z)
| Raw (cell : string)
| Missing.

Record Row : Type := mkRow {
  datetime : Timestamp;
  station  : string;
  PM25 : R;
  PM10 : R;
  SO2  : R;
  NO2  : R;
  CO   : R;
  O3   : R;
  TEMP : R;
  PRES : R;
  DEWP : R;
  RAIN : R;
  WSPM : R;
  wd   : R
}.

Definition DataFrame : Type := list Row.

(** What a Python call can end in: a value, or one of the exceptions the
    frame selection and the title of the station map can raise. *)
Inductive Exn : Type :=
| ZeroDivisionError
| IndexError
| AttributeError.

Inductive result (A : Type) : Type :=
| Ok (a : A)
| Raise (e : Exn).
Arguments Ok {A} a.
Arguments Raise {A} e.

(** [np.radians] *)
Definition radians (deg : R) : R := deg * PI / 180.

(** ** Frame selection, the same expression in both visualisers

    [self.data['datetime'].unique()] keeps the first occurrence of each
    value, in order of appearance; it takes all missing values for one
    value. *)
Definition same_stamp (a b : Timestamp) : bool :=
  match a, b with
  | Datetime x, Datetime y => Z.eqb x y
  | Raw x, Raw y => String.eqb x y
  | Missing, Missing => true
  | _, _ => false
  end.

Fixpoint unique (l : list Timestamp) : list Timestamp :=
  match l with
  | [] => []
  | t :: l' => t :: filter (fun u => negb (same_stamp u t)) (unique l')
  end.

(** [==] between a cell of the column and a value taken from it: a
    missing value equals nothing. *)
Definition stamp_eq (a b : Timestamp) : bool :=
  match a, b with
  | Datetime x, Datetime y => Z.eqb x y
  | Raw x, Raw y => String.eqb x y
  | _, _ => false
  end.

(** [self.data['datetime'].iloc[frame % len(self.data['datetime'].unique())]];
    a frame without rows is taken with its columns, as a file that holds
    only a header gives it. *)
Definition current_time (data : DataFrame) (frame : nat) : result Timestamp :=
  let column := map datetime data in
  match List.length (unique column) with
  | O => Raise ZeroDivisionError
  | S _ as n =>
      match nth_error column (frame mod n)%nat with
      | Some t => Ok t
      | None => Raise IndexError
      end
  end.

(** [self.data[self.data['datetime'] == current_time]] *)
Definition current_data (data : DataFrame) (t : Timestamp) : DataFrame :=
  filter (fun row => stamp_eq (datetime row) t) data.

(** [len(self.data['datetime'].unique())], the [frames] argument of the
    animation. *)
Definition frame_count (data : DataFrame) : nat :=
  List.length (unique (map datetime data)).

(** [animation.FuncAnimation(fig, callback, frames=n, ...)] with the default
    [repeat]: the steps of the timer hand the callback [0, 1, ..., n-1];
    the step that finds the sequence exhausted redraws the first frame and
    starts the sequence again, so that from then on every pass shows
    frame 0 twice: [0, 1, ..., n-1, 0, 0, 1, ..., n-1, 0, 0, 1, ...].
    A tick is a step of the timer; the draw of frame 0 that opens the
    animation, before the first step, is not counted. *)
Definition animation_frame (frames tick : nat) : nat :=
  if (tick <? frames)%nat then tick
  else Nat.pred ((tick - frames) mod (S frames))%nat.

(** The reference timestamp of a tick of the running animation. *)
Definition tick_time (data : DataFrame) (tick : nat) : result Timestamp :=
  current_time data (animation_frame (frame_count data) tick).

(** ** The drawing surface

    What the code asks of the matplotlib axes: patches ([add_patch]), lines
    ([plot]), texts ([text]) and arrows ([arrow]) accumulate in call order;
    [set_facecolor], [set_xlim], [set_ylim], [set_aspect], [axis] and
    [set_title] overwrite a setting; [clear] drops everything and puts
    every setting back to the library default.

    A text keeps what is printed rather than the printed characters: the
    formatting of a float ([f'{pm25:.0f}']) or of a date ([strftime]) is
    the library's. *)

Inductive Patch : Type :=
| CirclePatch (center : R * R) (radius : R) (color : string) (alpha : R)
| PolygonPatch (xy : list (R * R)) (color : string) (alpha : R).

Record Line2D : Type := mkLine2D {
  xdata : list R; ydata : list R;
  line_color : string; linewidth : R; line_alpha : R
}.

Inductive TextContent : Type :=
| Literal (s : string)
| Pm25Value (pm25 : R)                       (* [f'{pm25:.0f}'] *)
| WindLabel (direction speed : R)            (* direction [.0f], speed [.1f] *)
| Statistics (avg_pm25 max_pm25 min_pm25 avg_temp avg_humidity : R)
| Title (time : Z).                          (* [strftime('%Y-%m-%d %H:%M')] *)

Record Text : Type := mkText {
  text_x : R; text_y : R;
  content : TextContent;
  fontsize : Z;
  text_color : string;
  bold : bool;
  boxed : bool
}.

Record TitleSpec : Type := mkTitle {
  title_content : TextContent;
  title_fontsize : Z;
  title_color : string;
  title_pad : Z
}.

Record Arrow : Type := mkArrow {
  arrow_x : R; arrow_y : R; arrow_dx : R; arrow_dy : R;
  head_width : R; head_length : R;
  arrow_fc : string; arrow_ec : string;
  arrow_alpha : R; arrow_linewidth : R
}.

Record Axes : Type := mkAxes {
  xlim : option (R * R);
  ylim : option (R * R);
  aspect_equal : bool;
  axis_on : bool;
  facecolor : option string;     (* [None]: the library default *)
  title : option TitleSpec;
  patches : list Patch;
  lines : list Line2D;
  texts : list Text;
  arrows : list Arrow
}.

Definition ax_clear (ax : Axes) : Axes :=
  mkAxes None None false true None None [] [] [] [].

Definition add_patch (ax : Axes) (p : Patch) : Axes :=
  mkAxes (xlim ax) (ylim ax) (aspect_equal ax) (axis_on ax) (facecolor ax)
         (title ax) (patches ax ++ [p]) (lines ax) (texts ax) (arrows ax).

Definition plot (ax : Axes) (l : Line2D) : Axes :=
  mkAxes (xlim ax) (ylim ax) (aspect_equal ax) (axis_on ax) (facecolor ax)
         (title ax) (patches ax) (lines ax ++ [l]) (texts ax) (arrows ax).

Definition add_text (ax : Axes) (t : Text) : Axes :=
  mkAxes (xlim ax) (ylim ax) (aspect_equal ax) (axis_on ax) (facecolor ax)
         (title ax) (patches ax) (lines ax) (texts ax ++ [t]) (arrows ax).

Definition add_arrow (ax : Axes) (a : Arrow) : Axes :=
  mkAxes (xlim ax) (ylim ax) (aspect_equal ax) (axis_on ax) (facecolor ax)
         (title ax) (patches ax) (lines ax) (texts ax) (arrows ax ++ [a]).

Definition set_facecolor (ax : Axes) (c : string) : Axes :=
  mkAxes (xlim ax) (ylim ax) (aspect_equal ax) (axis_on ax) (Some c)
         (title ax) (patches ax) (lines ax) (texts ax) (arrows ax).

Definition set_title (ax : Axes) (t : TitleSpec) : Axes :=
  mkAxes (xlim ax) (ylim ax) (aspect_equal ax) (axis_on ax) (facecolor ax)
         (Some t) (patches ax) (lines ax) (texts ax) (arrows ax).

Definition Rsum (l : list R) : R := fold_right Rplus 0 l.

(** [Series.mean()], [Series.max()] and [Series.min()] of a series with
    rows; on an empty series pandas gives NaN, and both composers return
    before they reach any of the three on an empty slice. *)
Definition mean (l : list R) : R := Rsum l / INR (List.length l).

Definition maximum (l : list R) : R :=
  match l with
  | [] => 0
  | x :: l' => fold_left Rmax l' x
  end.

Definition minimum (l : list R) : R :=
  match l with
  | [] => 0
  | x :: l' => fold_left Rmin l' x
  end.

(** A dict with string keys, as the list of its items in insertion order. *)
Fixpoint lookup {V : Type} (k : string) (d : list (string * V)) : option V :=
  match d with
  | [] => None
  | (k', v) :: d' => if String.eqb k k' then Some v else lookup k d'
  end.

(** ** beijing_air_quality_art.py *)

Module Beijing.

(** [self.aqi_colors]: an insertion-ordered dict, kept as the list of its
    items. *)
Definition aqi_colors : list (string * string) :=
  [ ("优", "#00E400");
    ("良", "#FFFF00");
    ("轻度污染", "#FF7E00");
    ("中度污染", "#FF0000");
    ("重度污染", "#8F3F97");
    ("严重污染", "#7E0023") ].

(** [get_aqi_level(self, pm25)] *)
Definition get_aqi_level (pm25 : R) : string :=
  if Rle_dec pm25 35 then "优"
  else if Rle_dec pm25 75 then "良"
  else if Rle_dec pm25 115 then "轻度污染"
  else if Rle_dec pm25 150 then "中度污染"
  else if Rle_dec pm25 250 then "重度污染"
  else "严重污染".

(** Position of a label among the keys of [aqi_colors], the severity order
    of the legend; [None] for a string that is not a key. *)
Fixpoint index_of (s : string) (l : list string) : option nat :=
  match l with
  | [] => None
  | k :: l' => if String.eqb s k then Some O
               else option_map S (index_of s l')
  end.

Definition severity (label : string) : option nat :=
  index_of label (map fst aqi_colors).

(** [setup_plot(self)] *)
Definition setup_plot (ax : Axes) : Axes :=
  mkAxes (Some (-2, 10)) (Some (-2, 8)) true false (Some "#1a1a1a")
         (title ax) (patches ax) (lines ax) (texts ax) (arrows ax).

(** [create_station_layout(self)] *)
Definition create_station_layout : list (string * (R * R)) :=
  [ ("Aotizhongxin", (2, 6));
    ("Changping", (1, 7));
    ("Dingling", (0.5, 6.5));
    ("Dongsi", (4, 5));
    ("Guanyuan", (3, 4));
    ("Gucheng", (2, 3));
    ("Huairou", (1, 5));
    ("Nongzhanguan", (5, 4));
    ("Shunyi", (6, 6));
    ("Tiantan", (4, 3));
    ("Wanliu", (3, 2));
    ("Wanshouxigong", (2, 1)) ].

(** The body of the station loop of [create_pollutant_visualization]. *)
Definition draw_station (station_positions : list (string * (R * R)))
    (ax : Axes) (row : Row) : Axes :=
  match lookup (station row) station_positions with
  | Some (x, y) =>
      let pm25 := PM25 row in
      let aqi_level := get_aqi_level pm25 in
      let color := match lookup aqi_level aqi_colors with
                   | Some c => c
                   | None => "#FFFFFF"
                   end in
      let size := Rmax 0.3 (Rmin 2.0 (pm25 / 100)) in
      let ax1 := add_patch ax (CirclePatch (x, y) size color 0.8) in
      let ax2 := add_text ax1
                   (mkText x (y - 0.3) (Literal (substring 0 4 (station row)))
                           8 "white" true false) in
      add_text ax2 (mkText x (y + 0.3) (Pm25Value pm25) 7 "white" false false)
  | None => ax
  end.

(** [draw_pollutant_flow(self, data, positions)] *)
Definition draw_pollutant_flow (ax : Axes) (data : DataFrame)
    (positions : list (string * (R * R))) : Axes :=
  let avg_wind_speed := mean (map WSPM data) in
  let avg_wind_direction := mean (map wd data) in
  if Rgt_dec avg_wind_speed 1 then
    let center_x := 5 in
    let center_y := 4 in
    let wind_x := cos (radians avg_wind_direction) * avg_wind_speed * 0.3 in
    let wind_y := sin (radians avg_wind_direction) * avg_wind_speed * 0.3 in
    let ax1 := add_arrow ax
                 (mkArrow center_x center_y wind_x wind_y 0.2 0.3
                          "cyan" "cyan" 0.7 2) in
    add_text ax1
      (mkText (center_x + wind_x + 0.5) (center_y + wind_y + 0.5)
              (WindLabel avg_wind_direction avg_wind_speed)
              10 "cyan" true false)
  else ax.

(** [add_legend(self)] *)
Definition add_legend (ax : Axes) : Axes :=
  let legend_x := 0.5 in
  let legend_y := 7.5 in
  let ax0 := add_text ax
               (mkText legend_x legend_y (Literal "空气质量等级:")
                       12 "white" true false) in
  fst (fold_left
         (fun (st : Axes * R) (item : string * string) =>
            let (a, y_offset) := st in
            let (level, color) := item in
            let a1 := add_patch a
                        (CirclePatch (legend_x + 0.5, legend_y - y_offset)
                                     0.1 color 0.8) in
            let a2 := add_text a1
                        (mkText (legend_x + 0.8) (legend_y - y_offset)
                                (Literal level) 10 "white" false false) in
            (a2, y_offset + 0.25))
         aqi_colors (ax0, 0.3)).

(** [add_statistics(self, data)] *)
Definition add_statistics (ax : Axes) (data : DataFrame) : Axes :=
  let stats_x := 8 in
  let stats_y := 6 in
  let avg_pm25 := mean (map PM25 data) in
  let max_pm25 := maximum (map PM25 data) in
  let min_pm25 := minimum (map PM25 data) in
  let avg_temp := mean (map TEMP data) in
  let avg_humidity := mean (map DEWP data) in
  add_text ax
    (mkText stats_x stats_y
            (Statistics avg_pm25 max_pm25 min_pm25 avg_temp avg_humidity)
            10 "white" false true).

(** The path of [create_pollutant_visualization] past the emptiness test.
    The title calls [current_time.strftime], which only a datetime object
    has: on the text of a cell, or on a missing value, it raises. *)
Definition draw_frame (ax : Axes) (current_time : Timestamp)
    (current : DataFrame) : result Axes :=
  let station_positions := create_station_layout in
  let ax1 := fold_left (draw_station station_positions) current ax in
  let ax2 := draw_pollutant_flow ax1 current station_positions in
  match current_time with
  | Datetime hours =>
      let ax3 := set_title ax2 (mkTitle (Title hours) 16 "white" 20) in
      let ax4 := add_legend ax3 in
      Ok (add_statistics ax4 current)
  | Raw _ => Raise AttributeError
  | Missing => Raise AttributeError
  end.

(** [create_pollutant_visualization] from the emptiness test on, given the
    cleared and set-up axes, the reference timestamp and the selected
    slice: [if current_data.empty: return], else the drawing path. *)
Definition compose_slice (ax : Axes) (current_time : Timestamp)
    (current : DataFrame) : result Axes :=
  match current with
  | [] => Ok ax
  | _ :: _ => draw_frame ax current_time current
  end.

(** [create_pollutant_visualization(self, frame)] *)
Definition create_pollutant_visualization (ax : Axes) (data : DataFrame)
    (frame : nat) : result Axes :=
  let ax0 := setup_plot (ax_clear ax) in
  match current_time data frame with
  | Raise e => Raise e
  | Ok t => compose_slice ax0 t (current_data data t)
  end.

(** [start_animation], as in the other visualiser: nothing is started on
    a store without rows; otherwise the composer is called once per tick. *)
Fixpoint play (n : nat) (data : DataFrame) (tick : nat) (ticks : nat)
    (ax : Axes) : result Axes :=
  match ticks with
  | O => Ok ax
  | S k =>
      match create_pollutant_visualization ax data (animation_frame n tick) with
      | Raise e => Raise e
      | Ok ax' => play n data (S tick) k ax'
      end
  end.

Definition start_animation (data : DataFrame) (ticks : nat) (ax : Axes)
    : option (result Axes) :=
  match data with
  | [] => None
  | _ :: _ => Some (play (frame_count data) data 0 ticks ax)
  end.

End Beijing.

(** ** The random source

    [random.uniform(a, b)] is [a + (b - a) * random()], and
    [random.randint(a, b)] is [a] plus an integer below [b - a + 1].  The
    source of randomness is a pair of tapes (the successive values of
    [random()], and the successive raw integers) with one cursor on each. *)

Record RandomSource : Type := mkRandom {
  unit_tape : nat -> R;
  int_tape  : nat -> Z;
  unit_pos  : nat;
  int_pos   : nat
}.

Definition Rand (A : Type) : Type := RandomSource -> A * RandomSource.

Definition ret {A : Type} (a : A) : Rand A := fun g => (a, g).

Definition bind {A B : Type} (c : Rand A) (k : A -> Rand B) : Rand B :=
  fun g => let (a, g') := c g in k a g'.

Declare Scope rand_scope.
Delimit Scope rand_scope with rand.
Notation "x <- c ;; k" := (bind c (fun x => k))
  (at level 61, c at next level, right associativity) : rand_scope.
Open Scope rand_scope.

Definition uniform (a b : R) : Rand R := fun g =>
  (a + (b - a) * unit_tape g (unit_pos g),
   mkRandom (unit_tape g) (int_tape g) (S (unit_pos g)) (int_pos g)).

Definition randint (a b : Z) : Rand Z := fun g =>
  ((a + (int_tape g (int_pos g)) mod (b - a + 1))%Z,
   mkRandom (unit_tape g) (int_tape g) (unit_pos g) (S (int_pos g))).

(** [for _, row in data.iterrows(): ...] where the body appends at most one
    element to the list being built. *)
Fixpoint iterrows {A : Type} (body : Row -> Rand (option A))
    (data : DataFrame) : Rand (list A) :=
  match data with
  | [] => ret []
  | row :: rest =>
      o <- body row ;;
      l <- iterrows body rest ;;
      ret (match o with Some a => a :: l | None => l end)
  end.

(** ** kandinsky_air_art.py *)

Module Kandinsky.

Inductive ColorType : Type := primary | secondary | accent | neutral.

(** [self.kandinsky_colors] *)
Definition kandinsky_colors (color_type : ColorType) : list string :=
  match color_type with
  | primary   => ["#FF6B6B"; "#4ECDC4"; "#45B7D1"; "#96CEB4"; "#FFEAA7"; "#DDA0DD"]
  | secondary => ["#FF8E53"; "#6C5CE7"; "#A29BFE"; "#FD79A8"; "#FDCB6E"; "#6C5CE7"]
  | accent    => ["#E17055"; "#00B894"; "#0984E3"; "#00CEC9"; "#FDCB6E"; "#E84393"]
  | neutral   => ["#2D3436"; "#636E72"; "#74B9FF"; "#81ECEC"; "#FAB1A0"; "#FF7675"]
  end.

(** [get_kandinsky_color(self, value, color_type='primary')] *)
Definition get_kandinsky_color (value : R) (color_type : ColorType) : string :=
  let colors := kandinsky_colors color_type in
  if Rlt_dec value 50 then nth 0 colors ""
  else if Rlt_dec value 100 then nth 1 colors ""
  else if Rlt_dec value 150 then nth 2 colors ""
  else if Rlt_dec value 200 then nth 3 colors ""
  else if Rlt_dec value 250 then nth 4 colors ""
  else nth 5 colors "".

(** The dicts the generation rules build, one record per shape. *)
Record CircleSpec : Type := mkCircle {
  c_x : R; c_y : R; c_radius : R;
  c_color : string; c_alpha : R; c_rotation : R
}.

Record TriangleSpec : Type := mkTriangle {
  t_x : R; t_y : R; t_size : R;
  t_color : string; t_alpha : R; t_rotation : R
}.

Record RectangleSpec : Type := mkRectangle {
  r_x : R; r_y : R; r_width : R; r_height : R;
  r_color : string; r_alpha : R; r_rotation : R
}.

Record LineSpec : Type := mkLine {
  start_x : R; start_y : R; end_x : R; end_y : R;
  l_color : string; l_width : R; l_alpha : R
}.

Record PolygonSpec : Type := mkPolygon {
  vertices : list (R * R);
  p_color : string; p_alpha : R; p_rotation : R
}.

(** *** The five generation rules *)

Definition circle_of_row (row : Row) : Rand (option CircleSpec) :=
  let pm25 := PM25 row in
  let size := Rmax 0.5 (Rmin 3.0 (pm25 / 50)) in
  let color := get_kandinsky_color pm25 primary in
  x <- uniform (-8) 8 ;;
  y <- uniform (-8) 8 ;;
  let wind_direction := wd row in
  let wind_x := cos (radians wind_direction) * 0.5 in
  let wind_y := sin (radians wind_direction) * 0.5 in
  alpha <- uniform 0.4 0.8 ;;
  rotation <- uniform 0 360 ;;
  ret (Some (mkCircle (x + wind_x) (y + wind_y) size color alpha rotation)).

Definition create_abstract_circles (data : DataFrame) : Rand (list CircleSpec) :=
  iterrows circle_of_row data.

Definition triangle_of_row (row : Row) : Rand (option TriangleSpec) :=
  let so2 := SO2 row in
  let size := Rmax 0.3 (Rmin 2.0 (so2 / 30)) in
  let color := get_kandinsky_color so2 secondary in
  x <- uniform (-7) 7 ;;
  y <- uniform (-7) 7 ;;
  let temp := TEMP row in
  let temp_factor := (temp + 20) / 40 in
  alpha <- uniform 0.3 0.7 ;;
  rotation <- uniform 0 360 ;;
  ret (Some (mkTriangle x y (size * temp_factor) color alpha rotation)).

Definition create_abstract_triangles (data : DataFrame) : Rand (list TriangleSpec) :=
  iterrows triangle_of_row data.

Definition rectangle_of_row (row : Row) : Rand (option RectangleSpec) :=
  let no2 := NO2 row in
  let width := Rmax 0.2 (Rmin 1.5 (no2 / 40)) in
  let height := Rmax 0.2 (Rmin 1.5 (no2 / 40)) in
  let color := get_kandinsky_color no2 accent in
  x <- uniform (-6) 6 ;;
  y <- uniform (-6) 6 ;;
  let humidity := DEWP row in
  let alpha := Rmax 0.2 (Rmin 0.8 (humidity / 100)) in
  rotation <- uniform 0 360 ;;
  ret (Some (mkRectangle x y width height color alpha rotation)).

Definition create_abstract_rectangles (data : DataFrame) : Rand (list RectangleSpec) :=
  iterrows rectangle_of_row data.

Definition line_of_row (row : Row) : Rand (option LineSpec) :=
  let wind_speed := WSPM row in
  let wind_direction := wd row in
  if Rgt_dec wind_speed 2 then
    let length := Rmax 1.0 (Rmin 4.0 (wind_speed / 2)) in
    sx <- uniform (-8) 8 ;;
    sy <- uniform (-8) 8 ;;
    let ex := sx + cos (radians wind_direction) * length in
    let ey := sy + sin (radians wind_direction) * length in
    let co := CO row in
    let color := get_kandinsky_color co neutral in
    alpha <- uniform 0.4 0.8 ;;
    ret (Some (mkLine sx sy ex ey color (Rmax 1 (Rmin 5 wind_speed)) alpha))
  else ret None.

Definition create_abstract_lines (data : DataFrame) : Rand (list LineSpec) :=
  iterrows line_of_row data.

(** The vertex loop of the polygon rule:
    [for i in range(sides): angle = 2 * np.pi * i / sides; ...] *)
Definition polygon_vertices (center_x center_y size : R) (sides : Z)
    : list (R * R) :=
  map (fun i : nat =>
         let angle := 2 * PI * INR i / IZR sides in
         (center_x + size * cos angle, center_y + size * sin angle))
      (seq 0 (Z.to_nat sides)).

Definition polygon_of_row (row : Row) : Rand (option PolygonSpec) :=
  let o3 := O3 row in
  if Rgt_dec o3 50 then
    sides <- randint 5 8 ;;
    let size := Rmax 0.5 (Rmin 2.0 (o3 / 100)) in
    let color := get_kandinsky_color o3 primary in
    center_x <- uniform (-7) 7 ;;
    center_y <- uniform (-7) 7 ;;
    let vs := polygon_vertices center_x center_y size sides in
    alpha <- uniform 0.3 0.6 ;;
    rotation <- uniform 0 360 ;;
    ret (Some (mkPolygon vs color alpha rotation))
  else ret None.

Definition create_abstract_polygons (data : DataFrame) : Rand (list PolygonSpec) :=
  iterrows polygon_of_row data.

(** *** Rotation, as the three drawing routines write it

    [rx = (vx - x) * cos(angle) - (vy - y) * sin(angle) + x] and
    [ry = (vx - x) * sin(angle) + (vy - y) * cos(angle) + y], with
    [angle = np.radians(rotation)]. *)
Definition rotate_vertex (x y angle : R) (v : R * R) : R * R :=
  let (vx, vy) := v in
  ((vx - x) * cos angle - (vy - y) * sin angle + x,
   (vx - x) * sin angle + (vy - y) * cos angle + y).

Definition rotate_vertices (x y rotation : R) (vs : list (R * R))
    : list (R * R) :=
  map (rotate_vertex x y (radians rotation)) vs.

(** *** Drawing *)

(** [setup_plot(self)] *)
Definition setup_plot (ax : Axes) : Axes :=
  mkAxes (Some (-10, 10)) (Some (-10, 10)) true false (Some "#e5dbc3")
         (title ax) (patches ax) (lines ax) (texts ax) (arrows ax).

Definition draw_circle (ax : Axes) (circle : CircleSpec) : Axes :=
  let c := (c_x circle, c_y circle) in
  let ax1 := add_patch ax
               (CirclePatch c (c_radius circle) (c_color circle) (c_alpha circle)) in
  let ax2 := add_patch ax1
               (CirclePatch c (c_radius circle * 0.6) "white" 0.3) in
  add_patch ax2 (CirclePatch c (c_radius circle * 1.3) (c_color circle) 0.2).

Definition draw_abstract_circles (ax : Axes) (circles : list CircleSpec) : Axes :=
  fold_left draw_circle circles ax.

Definition triangle_vertices (x y size : R) : list (R * R) :=
  [ (x, y + size);
    (x - size * 0.866, y - size * 0.5);
    (x + size * 0.866, y - size * 0.5) ].

Definition draw_triangle (ax : Axes) (triangle : TriangleSpec) : Axes :=
  let x := t_x triangle in
  let y := t_y triangle in
  let size := t_size triangle in
  let rotated_vertices :=
    rotate_vertices x y (t_rotation triangle) (triangle_vertices x y size) in
  add_patch ax (PolygonPatch rotated_vertices (t_color triangle) (t_alpha triangle)).

Definition draw_abstract_triangles (ax : Axes) (triangles : list TriangleSpec) : Axes :=
  fold_left draw_triangle triangles ax.

Definition rectangle_vertices (x y w h : R) : list (R * R) :=
  [ (x - w / 2, y - h / 2);
    (x + w / 2, y - h / 2);
    (x + w / 2, y + h / 2);
    (x - w / 2, y + h / 2) ].

Definition draw_rectangle (ax : Axes) (rectangle : RectangleSpec) : Axes :=
  let x := r_x rectangle in
  let y := r_y rectangle in
  let rotated_vertices :=
    rotate_vertices x y (r_rotation rectangle)
      (rectangle_vertices x y (r_width rectangle) (r_height rectangle)) in
  add_patch ax (PolygonPatch rotated_vertices (r_color rectangle) (r_alpha rectangle)).

Definition draw_abstract_rectangles (ax : Axes) (rectangles : list RectangleSpec) : Axes :=
  fold_left draw_rectangle rectangles ax.

Definition draw_line (ax : Axes) (line : LineSpec) : Axes :=
  plot ax (mkLine2D [start_x line; end_x line] [start_y line; end_y line]
             (l_color line) (l_width line) (l_alpha line)).

Definition draw_abstract_lines (ax : Axes) (lines : list LineSpec) : Axes :=
  fold_left draw_line lines ax.

(** The centre the polygon routine rotates about: the mean of the vertices
    (the rule above never builds a polygon without vertices). *)
Definition centroid (vs : list (R * R)) : R * R :=
  (Rsum (map fst vs) / INR (List.length vs),
   Rsum (map snd vs) / INR (List.length vs)).

Definition draw_polygon (ax : Axes) (polygon : PolygonSpec) : Axes :=
  let (center_x, center_y) := centroid (vertices polygon) in
  let rotated_vertices :=
    rotate_vertices center_x center_y (p_rotation polygon) (vertices polygon) in
  add_patch ax (PolygonPatch rotated_vertices (p_color polygon) (p_alpha polygon)).

Definition draw_abstract_polygons (ax : Axes) (polygons : list PolygonSpec) : Axes :=
  fold_left draw_polygon polygons ax.

(** [add_background_gradient(self, data)] *)
Definition add_background_gradient (ax : Axes) (data : DataFrame) : Axes :=
  let avg_pm25 := mean (map PM25 data) in
  let bg_color :=
    if Rlt_dec avg_pm25 50 then "#e5dbc3"
    else if Rlt_dec avg_pm25 100 then "#d4c5a0"
    else if Rlt_dec avg_pm25 150 then "#c3b07d"
    else "#b29b5a" in
  set_facecolor ax bg_color.

(** *** The frame composer *)

(** The path of [create_abstract_visualization] past the emptiness test:
    generate the five families, draw them, tint the background. *)
Definition draw_frame (ax : Axes) (current : DataFrame) : Rand Axes :=
  circles <- create_abstract_circles current ;;
  triangles <- create_abstract_triangles current ;;
  rectangles <- create_abstract_rectangles current ;;
  lines <- create_abstract_lines current ;;
  polygons <- create_abstract_polygons current ;;
  let ax1 := draw_abstract_circles ax circles in
  let ax2 := draw_abstract_triangles ax1 triangles in
  let ax3 := draw_abstract_rectangles ax2 rectangles in
  let ax4 := draw_abstract_lines ax3 lines in
  let ax5 := draw_abstract_polygons ax4 polygons in
  ret (add_background_gradient ax5 current).

(** [create_abstract_visualization] from the emptiness test on, given the
    cleared and set-up axes and the selected slice: [if current_data.empty:
    return], else the drawing path. *)
Definition compose_slice (ax : Axes) (current : DataFrame) : Rand Axes :=
  match current with
  | [] => ret ax
  | _ :: _ => draw_frame ax current
  end.

(** [create_abstract_visualization(self, frame)] *)
Definition create_abstract_visualization (ax : Axes) (data : DataFrame)
    (frame : nat) (g : RandomSource) : result (Axes * RandomSource) :=
  let ax0 := setup_plot (ax_clear ax) in
  match current_time data frame with
  | Raise e => Raise e
  | Ok t => Ok (compose_slice ax0 (current_data data t) g)
  end.

(** [start_animation]: with no data the method prints and returns; with
    data, the animation calls the composer once per tick, on the frame
    numbers of [animation_frame].  [run_animation] plays the first [ticks]
    ticks ([None]: no animation was started). *)
Fixpoint play (n : nat) (data : DataFrame) (tick : nat) (ticks : nat)
    (ax : Axes) (g : RandomSource) : result (Axes * RandomSource) :=
  match ticks with
  | O => Ok (ax, g)
  | S k =>
      match create_abstract_visualization ax data (animation_frame n tick) g with
      | Raise e => Raise e
      | Ok (ax', g') => play n data (S tick) k ax' g'
      end
  end.

Definition start_animation (data : DataFrame) (ticks : nat)
    (ax : Axes) (g : RandomSource) : option (result (Axes * RandomSource)) :=
  match data with
  | [] => None
  | _ :: _ =>
      Some (play (frame_count data) data 0 ticks ax g)
  end.

End Kandinsky.

(** ** Mock data and loading, the same in both visualisers *)

(** [self.stations] *)
Definition stations : list string :=
  [ "Aotizhongxin"; "Changping"; "Dingling"; "Dongsi";
    "Guanyuan"; "Gucheng"; "Huairou"; "Nongzhanguan";
    "Shunyi"; "Tiantan"; "Wanliu"; "Wanshouxigong" ].

(** The [np.random] generator: [normal(loc, scale)] is [loc + scale * z]
    for a standard normal [z], [uniform(low, high)] is
    [low + (high - low) * u] for [u] in [0, 1), [exponential(scale)] is
    [scale * e] for a standard exponential [e]; one tape and one cursor for
    each kind of draw. *)
Record NumpyRandom : Type := mkNumpy {
  normal_tape : nat -> R;
  uniform_tape : nat -> R;
  exponential_tape : nat -> R;
  normal_pos : nat;
  uniform_pos : nat;
  exponential_pos : nat
}.

Definition np_normal (loc scale : R) (s : NumpyRandom) : R * NumpyRandom :=
  (loc + scale * normal_tape s (normal_pos s),
   mkNumpy (normal_tape s) (uniform_tape s) (exponential_tape s)
           (S (normal_pos s)) (uniform_pos s) (exponential_pos s)).

Definition np_uniform (low high : R) (s : NumpyRandom) : R * NumpyRandom :=
  (low + (high - low) * uniform_tape s (uniform_pos s),
   mkNumpy (normal_tape s) (uniform_tape s) (exponential_tape s)
           (normal_pos s) (S (uniform_pos s)) (exponential_pos s)).

Definition np_exponential (scale : R) (s : NumpyRandom) : R * NumpyRandom :=
  (scale * exponential_tape s (exponential_pos s),
   mkNumpy (normal_tape s) (uniform_tape s) (exponential_tape s)
           (normal_pos s) (uniform_pos s) (S (exponential_pos s))).

(** The body of the station loop of [generate_mock_data], for hour [i]
    (the date is [i] hours after the start date). *)
Definition mock_row (i : nat) (seasonal_factor daily_factor random_factor : R)
    (station : string) (s : NumpyRandom) : Row * NumpyRandom :=
  let '(station_factor, s1) := np_uniform 0.8 1.2 s in
  let pm25 := Rmax 0 (50 * seasonal_factor * daily_factor * random_factor * station_factor) in
  let '(u10, s2) := np_uniform 1.2 1.8 s1 in
  let pm10 := pm25 * u10 in
  let so2 := Rmax 0 (20 * seasonal_factor * random_factor * station_factor) in
  let no2 := Rmax 0 (40 * seasonal_factor * daily_factor * random_factor * station_factor) in
  let co := Rmax 0 (2 * seasonal_factor * daily_factor * random_factor * station_factor) in
  let o3 := Rmax 0 (80 * seasonal_factor * daily_factor * random_factor * station_factor) in
  let '(nt, s3) := np_normal 0 5 s2 in
  let temp := 15 + 20 * sin (2 * PI * INR i / (365 * 24)) + nt in
  let '(np, s4) := np_normal 0 10 s3 in
  let pressure := 1013 + np in
  let '(nh, s5) := np_normal 0 15 s4 in
  let humidity :=
    Rmax 0 (Rmin 100 (60 + 20 * sin (2 * PI * INR i / (365 * 24)) + nh)) in
  let '(ew, s6) := np_exponential 2 s5 in
  let wind_speed := Rmax 0 (3 + ew) in
  let '(wind_direction, s7) := np_uniform 0 360 s6 in
  let '(er, s8) := np_exponential 0.5 s7 in
  (mkRow (Datetime (Z.of_nat i)) station pm25 pm10 so2 no2 co o3 temp pressure
         (temp - 5) (Rmax 0 er) wind_speed wind_direction,
   s8).

(** [for station in self.stations: ...] *)
Fixpoint mock_stations (i : nat) (seasonal_factor daily_factor random_factor : R)
    (sts : list string) (s : NumpyRandom) : list Row * NumpyRandom :=
  match sts with
  | [] => ([], s)
  | station :: rest =>
      let '(row, s1) :=
        mock_row i seasonal_factor daily_factor random_factor station s in
      let '(rows, s2) :=
        mock_stations i seasonal_factor daily_factor random_factor rest s1 in
      (row :: rows, s2)
  end.

(** The body of the date loop. *)
Definition mock_hour (i : nat) (s : NumpyRandom) : list Row * NumpyRandom :=
  let seasonal_factor := 1 + 0.3 * sin (2 * PI * INR i / (365 * 24)) in
  let daily_factor := 1 + 0.5 * sin (2 * PI * INR (i mod 24) / 24) in
  let '(random_factor, s1) := np_normal 1 0.2 s in
  mock_stations i seasonal_factor daily_factor random_factor stations s1.

(** [for i, date in enumerate(dates): ...] *)
Fixpoint mock_hours (hours : list nat) (s : NumpyRandom)
    : list Row * NumpyRandom :=
  match hours with
  | [] => ([], s)
  | i :: rest =>
      let '(rows, s1) := mock_hour i s in
      let '(more, s2) := mock_hours rest s1 in
      ((rows ++ more)%list, s2)
  end.

(** [generate_mock_data(self, days=30)]; a timestamp is the number of
    hours since the start date, 2023-01-01 00:00. *)
Definition generate_mock_data (days : nat) (s : NumpyRandom)
    : DataFrame * NumpyRandom :=
  mock_hours (seq 0 (days * 24)) s.

(** A row as [pd.read_csv] builds it: its timestamp is text or missing,
    never a datetime object. *)
Definition read_stamp (row : Row) : bool :=
  match datetime row with
  | Datetime _ => false
  | Raw _ => true
  | Missing => true
  end.

(** What [load_data] finds: no usable path ([data_path] is [None] or the
    file does not exist), a file [pd.read_csv] fails on, or a file it
    reads, given by the frame [pd.read_csv] builds from it; the file is
    taken to have the columns the composers read. *)
Inductive FileState : Type :=
| NoFile
| Unreadable
| Readable (df : DataFrame) (parsed : forallb read_stamp df = true).

(** [load_data(self)] *)
Definition load_data (file : FileState) (s : NumpyRandom)
    : DataFrame * NumpyRandom :=
  match file with
  | Readable df _ => (df, s)
  | Unreadable => generate_mock_data 30 s
  | NoFile => generate_mock_data 30 s
  end.

(** ** Vocabulary of the properties *)

(** Severity order on labels: both are keys of the legend and the first
    does not come after the second. *)
Definition severity_le (a b : string) : Prop :=
  match Beijing.severity a, Beijing.severity b with
  | Some i, Some j => (i <= j)%nat
  | _, _ => False
  end.

(** Euclidean distance between two points of the plane. *)
Definition dist (p q : R * R) : R :=
  sqrt ((fst p - fst q) * (fst p - fst q) + (snd p - snd q) * (snd p - snd q)).

(** The trigger tests of the two conditional rules, as predicates on rows. *)
Definition wind_fires (row : Row) : bool :=
  if Rgt_dec (WSPM row) 2 then true else false.

Definition ozone_fires (row : Row) : bool :=
  if Rgt_dec (O3 row) 50 then true else false.

(** The series of distinct timestamps read the way the scheduler is
    described: tick [k] shows the timestamp at position [k mod N] of the
    distinct timestamps. *)
Definition distinct_tick_time (data : DataFrame) (tick : nat)
    : option Timestamp :=
  let series := unique (map datetime data) in
  nth_error series (tick mod List.length series)%nat.

(** What the triangle rule would have to satisfy for its sizes to stay
    within the bounds of the clamp. *)
Definition triangle_sizes_bounded : Prop :=
  forall data g t,
    In t (fst (Kandinsky.create_abstract_triangles data g)) ->
    0.3 <= Kandinsky.t_size t <= 2.0.

(** The line a windy row gives rise to. *)
Definition line_for (row : Row) (l : Kandinsky.LineSpec) : Prop :=
  let length := Rmax 1.0 (Rmin 4.0 (WSPM row / 2)) in
  Kandinsky.l_width l = Rmax 1 (Rmin 5 (WSPM row)) /\
  Kandinsky.end_x l = Kandinsky.start_x l + length * cos (radians (wd row)) /\
  Kandinsky.end_y l = Kandinsky.start_y l + length * sin (radians (wd row)).

(** The polygon an ozone-rich row gives rise to: five to eight vertices,
    all at the clamped radius from the centre. *)
Definition polygon_about (center : R * R) (row : Row)
    (p : Kandinsky.PolygonSpec) : Prop :=
  (5 <= List.length (Kandinsky.vertices p) <= 8)%nat /\
  Forall (fun v => dist v center = Rmax 0.5 (Rmin 2.0 (O3 row / 100)))
         (Kandinsky.vertices p).

Definition polygon_for (row : Row) (p : Kandinsky.PolygonSpec) : Prop :=
  exists center : R * R, polygon_about center row p.

(** The centre the polygon rule draws when it starts from the source [g]:
    the two [uniform(-7, 7)] values that follow the [randint]. *)
Definition drawn_center (g : RandomSource) : R * R :=
  let g1 := snd (randint 5 8 g) in
  (fst (uniform (-7) 7 g1), fst (uniform (-7) 7 (snd (uniform (-7) 7 g1)))).

(** A random source whose [random()] values lie in [0, 1), as Python's
    do. *)
Definition unit_draws (g : RandomSource) : Prop :=
  forall n, 0 <= unit_tape g n < 1.

(** The circle a row gives rise to. *)
Definition circle_for (row : Row) (c : Kandinsky.CircleSpec) : Prop :=
  Kandinsky.c_radius c = Rmax 0.5 (Rmin 3.0 (PM25 row / 50)) /\
  0.5 <= Kandinsky.c_radius c <= 3.0 /\
  In (Kandinsky.c_color c) (Kandinsky.kandinsky_colors Kandinsky.primary) /\
  0.4 <= Kandinsky.c_alpha c < 0.8 /\
  0 <= Kandinsky.c_rotation c < 360 /\
  -8.5 <= Kandinsky.c_x c < 8.5 /\
  -8.5 <= Kandinsky.c_y c < 8.5.

(** The point the circle rule draws when it starts from the source [g],
    before the wind displaces it. *)
Definition drawn_point (g : RandomSource) : R * R :=
  (fst (uniform (-8) 8 g), fst (uniform (-8) 8 (snd (uniform (-8) 8 g)))).

(** The rectangle a row gives rise to. *)
Definition rectangle_for (row : Row) (r : Kandinsky.RectangleSpec) : Prop :=
  Kandinsky.r_width r = Rmax 0.2 (Rmin 1.5 (NO2 row / 40)) /\
  Kandinsky.r_height r = Kandinsky.r_width r /\
  0.2 <= Kandinsky.r_width r <= 1.5 /\
  In (Kandinsky.r_color r) (Kandinsky.kandinsky_colors Kandinsky.accent) /\
  Kandinsky.r_alpha r = Rmax 0.2 (Rmin 0.8 (DEWP row / 100)) /\
  0.2 <= Kandinsky.r_alpha r <= 0.8 /\
  0 <= Kandinsky.r_rotation r < 360 /\
  -6 <= Kandinsky.r_x r < 6 /\
  -6 <= Kandinsky.r_y r < 6.

(** The triangle a row gives rise to, its size apart. *)
Definition triangle_for (row : Row) (t : Kandinsky.TriangleSpec) : Prop :=
  In (Kandinsky.t_color t) (Kandinsky.kandinsky_colors Kandinsky.secondary) /\
  0.3 <= Kandinsky.t_alpha t < 0.7 /\
  0 <= Kandinsky.t_rotation t < 360 /\
  -7 <= Kandinsky.t_x t < 7 /\
  -7 <= Kandinsky.t_y t < 7.

(** The segment a windy row gives rise to, measured. *)
Definition segment_for (row : Row) (l : Kandinsky.LineSpec) : Prop :=
  dist (Kandinsky.start_x l, Kandinsky.start_y l)
       (Kandinsky.end_x l, Kandinsky.end_y l) = Rmin 4.0 (WSPM row / 2) /\
  1 < Rmin 4.0 (WSPM row / 2) <= 4 /\
  Kandinsky.l_width l = Rmin 5 (WSPM row) /\
  2 < Kandinsky.l_width l <= 5 /\
  In (Kandinsky.l_color l) (Kandinsky.kandinsky_colors Kandinsky.neutral) /\
  0.4 <= Kandinsky.l_alpha l < 0.8 /\
  -8 <= Kandinsky.start_x l < 8 /\
  -8 <= Kandinsky.start_y l < 8.

(** Where the polygon of an ozone-rich row lies, and how it is painted. *)
Definition polygon_within (row : Row) (p : Kandinsky.PolygonSpec) : Prop :=
  Forall (fun v => (-9 <= fst v <= 9) /\ (-9 <= snd v <= 9))
         (Kandinsky.vertices p) /\
  In (Kandinsky.p_color p) (Kandinsky.kandinsky_colors Kandinsky.primary) /\
  0.3 <= Kandinsky.p_alpha p < 0.6 /\
  0 <= Kandinsky.p_rotation p < 360.

(** The random source [g] after [u] more calls of [random()] and [i] more
    integer draws. *)
Definition advance (u i : nat) (g : RandomSource) : RandomSource :=
  mkRandom (unit_tape g) (int_tape g) (unit_pos g + u) (int_pos g + i).

(** [ax'] is [ax] with [np] more patches and [nl] more lines, and nothing
    else touched. *)
Definition extends (ax ax' : Axes) (np nl : nat) : Prop :=
  List.length (patches ax') = (List.length (patches ax) + np)%nat /\
  List.length (lines ax') = (List.length (lines ax) + nl)%nat /\
  texts ax' = texts ax /\
  arrows ax' = arrows ax /\
  title ax' = title ax /\
  facecolor ax' = facecolor ax /\
  xlim ax' = xlim ax /\
  ylim ax' = ylim ax /\
  aspect_equal ax' = aspect_equal ax /\
  axis_on ax' = axis_on ax.

(** The background shade the mean PM2.5 [m] of a slice selects. *)
Definition shade_of (m : R) (shade : string) : Prop :=
  (m < 50 /\ shade = "#e5dbc3") \/
  (50 <= m < 100 /\ shade = "#d4c5a0") \/
  (100 <= m < 150 /\ shade = "#c3b07d") \/
  (150 <= m /\ shade = "#b29b5a").

(** Whether the station of a row has a place on the map. *)
Definition station_known (row : Row) : bool :=
  match lookup (station row) Beijing.create_station_layout with
  | Some _ => true
  | None => false
  end.

(** A line of the legend: a small circle in the colour of the level, and
    the name of the level at the same height. *)
Definition legend_entry (item : string * string) (pt : Patch * Text) : Prop :=
  exists y,
    fst pt = CirclePatch (0.5 + 0.5, y) 0.1 (snd item) 0.8 /\
    text_x (snd pt) = 0.5 + 0.8 /\
    text_y (snd pt) = y /\
    content (snd pt) = Literal (fst item).

(** [ax'] is [ax] with [np] more patches, [nt] more texts and [na] more
    arrows, and nothing else touched. *)
Definition grows (ax ax' : Axes) (np nt na : nat) : Prop :=
  List.length (patches ax') = (List.length (patches ax) + np)%nat /\
  List.length (texts ax') = (List.length (texts ax) + nt)%nat /\
  List.length (arrows ax') = (List.length (arrows ax) + na)%nat /\
  lines ax' = lines ax /\
  title ax' = title ax /\
  facecolor ax' = facecolor ax /\
  xlim ax' = xlim ax /\
  ylim ax' = ylim ax /\
  aspect_equal ax' = aspect_equal ax /\
  axis_on ax' = axis_on ax.

(** A numpy generator whose uniform values lie in [0, 1) and whose
    exponential values are not negative, as numpy's are. *)
Definition numpy_draws (s : NumpyRandom) : Prop :=
  (forall n, 0 <= uniform_tape s n < 1) /\
  (forall n, 0 <= exponential_tape s n).

(** What every generated row satisfies. *)
Definition mock_row_ok (row : Row) : Prop :=
  0 <= PM25 row /\
  1.2 * PM25 row <= PM10 row <= 1.8 * PM25 row /\
  0 <= SO2 row /\
  NO2 row = 0.8 * PM25 row /\
  CO row = 0.04 * PM25 row /\
  O3 row = 1.6 * PM25 row /\
  DEWP row = TEMP row - 5 /\
  0 <= RAIN row /\
  3 <= WSPM row /\
  0 <= wd row < 360.

(** The triangle a row gives rise to, by its size. *)
Definition triangle_sized (row : Row) (t : Kandinsky.TriangleSpec) : Prop :=
  Kandinsky.t_size t =
    Rmax 0.3 (Rmin 2.0 (SO2 row / 30)) * ((TEMP row + 20) / 40) /\
  0.3 <= Rmax 0.3 (Rmin 2.0 (SO2 row / 30)) <= 2.0 /\
  (-20 <= TEMP row <= 20 -> 0 <= Kandinsky.t_size t <= 2.0).

(** A row whose timestamp is a datetime object. *)
Definition dated (row : Row) : bool :=
  match datetime row with
  | Datetime _ => true
  | Raw _ => false
  | Missing => false
  end.

(** ** Sample inputs *)

Definition sample_source : RandomSource :=
  mkRandom (fun _ => 1 / 2) (fun n => Z.of_nat n) 0 0.

(** A row of station [s] at hour [t] with the given SO2, O3, temperature,
    wind speed and wind direction. *)
Definition sample_row (t : Z) (s : string) (so2 o3 temp wspm wdir : R) : Row :=
  mkRow (Datetime t) s 40 60 so2 30 1 o3 temp 1013 (temp - 5) 0 wspm wdir.

(** Two stations reporting at two successive hours. *)
Definition two_by_two : DataFrame :=
  [ sample_row 0 "Dongsi" 20 80 10 3 90;
    sample_row 0 "Tiantan" 20 80 10 3 90;
    sample_row 1 "Dongsi" 20 80 10 3 90;
    sample_row 1 "Tiantan" 20 80 10 3 90 ].

(** Single rows: a mild hour, a hot hour with much SO2, a frosty hour,
    and a calm hour with little ozone. *)
Definition mild_row : Row := sample_row 0 "Dongsi" 20 80 10 3 90.
Definition hot_row : Row := sample_row 0 "Dongsi" 90 80 30 3 90.
Definition cold_row : Row := sample_row 0 "Dongsi" 30 80 (-40) 3 90.
Definition calm_row : Row := sample_row 0 "Dongsi" 20 40 10 1 90.

(** A row as read from a file whose timestamp cell is empty, and one
    whose timestamp cell holds text. *)
Definition undated_row : Row :=
  mkRow Missing "Dongsi" 40 60 20 30 1 80 10 1013 5 0 3 90.
Definition text_row : Row :=
  mkRow (Raw "2013-03-01 00:00") "Dongsi" 40 60 20 30 1 80 10 1013 5 0 3 90.

(** Axes on which nothing was drawn yet. *)
Definition blank_axes : Axes :=
  mkAxes None None false true None None [] [] [] [].

(** A numpy generator with constant tapes. *)
Definition sample_numpy : NumpyRandom :=
  mkNumpy (fun _ => 0) (fun _ => 1 / 2) (fun _ => 1) 0 0 0.

(** * Properties *)

(** ** The PM2.5 classifier *)

Ltac classify :=
  unfold Beijing.get_aqi_level;
  repeat match goal with
         | |- context [Rle_dec ?a ?b] => destruct (Rle_dec a b)
         end;
  try lra.

Lemma aqi_labels_distinct : NoDup (map fst Beijing.aqi_colors).
Proof.
  simpl.
  repeat (constructor;
          [ simpl; intros H;
            repeat (destruct H as [H | H]; [discriminate H | ]); exact H | ]).
  constructor.
Qed.

Lemma get_aqi_level_cases (v : R) :
  (v <= 35 /\ Beijing.get_aqi_level v = "优") \/
  (35 < v <= 75 /\ Beijing.get_aqi_level v = "良") \/
  (75 < v <= 115 /\ Beijing.get_aqi_level v = "轻度污染") \/
  (115 < v <= 150 /\ Beijing.get_aqi_level v = "中度污染") \/
  (150 < v <= 250 /\ Beijing.get_aqi_level v = "重度污染") \/
  (250 < v /\ Beijing.get_aqi_level v = "严重污染").
Proof.
  classify.
  - left; split; [lra | reflexivity].
  - right; left; split; [lra | reflexivity].
  - right; right; left; split; [lra | reflexivity].
  - right; right; right; left; split; [lra | reflexivity].
  - right; right; right; right; left; split; [lra | reflexivity].
  - right; right; right; right; right; split; [lra | reflexivity].
Qed.

Lemma get_aqi_level_monotone (v1 v2 : R) :
  v1 <= v2 ->
  severity_le (Beijing.get_aqi_level v1) (Beijing.get_aqi_level v2).
Proof.
  intros Hle.
  destruct (get_aqi_level_cases v1) as [[H1 E1]|[[H1 E1]|[[H1 E1]|[[H1 E1]|[[H1 E1]|[H1 E1]]]]]];
  destruct (get_aqi_level_cases v2) as [[H2 E2]|[[H2 E2]|[[H2 E2]|[[H2 E2]|[[H2 E2]|[H2 E2]]]]]];
  try lra; rewrite E1, E2; unfold severity_le; simpl; lia.
Qed.

(** C2: the PM2.5 classifier is a total function into the six legend
    labels (which are pairwise distinct); the severity of its result is
    non-decreasing in the concentration; values at or below the first
    breakpoint, negative ones included, get the first label and values
    above the last breakpoint get the last one; 10, 50, 100, 140, 200,
    300 get the six labels in order; and the label of every value is fixed
    by the bands the breakpoints 35, 75, 115, 150 and 250 cut. *)
Theorem C2_classifier_total_monotone :
  List.length (map fst Beijing.aqi_colors) = 6%nat /\
  NoDup (map fst Beijing.aqi_colors) /\
  (forall v, In (Beijing.get_aqi_level v) (map fst Beijing.aqi_colors)) /\
  (forall v1 v2, v1 <= v2 ->
     severity_le (Beijing.get_aqi_level v1) (Beijing.get_aqi_level v2)) /\
  (forall v, v <= 35 -> Beijing.get_aqi_level v = "优") /\
  (forall v, 250 < v -> Beijing.get_aqi_level v = "严重污染") /\
  Beijing.get_aqi_level 10 = "优" /\
  Beijing.get_aqi_level 50 = "良" /\
  Beijing.get_aqi_level 100 = "轻度污染" /\
  Beijing.get_aqi_level 140 = "中度污染" /\
  Beijing.get_aqi_level 200 = "重度污染" /\
  Beijing.get_aqi_level 300 = "严重污染" /\
  (forall v,
     (v <= 35 /\ Beijing.get_aqi_level v = "优") \/
     (35 < v <= 75 /\ Beijing.get_aqi_level v = "良") \/
     (75 < v <= 115 /\ Beijing.get_aqi_level v = "轻度污染") \/
     (115 < v <= 150 /\ Beijing.get_aqi_level v = "中度污染") \/
     (150 < v <= 250 /\ Beijing.get_aqi_level v = "重度污染") \/
     (250 < v /\ Beijing.get_aqi_level v = "严重污染")).
Proof.
  split; [reflexivity | ].
  split; [exact aqi_labels_distinct | ].
  split.
  { intros v.
    destruct (get_aqi_level_cases v) as [[_ E]|[[_ E]|[[_ E]|[[_ E]|[[_ E]|[_ E]]]]]];
      rewrite E; simpl; tauto. }
  split; [exact get_aqi_level_monotone | ].
  split; [intros v Hv; classify; reflexivity | ].
  split; [intros v Hv; classify; reflexivity | ].
  do 6 (split; [classify; reflexivity | ]).
  exact get_aqi_level_cases.
Qed.

(** The monotonicity clause of C2 between a mild and a heavy reading. *)
Lemma C2_classifier_witness :
  severity_le (Beijing.get_aqi_level 50) (Beijing.get_aqi_level 200).
Proof.
  apply (proj1 (proj2 (proj2 (proj2 C2_classifier_total_monotone))) 50 200).
  lra.
Defined.

(** C10: a value equal to a breakpoint gets the milder label, and the last
    label is returned exactly for values strictly above 250. *)
Theorem C10_breakpoints_inclusive :
  Beijing.get_aqi_level 35 = "优" /\
  Beijing.get_aqi_level 75 = "良" /\
  Beijing.get_aqi_level 115 = "轻度污染" /\
  Beijing.get_aqi_level 150 = "中度污染" /\
  Beijing.get_aqi_level 250 = "重度污染" /\
  (forall v, Beijing.get_aqi_level v = "严重污染" <-> 250 < v).
Proof.
  do 5 (split; [classify; reflexivity | ]).
  intros v; split.
  - intros E.
    destruct (get_aqi_level_cases v) as [[_ E']|[[_ E']|[[_ E']|[[_ E']|[[_ E']|[H _]]]]]];
      try exact H; rewrite E' in E; discriminate E.
  - intros H. classify; reflexivity.
Qed.

(** ** The row loop *)

Section Iterrows.

Context {A : Type}.
Variable body : Row -> Rand (option A).

Lemma iterrows_cons (row : Row) (rest : DataFrame) (g : RandomSource) :
  fst (iterrows body (row :: rest) g) =
  match fst (body row g) with
  | Some a => a :: fst (iterrows body rest (snd (body row g)))
  | None => fst (iterrows body rest (snd (body row g)))
  end.
Proof.
  simpl. unfold bind, ret.
  destruct (body row g) as [o g1]; simpl.
  destruct (iterrows body rest g1) as [l g2]; simpl.
  destruct o; reflexivity.
Qed.

(** Every element of the result was produced by the body on some row. *)
Lemma iterrows_In (data : DataFrame) :
  forall g a, In a (fst (iterrows body data g)) ->
  exists row g', In row data /\ fst (body row g') = Some a.
Proof.
  induction data as [| row rest IH]; intros g a Hin.
  - simpl in Hin. contradiction.
  - rewrite iterrows_cons in Hin.
    destruct (fst (body row g)) as [a0 |] eqn:E.
    + destruct Hin as [<- | Hin].
      * exists row, g. split; [left; reflexivity | exact E].
      * destruct (IH _ _ Hin) as (r & g' & Hr & Hb).
        exists r, g'. split; [right; exact Hr | exact Hb].
    + destruct (IH _ _ Hin) as (r & g' & Hr & Hb).
      exists r, g'. split; [right; exact Hr | exact Hb].
Qed.

Variable fires : Row -> bool.
Variable Rel : Row -> A -> Prop.
Hypothesis body_fires : forall row g,
  fires row = true -> exists a, fst (body row g) = Some a /\ Rel row a.
Hypothesis body_skips : forall row g,
  fires row = false -> fst (body row g) = None.

(** One element per row that fires, in row order, and nothing else. *)
Lemma iterrows_Forall2 (data : DataFrame) :
  forall g, Forall2 Rel (filter fires data) (fst (iterrows body data g)).
Proof.
  induction data as [| row rest IH]; intros g.
  - simpl. constructor.
  - rewrite iterrows_cons. simpl.
    destruct (fires row) eqn:F.
    + destruct (body_fires row g F) as (a & E & Ha).
      rewrite E. constructor; [exact Ha | apply IH].
    + rewrite (body_skips row g F). apply IH.
Qed.

End Iterrows.

(** ** Clamps *)

Ltac clamp := unfold Rmax, Rmin in *;
  repeat match goal with
         | |- context [Rle_dec ?a ?b] => destruct (Rle_dec a b)
         | H : context [Rle_dec ?a ?b] |- _ => destruct (Rle_dec a b)
         end;
  try lra.

Lemma clamp_bounds (lo hi v : R) :
  lo <= hi -> lo <= Rmax lo (Rmin hi v) <= hi.
Proof. intros H. clamp. Qed.

(** ** The triangle rule *)

Lemma triangle_of_row_size (row : Row) (g : RandomSource) (t : Kandinsky.TriangleSpec) :
  fst (Kandinsky.triangle_of_row row g) = Some t ->
  Kandinsky.t_size t =
    Rmax 0.3 (Rmin 2.0 (SO2 row / 30)) * ((TEMP row + 20) / 40).
Proof.
  unfold Kandinsky.triangle_of_row, bind, uniform, ret. simpl.
  intros E. injection E as <-. reflexivity.
Qed.

Lemma triangle_of_row_sized (row : Row) (g : RandomSource) :
  exists t, fst (Kandinsky.triangle_of_row row g) = Some t /\ triangle_sized row t.
Proof.
  unfold Kandinsky.triangle_of_row, bind, uniform, ret. simpl.
  eexists. split; [reflexivity | ].
  unfold triangle_sized. simpl.
  pose proof (clamp_bounds 0.3 2.0 (SO2 row / 30) ltac:(lra)) as Hc.
  split; [reflexivity | ]. split; [exact Hc | ].
  intros Ht. set (c := Rmax 0.3 (Rmin 2.0 (SO2 row / 30))) in *. nra.
Qed.

(** C3, as the code has it: over any slice the triangle rule emits exactly
    one triangle per row, in row order; the size of the triangle of a row
    is the clamp of its SO2/30 to [0.3, 2.0], which does lie in [0.3, 2.0],
    times its temperature factor (TEMP + 20) / 40, which is not clamped;
    the size lies in [0, 2.0] when the temperature lies in [-20, 20]. *)
Theorem C3_triangle_size_scaled_clamp (data : DataFrame) (g : RandomSource) :
  Forall2 triangle_sized data (fst (Kandinsky.create_abstract_triangles data g)).
Proof.
  unfold Kandinsky.create_abstract_triangles.
  revert g. induction data as [| row rest IH]; intros g.
  - simpl. constructor.
  - rewrite iterrows_cons.
    destruct (triangle_of_row_sized row g) as (t & E & Ht).
    rewrite E. constructor; [exact Ht | apply IH].
Qed.

Lemma Forall2_singleton {A B : Type} (Rel : A -> B -> Prop) (a : A) (l : list B) :
  Forall2 Rel [a] l -> exists b, l = [b] /\ Rel a b.
Proof.
  intros H. inversion H as [| x b xs bs Hb Hrest]; subst.
  inversion Hrest; subst. exists b. split; [reflexivity | exact Hb].
Qed.

(** The amended C3 on the mild hour: one triangle, of size within [0, 2.0]. *)
Lemma C3_triangle_size_witness :
  exists t,
    fst (Kandinsky.create_abstract_triangles [mild_row] sample_source) = [t] /\
    triangle_sized mild_row t /\
    0 <= Kandinsky.t_size t <= 2.0.
Proof.
  destruct (Forall2_singleton _ _ _
              (C3_triangle_size_scaled_clamp [mild_row] sample_source))
    as (t & E & Ht).
  exists t. split; [exact E | ]. split; [exact Ht | ].
  destruct Ht as (_ & _ & Hb). apply Hb. simpl. lra.
Defined.

(** C3 as stated fails: on the hot hour (SO2 = 90, TEMP = 30) the size is
    2.5, above the upper bound; on the frosty hour (SO2 = 30, TEMP = -40)
    it is -0.5, below zero. *)
Lemma C3_triangle_size_counterexample :
  (exists t,
     fst (Kandinsky.create_abstract_triangles [hot_row] sample_source) = [t] /\
     Kandinsky.t_size t = 2.5) /\
  (exists t,
     fst (Kandinsky.create_abstract_triangles [cold_row] sample_source) = [t] /\
     Kandinsky.t_size t = -0.5) /\
  ~ triangle_sizes_bounded.
Proof.
  split; [ | split].
  - eexists. split; [reflexivity | ]. simpl. clamp.
  - eexists. split; [reflexivity | ]. simpl. clamp.
  - intros H.
    pose proof (H [hot_row] sample_source _ (or_introl eq_refl)) as Hb.
    simpl in Hb. revert Hb. clamp.
Qed.

(** ** The line rule *)

Lemma line_of_row_fires (row : Row) (g : RandomSource) :
  wind_fires row = true ->
  exists l, fst (Kandinsky.line_of_row row g) = Some l /\ line_for row l.
Proof.
  unfold wind_fires, Kandinsky.line_of_row.
  destruct (Rgt_dec (WSPM row) 2); [intros _ | discriminate].
  unfold bind, uniform, ret. simpl.
  eexists. split; [reflexivity | ].
  unfold line_for. simpl. repeat split; ring.
Qed.

Lemma line_of_row_skips (row : Row) (g : RandomSource) :
  wind_fires row = false -> fst (Kandinsky.line_of_row row g) = None.
Proof.
  unfold wind_fires, Kandinsky.line_of_row.
  destruct (Rgt_dec (WSPM row) 2); [discriminate | reflexivity].
Qed.

Lemma wind_fires_true (row : Row) : WSPM row > 2 -> wind_fires row = true.
Proof. unfold wind_fires. destruct (Rgt_dec (WSPM row) 2); [reflexivity | lra]. Qed.

Lemma wind_fires_false (row : Row) : WSPM row <= 2 -> wind_fires row = false.
Proof. unfold wind_fires. destruct (Rgt_dec (WSPM row) 2); [lra | reflexivity]. Qed.

(** C5: over any slice the line rule emits one line per row whose wind
    speed is above 2, in row order, and none for the other rows; each line
    has width clamp(wind_speed, 1, 5) and ends at its start plus
    clamp(wind_speed / 2, 1, 4) times (cos, sin) of the wind direction.  In
    particular a single row gives exactly one such line when its wind speed
    is above 2 and no line when it is at most 2. *)
Theorem C5_line_rule :
  (forall data g,
     Forall2 line_for (filter wind_fires data)
             (fst (Kandinsky.create_abstract_lines data g))) /\
  (forall row g, WSPM row > 2 ->
     exists l, fst (Kandinsky.create_abstract_lines [row] g) = [l] /\
               line_for row l) /\
  (forall row g, WSPM row <= 2 ->
     fst (Kandinsky.create_abstract_lines [row] g) = []).
Proof.
  assert (All : forall data g,
             Forall2 line_for (filter wind_fires data)
                     (fst (Kandinsky.create_abstract_lines data g))).
  { intros data g.
    apply iterrows_Forall2; [apply line_of_row_fires | apply line_of_row_skips]. }
  split; [exact All | split].
  - intros row g Hw. specialize (All [row] g).
    simpl in All. rewrite (wind_fires_true row Hw) in All.
    inversion All as [| r l rs ls Hl Hrest]; subst.
    inversion Hrest; subst.
    exists l. split; [reflexivity | exact Hl].
  - intros row g Hw. specialize (All [row] g).
    simpl in All. rewrite (wind_fires_false row Hw) in All.
    inversion All. reflexivity.
Qed.

(** C5 on the mild hour (wind speed 3) and on the calm hour (wind speed 1). *)
Lemma C5_line_rule_witness :
  (exists l, fst (Kandinsky.create_abstract_lines [mild_row] sample_source) = [l] /\
             line_for mild_row l) /\
  fst (Kandinsky.create_abstract_lines [calm_row] sample_source) = [].
Proof.
  split.
  - apply (proj1 (proj2 C5_line_rule) mild_row sample_source). simpl. lra.
  - apply (proj2 (proj2 C5_line_rule) calm_row sample_source). simpl. lra.
Defined.

(** ** The polygon rule *)

Lemma dist_polar (cx cy r a : R) :
  0 <= r -> dist (cx + r * cos a, cy + r * sin a) (cx, cy) = r.
Proof.
  intros Hr. unfold dist. simpl.
  replace ((cx + r * cos a - cx) * (cx + r * cos a - cx) +
           (cy + r * sin a - cy) * (cy + r * sin a - cy))
    with (r * r * (Rsqr (sin a) + Rsqr (cos a))) by (unfold Rsqr; ring).
  rewrite sin2_cos2, Rmult_1_r.
  apply sqrt_square. exact Hr.
Qed.

Lemma polygon_vertices_length (cx cy size : R) (sides : Z) :
  List.length (Kandinsky.polygon_vertices cx cy size sides) = Z.to_nat sides.
Proof.
  unfold Kandinsky.polygon_vertices. rewrite length_map, length_seq. reflexivity.
Qed.

Lemma polygon_vertices_equidistant (cx cy size : R) (sides : Z) :
  0 <= size ->
  Forall (fun v => dist v (cx, cy) = size)
         (Kandinsky.polygon_vertices cx cy size sides).
Proof.
  intros Hs. unfold Kandinsky.polygon_vertices.
  apply Forall_forall. intros v Hv.
  apply in_map_iff in Hv. destruct Hv as (i & <- & _).
  apply dist_polar. exact Hs.
Qed.

Lemma randint_5_8 (k : Z) : (5 <= Z.to_nat (5 + k mod (8 - 5 + 1)) <= 8)%nat.
Proof.
  change (8 - 5 + 1)%Z with 4%Z.
  pose proof (Z.mod_pos_bound k 4 ltac:(lia)). lia.
Qed.

Lemma polygon_of_row_center (row : Row) (g : RandomSource) :
  O3 row > 50 ->
  exists p, fst (Kandinsky.polygon_of_row row g) = Some p /\
            polygon_about (drawn_center g) row p.
Proof.
  intros Ho. unfold Kandinsky.polygon_of_row.
  destruct (Rgt_dec (O3 row) 50); [ | lra].
  unfold drawn_center, bind, randint, uniform, ret.
  cbn [fst snd unit_tape int_tape unit_pos int_pos].
  eexists. split; [reflexivity | ].
  unfold polygon_about. cbn [Kandinsky.vertices]. split.
  - rewrite polygon_vertices_length. apply randint_5_8.
  - apply polygon_vertices_equidistant.
    pose proof (clamp_bounds 0.5 2.0 (O3 row / 100) ltac:(lra)). lra.
Qed.

Lemma polygon_of_row_fires (row : Row) (g : RandomSource) :
  ozone_fires row = true ->
  exists p, fst (Kandinsky.polygon_of_row row g) = Some p /\ polygon_for row p.
Proof.
  unfold ozone_fires.
  destruct (Rgt_dec (O3 row) 50) as [Ho | ]; [intros _ | discriminate].
  destruct (polygon_of_row_center row g Ho) as (p & E & Hp).
  exists p. split; [exact E | ]. exists (drawn_center g). exact Hp.
Qed.

Lemma polygon_of_row_skips (row : Row) (g : RandomSource) :
  ozone_fires row = false -> fst (Kandinsky.polygon_of_row row g) = None.
Proof.
  unfold ozone_fires, Kandinsky.polygon_of_row.
  destruct (Rgt_dec (O3 row) 50); [discriminate | reflexivity].
Qed.

Lemma ozone_fires_true (row : Row) : O3 row > 50 -> ozone_fires row = true.
Proof. unfold ozone_fires. destruct (Rgt_dec (O3 row) 50); [reflexivity | lra]. Qed.

Lemma ozone_fires_false (row : Row) : O3 row <= 50 -> ozone_fires row = false.
Proof. unfold ozone_fires. destruct (Rgt_dec (O3 row) 50); [lra | reflexivity]. Qed.

(** C4: over any slice the polygon rule emits one polygon per row whose O3
    is above 50, in row order, and none for the other rows; each polygon
    has five to eight vertices, all at distance clamp(O3 / 100, 0.5, 2.0)
    from one centre.  In particular a single row gives exactly one such
    polygon, about the centre the rule has drawn, when its O3 is above 50,
    and nothing when it is at most 50. *)
Theorem C4_polygon_rule :
  (forall data g,
     Forall2 polygon_for (filter ozone_fires data)
             (fst (Kandinsky.create_abstract_polygons data g))) /\
  (forall row g, O3 row > 50 ->
     exists p, fst (Kandinsky.create_abstract_polygons [row] g) = [p] /\
               polygon_about (drawn_center g) row p) /\
  (forall row g, O3 row <= 50 ->
     fst (Kandinsky.create_abstract_polygons [row] g) = []).
Proof.
  split; [ | split].
  - intros data g.
    apply iterrows_Forall2; [apply polygon_of_row_fires | apply polygon_of_row_skips].
  - intros row g Ho.
    destruct (polygon_of_row_center row g Ho) as (p & E & Hp).
    exists p. split; [ | exact Hp].
    unfold Kandinsky.create_abstract_polygons.
    rewrite iterrows_cons, E. reflexivity.
  - intros row g Ho.
    unfold Kandinsky.create_abstract_polygons.
    rewrite iterrows_cons, (polygon_of_row_skips row g (ozone_fires_false row Ho)).
    reflexivity.
Qed.

(** C4 on the mild hour (O3 = 80) and on the calm hour (O3 = 40). *)
Lemma C4_polygon_rule_witness :
  (exists p, fst (Kandinsky.create_abstract_polygons [mild_row] sample_source) = [p] /\
             polygon_about (drawn_center sample_source) mild_row p) /\
  fst (Kandinsky.create_abstract_polygons [calm_row] sample_source) = [].
Proof.
  split.
  - apply (proj1 (proj2 C4_polygon_rule) mild_row sample_source). simpl. lra.
  - apply (proj2 (proj2 C4_polygon_rule) calm_row sample_source). simpl. lra.
Defined.

(** ** Rotation *)

Lemma rotate_vertex_dist (x y angle : R) (p q : R * R) :
  dist (Kandinsky.rotate_vertex x y angle p) (Kandinsky.rotate_vertex x y angle q)
  = dist p q.
Proof.
  destruct p as [px py], q as [qx qy].
  unfold dist, Kandinsky.rotate_vertex. simpl.
  f_equal.
  set (c := cos angle). set (s := sin angle).
  assert (H : s * s + c * c = 1).
  { pose proof (sin2_cos2 angle) as H. unfold Rsqr in H. exact H. }
  transitivity (((px - qx) * (px - qx) + (py - qy) * (py - qy)) * (s * s + c * c)).
  - ring.
  - rewrite H. ring.
Qed.

Lemma radians_90 : radians 90 = PI / 2.
Proof. unfold radians. field. Qed.

Lemma rotate_vertex_quarter (x y : R) (v : R * R) :
  Kandinsky.rotate_vertex x y (radians 90) v = (x - (snd v - y), y + (fst v - x)).
Proof.
  destruct v as [vx vy]. unfold Kandinsky.rotate_vertex.
  rewrite radians_90, cos_PI2, sin_PI2. simpl. f_equal; ring.
Qed.

Lemma rotate_vertex_four_quarters (x y : R) (v : R * R) :
  Kandinsky.rotate_vertex x y (radians 90)
    (Kandinsky.rotate_vertex x y (radians 90)
       (Kandinsky.rotate_vertex x y (radians 90)
          (Kandinsky.rotate_vertex x y (radians 90) v))) = v.
Proof.
  rewrite !rotate_vertex_quarter. destruct v as [vx vy]. simpl. f_equal; ring.
Qed.

(** C6: rotating a vertex list about any centre by any angle keeps the
    distance between any two of its vertices, and four rotations by 90
    degrees about one centre give back the vertex list (over the reals);
    the triangle and polygon routines draw exactly such a rotated list,
    about the triangle's centre and about the mean of the polygon's
    vertices. *)
Theorem C6_rotation_isometry :
  (forall x y rotation vs i j p q,
     nth_error vs i = Some p -> nth_error vs j = Some q ->
     exists p' q',
       nth_error (Kandinsky.rotate_vertices x y rotation vs) i = Some p' /\
       nth_error (Kandinsky.rotate_vertices x y rotation vs) j = Some q' /\
       dist p' q' = dist p q) /\
  (forall x y vs,
     Kandinsky.rotate_vertices x y 90
       (Kandinsky.rotate_vertices x y 90
          (Kandinsky.rotate_vertices x y 90
             (Kandinsky.rotate_vertices x y 90 vs))) = vs) /\
  (forall ax t,
     patches (Kandinsky.draw_triangle ax t) =
     (patches ax ++
     [PolygonPatch
        (Kandinsky.rotate_vertices (Kandinsky.t_x t) (Kandinsky.t_y t)
           (Kandinsky.t_rotation t)
           (Kandinsky.triangle_vertices (Kandinsky.t_x t) (Kandinsky.t_y t)
              (Kandinsky.t_size t)))
        (Kandinsky.t_color t) (Kandinsky.t_alpha t)])%list) /\
  (forall ax p,
     patches (Kandinsky.draw_polygon ax p) =
     (patches ax ++
     [PolygonPatch
        (Kandinsky.rotate_vertices
           (fst (Kandinsky.centroid (Kandinsky.vertices p)))
           (snd (Kandinsky.centroid (Kandinsky.vertices p)))
           (Kandinsky.p_rotation p) (Kandinsky.vertices p))
        (Kandinsky.p_color p) (Kandinsky.p_alpha p)])%list).
Proof.
  split; [ | split; [ | split]].
  - intros x y rotation vs i j p q Hp Hq.
    unfold Kandinsky.rotate_vertices.
    exists (Kandinsky.rotate_vertex x y (radians rotation) p),
           (Kandinsky.rotate_vertex x y (radians rotation) q).
    rewrite !nth_error_map, Hp, Hq. simpl.
    repeat split. apply rotate_vertex_dist.
  - intros x y vs. unfold Kandinsky.rotate_vertices.
    rewrite !map_map.
    rewrite <- (map_id vs) at 2.
    apply map_ext. intros v. apply rotate_vertex_four_quarters.
  - intros ax t. reflexivity.
  - intros ax p. reflexivity.
Qed.

(** C6 on a unit triangle about the origin turned by 30 degrees: its apex
    and its left corner stay as far apart as they were. *)
Lemma C6_rotation_isometry_witness :
  exists p' q',
    nth_error (Kandinsky.rotate_vertices 0 0 30
                 (Kandinsky.triangle_vertices 0 0 1)) 0 = Some p' /\
    nth_error (Kandinsky.rotate_vertices 0 0 30
                 (Kandinsky.triangle_vertices 0 0 1)) 1 = Some q' /\
    dist p' q' = dist (0, 0 + 1) (0 - 1 * 0.866, 0 - 1 * 0.5).
Proof.
  apply (proj1 C6_rotation_isometry 0 0 30 (Kandinsky.triangle_vertices 0 0 1)
           0%nat 1%nat); reflexivity.
Defined.

(** ** Frame selection and the scheduler *)

Lemma same_stamp_spec (a b : Timestamp) : reflect (a = b) (same_stamp a b).
Proof.
  destruct a as [x | x |], b as [y | y |]; simpl;
    try (constructor; congruence).
  - destruct (Z.eqb_spec x y); constructor; congruence.
  - destruct (String.eqb_spec x y); constructor; congruence.
Qed.

Lemma stamp_eq_refl (t : Timestamp) : t <> Missing -> stamp_eq t t = true.
Proof.
  destruct t as [x | x |]; simpl; intros H.
  - apply Z.eqb_refl.
  - apply String.eqb_refl.
  - congruence.
Qed.

Lemma stamp_eq_missing (t : Timestamp) : stamp_eq t Missing = false.
Proof. destruct t; reflexivity. Qed.

Lemma unique_length_le (l : list Timestamp) :
  (List.length (unique l) <= List.length l)%nat.
Proof.
  induction l as [| t l IH]; simpl; [lia | ].
  pose proof (filter_length_le (fun u => negb (same_stamp u t)) (unique l)). lia.
Qed.

Lemma unique_hd (l : list Timestamp) : hd_error (unique l) = hd_error l.
Proof. destruct l; reflexivity. Qed.

Lemma frame_count_le (data : DataFrame) :
  (frame_count data <= List.length data)%nat.
Proof.
  unfold frame_count.
  pose proof (unique_length_le (map datetime data)) as H.
  rewrite length_map in H. exact H.
Qed.

Lemma frame_count_pos (data : DataFrame) :
  data <> [] -> (0 < frame_count data)%nat.
Proof.
  destruct data as [| row rest]; [congruence | intros _].
  unfold frame_count. simpl. lia.
Qed.

(** With rows in the frame, the selection reads the row at position
    [frame mod frame_count] and takes its timestamp. *)
Lemma current_time_row (data : DataFrame) (frame : nat) :
  data <> [] ->
  exists row,
    nth_error data (frame mod frame_count data) = Some row /\
    current_time data frame = Ok (datetime row).
Proof.
  intros Hne.
  pose proof (frame_count_pos data Hne) as Hpos.
  pose proof (frame_count_le data) as Hle.
  assert (Hlt : (frame mod frame_count data < List.length data)%nat).
  { pose proof (Nat.mod_upper_bound frame (frame_count data) ltac:(lia)). lia. }
  destruct (nth_error data (frame mod frame_count data)) as [row |] eqn:E.
  - exists row. split; [reflexivity | ].
    unfold current_time. fold (frame_count data).
    destruct (frame_count data) as [| n] eqn:En; [lia | ].
    rewrite nth_error_map, E. reflexivity.
  - apply nth_error_None in E. lia.
Qed.

Lemma current_time_mod (data : DataFrame) (frame : nat) :
  current_time data (frame mod frame_count data) = current_time data frame.
Proof.
  unfold current_time. fold (frame_count data).
  destruct (frame_count data) as [| n] eqn:En; [reflexivity | ].
  rewrite Nat.Div0.mod_mod. reflexivity.
Qed.

(** C7: with rows in the store and N distinct timestamps, the timestamp
    chosen for frame number f is the one chosen for frame number f mod N;
    frame 0 gets the first timestamp of the series, and so does frame N:
    as a function of the frame number the reference timestamp has
    period N. *)
Theorem C7_scheduler_period (data : DataFrame) :
  data <> [] ->
  exists first,
    hd_error (unique (map datetime data)) = Some first /\
    (0 < frame_count data)%nat /\
    (forall f, current_time data f = current_time data (f mod frame_count data)) /\
    (forall f, current_time data (f + frame_count data) = current_time data f) /\
    current_time data 0 = Ok first /\
    current_time data (frame_count data) = Ok first.
Proof.
  intros Hne.
  pose proof (frame_count_pos data Hne) as Hpos.
  destruct (current_time_row data 0 Hne) as (row & Hrow & Ht).
  rewrite Nat.Div0.mod_0_l in Hrow.
  assert (Hzero : current_time data (frame_count data) = current_time data 0).
  { rewrite <- (current_time_mod data (frame_count data)).
    rewrite Nat.Div0.mod_same. reflexivity. }
  exists (datetime row).
  split.
  { rewrite unique_hd. destruct data as [| r rest]; [congruence | ].
    simpl in Hrow. injection Hrow as ->. reflexivity. }
  split; [exact Hpos | ].
  split; [intros f; symmetry; apply current_time_mod | ].
  split.
  { intros f. rewrite <- (current_time_mod data (f + frame_count data)).
    replace (f + frame_count data)%nat with (f + 1 * frame_count data)%nat by lia.
    rewrite Nat.Div0.mod_add. apply current_time_mod. }
  split; [exact Ht | rewrite Hzero; exact Ht].
Qed.

(** C7 on two stations reporting at two hours: two distinct timestamps,
    and frames 0 and 2 both show hour 0. *)
Lemma C7_scheduler_period_witness :
  exists first,
    hd_error (unique (map datetime two_by_two)) = Some first /\
    (0 < frame_count two_by_two)%nat /\
    (forall f, current_time two_by_two f =
               current_time two_by_two (f mod frame_count two_by_two)) /\
    (forall f, current_time two_by_two (f + frame_count two_by_two) =
               current_time two_by_two f) /\
    current_time two_by_two 0 = Ok first /\
    current_time two_by_two (frame_count two_by_two) = Ok first.
Proof.
  apply (C7_scheduler_period two_by_two). discriminate.
Defined.

(** ** The frame composer *)

Lemma compose_slice_nonempty (ax : Axes) (current : DataFrame) :
  current <> [] ->
  Kandinsky.compose_slice ax current = Kandinsky.draw_frame ax current.
Proof. destruct current; [congruence | reflexivity]. Qed.

Lemma current_data_In (data : DataFrame) (row : Row) :
  datetime row <> Missing ->
  In row data -> In row (current_data data (datetime row)).
Proof.
  intros Hp Hin. unfold current_data. apply filter_In.
  split; [exact Hin | apply stamp_eq_refl, Hp].
Qed.

Lemma current_data_missing (data : DataFrame) : current_data data Missing = [].
Proof.
  unfold current_data. induction data as [| row rest IH]; [reflexivity | ].
  simpl. rewrite stamp_eq_missing. exact IH.
Qed.

(** On a store with rows the abstract composer always returns: it goes on
    from the selection to the emptiness test. *)
Lemma composer_returns (data : DataFrame) (frame : nat) (ax : Axes)
    (g : RandomSource) :
  data <> [] ->
  exists row,
    nth_error data (frame mod frame_count data) = Some row /\
    current_time data frame = Ok (datetime row) /\
    Kandinsky.create_abstract_visualization ax data frame g =
    Ok (Kandinsky.compose_slice (Kandinsky.setup_plot (ax_clear ax))
          (current_data data (datetime row)) g).
Proof.
  intros Hne.
  destruct (current_time_row data frame Hne) as (row & Hrow & Ht).
  exists row. split; [exact Hrow | ]. split; [exact Ht | ].
  unfold Kandinsky.create_abstract_visualization. rewrite Ht. reflexivity.
Qed.

Lemma play_runs (data : DataFrame) (n ticks : nat) :
  data <> [] ->
  forall tick ax g, exists out, Kandinsky.play n data tick ticks ax g = Ok out.
Proof.
  intros Hne. induction ticks as [| k IH]; intros tick ax g; simpl.
  - eexists. reflexivity.
  - destruct (composer_returns data (animation_frame n tick) ax g Hne)
      as (row & _ & _ & Hrun).
    rewrite Hrun.
    destruct (Kandinsky.compose_slice _ _ g) as [ax' g']. apply IH.
Qed.

(** C8: on an empty slice the composer, working on the axes it has just
    cleared and set up, returns them as they are: no patch, no line, no
    text, no arrow, the background of [setup_plot], and no draw from the
    random source; being a function into plain values, it raises nothing. *)
Theorem C8_empty_slice_composition (ax : Axes) (g : RandomSource) :
  Kandinsky.compose_slice (Kandinsky.setup_plot (ax_clear ax)) [] g =
    (Kandinsky.setup_plot (ax_clear ax), g) /\
  patches (Kandinsky.setup_plot (ax_clear ax)) = [] /\
  lines (Kandinsky.setup_plot (ax_clear ax)) = [] /\
  texts (Kandinsky.setup_plot (ax_clear ax)) = [] /\
  arrows (Kandinsky.setup_plot (ax_clear ax)) = [] /\
  facecolor (Kandinsky.setup_plot (ax_clear ax)) = Some "#e5dbc3".
Proof. repeat split. Qed.

(** C9, as the code has it: with rows in the store, for every frame number
    the position [frame mod N] lies inside the frame of records and the
    reference timestamp is the one of the row at that position.  When that
    timestamp is not missing, the row belongs to the selected slice, which
    is therefore not empty, and both composers take their drawing path.
    When it is missing, nothing equals it: the slice is empty and both
    composers take their early return.  Either way an abstract animation
    started on the store runs any number of ticks without raising. *)
Theorem C9_slice_by_timestamp (data : DataFrame) (frame : nat) :
  data <> [] ->
  exists row,
    (frame mod frame_count data < List.length data)%nat /\
    nth_error data (frame mod frame_count data) = Some row /\
    current_time data frame = Ok (datetime row) /\
    (datetime row <> Missing ->
     In row (current_data data (datetime row)) /\
     current_data data (datetime row) <> [] /\
     (forall ax g,
        Kandinsky.create_abstract_visualization ax data frame g =
        Ok (Kandinsky.draw_frame (Kandinsky.setup_plot (ax_clear ax))
              (current_data data (datetime row)) g)) /\
     (forall ax,
        Beijing.create_pollutant_visualization ax data frame =
        Beijing.draw_frame (Beijing.setup_plot (ax_clear ax))
          (datetime row) (current_data data (datetime row)))) /\
    (datetime row = Missing ->
     current_data data (datetime row) = [] /\
     (forall ax g,
        Kandinsky.create_abstract_visualization ax data frame g =
        Ok (Kandinsky.setup_plot (ax_clear ax), g)) /\
     (forall ax,
        Beijing.create_pollutant_visualization ax data frame =
        Ok (Beijing.setup_plot (ax_clear ax)))) /\
    (forall ticks ax g,
       exists out, Kandinsky.start_animation data ticks ax g = Some (Ok out)).
Proof.
  intros Hne.
  destruct (current_time_row data frame Hne) as (row & Hrow & Ht).
  exists row.
  split; [apply nth_error_Some; rewrite Hrow; discriminate | ].
  split; [exact Hrow | ].
  split; [exact Ht | ].
  split; [ | split].
  - intros Hp.
    pose proof (current_data_In data row Hp (nth_error_In _ _ Hrow)) as Hin.
    assert (Hslice : current_data data (datetime row) <> []).
    { intros E. rewrite E in Hin. exact Hin. }
    split; [exact Hin | ]. split; [exact Hslice | ]. split.
    + intros ax g. unfold Kandinsky.create_abstract_visualization.
      rewrite Ht, compose_slice_nonempty; [reflexivity | exact Hslice].
    + intros ax. unfold Beijing.create_pollutant_visualization.
      rewrite Ht. unfold Beijing.compose_slice.
      destruct (current_data data (datetime row)); [congruence | reflexivity].
  - intros Hm. rewrite Hm in *.
    split; [apply current_data_missing | ]. split.
    + intros ax g. unfold Kandinsky.create_abstract_visualization.
      rewrite Ht, current_data_missing. reflexivity.
    + intros ax. unfold Beijing.create_pollutant_visualization.
      rewrite Ht, current_data_missing. reflexivity.
  - intros ticks ax g. unfold Kandinsky.start_animation.
    destruct data as [| r rest]; [congruence | ].
    destruct (play_runs (r :: rest) (frame_count (r :: rest)) ticks Hne 0%nat ax g)
      as (out & Hout).
    exists out. rewrite Hout. reflexivity.
Qed.

(** The amended C9 on a store of two rows as read from a file, the second
    with an empty timestamp cell, at frames 0 and 1: at frame 0 the slice
    holds the first row, at frame 1 it is empty. *)
Lemma C9_slice_by_timestamp_witness :
  (exists row,
     nth_error [text_row; undated_row]
               (0 mod frame_count [text_row; undated_row]) = Some row /\
     datetime row <> Missing /\
     In row (current_data [text_row; undated_row] (datetime row))) /\
  (exists row,
     nth_error [text_row; undated_row]
               (1 mod frame_count [text_row; undated_row]) = Some row /\
     datetime row = Missing /\
     current_data [text_row; undated_row] (datetime row) = []).
Proof.
  assert (Hne : [text_row; undated_row] <> []) by discriminate.
  split.
  - destruct (C9_slice_by_timestamp [text_row; undated_row] 0 Hne)
      as (row & _ & Hrow & _ & Hp & _).
    exists row. split; [exact Hrow | ].
    assert (Hd : datetime row <> Missing).
    { simpl in Hrow. injection Hrow as <-. discriminate. }
    split; [exact Hd | apply (Hp Hd)].
  - destruct (C9_slice_by_timestamp [text_row; undated_row] 1 Hne)
      as (row & _ & Hrow & _ & _ & Hm & _).
    exists row. split; [exact Hrow | ].
    assert (Hd : datetime row = Missing).
    { simpl in Hrow. injection Hrow as <-. reflexivity. }
    split; [exact Hd | apply (Hm Hd)].
Defined.

(** C9 as stated fails: in a store of two rows as read from a file, the
    second with an empty timestamp cell, frame 1 reads position 1, a valid
    position; the reference timestamp is the missing value, the slice is
    empty although the store has rows, and the composer takes its early
    return: the set-up axes, and no draw from the random source. *)
Lemma C9_slice_nonempty_counterexample :
  [text_row; undated_row] <> [] /\
  frame_count [text_row; undated_row] = 2%nat /\
  nth_error [text_row; undated_row] (1 mod 2) = Some undated_row /\
  current_time [text_row; undated_row] 1 = Ok Missing /\
  current_data [text_row; undated_row] Missing = [] /\
  Kandinsky.create_abstract_visualization blank_axes [text_row; undated_row] 1
    sample_source = Ok (Kandinsky.setup_plot (ax_clear blank_axes), sample_source).
Proof.
  split; [discriminate | ]. repeat split.
Qed.

(** ** Frame order *)

Lemma filter_absent (t : Timestamp) (l : list Timestamp) :
  ~ In t l -> filter (fun u => negb (same_stamp u t)) l = l.
Proof.
  induction l as [| u l IH]; intros Hn; simpl; [reflexivity | ].
  destruct (same_stamp_spec u t) as [-> | Hne]; simpl.
  - exfalso. apply Hn. left. reflexivity.
  - rewrite IH; [reflexivity | ]. intros H. apply Hn. right. exact H.
Qed.

Lemma unique_NoDup (l : list Timestamp) : NoDup l -> unique l = l.
Proof.
  induction 1 as [| t l Hn Hnd IH]; simpl; [reflexivity | ].
  rewrite IH, filter_absent; [reflexivity | exact Hn].
Qed.

Lemma animation_frame_first_pass (frames tick : nat) :
  (tick < frames)%nat -> animation_frame frames tick = tick.
Proof.
  intros H. unfold animation_frame. apply Nat.ltb_lt in H. rewrite H. reflexivity.
Qed.

(** When every timestamp has a single row, the first pass of the
    animation does follow the series of distinct timestamps. *)
Lemma tick_time_single_station (data : DataFrame) (tick : nat) :
  data <> [] -> NoDup (map datetime data) -> (tick < frame_count data)%nat ->
  exists t, tick_time data tick = Ok t /\ distinct_tick_time data tick = Some t.
Proof.
  intros Hne Hnd Hlt.
  unfold tick_time. rewrite animation_frame_first_pass by exact Hlt.
  destruct (current_time_row data tick Hne) as (row & Hrow & Ht).
  exists (datetime row). split; [exact Ht | ].
  unfold distinct_tick_time. fold (frame_count data).
  rewrite (unique_NoDup _ Hnd), nth_error_map, Hrow. reflexivity.
Qed.

Lemma two_by_two_always_first (frame : nat) :
  current_time two_by_two frame = Ok (Datetime 0).
Proof.
  unfold current_time.
  change (List.length (unique (map datetime two_by_two))) with 2%nat.
  cbv iota beta.
  pose proof (Nat.mod_upper_bound frame 2 ltac:(lia)) as H.
  destruct (frame mod 2)%nat as [| [| k]]; [reflexivity | reflexivity | lia].
Qed.

(** C1 at two stations reporting at hours 0 and 1: the distinct timestamps
    are 0 and 1, so tick 1 should show hour 1; the code reads the timestamp
    of the row at position 1, the second station's row of hour 0, and shows
    hour 0 again at every odd tick; hour 1 is never shown. *)
Theorem C1_frames_repeat_first_timestamp :
  unique (map datetime two_by_two) = [Datetime 0; Datetime 1] /\
  frame_count two_by_two = 2%nat /\
  tick_time two_by_two 0 = Ok (Datetime 0) /\
  tick_time two_by_two 1 = Ok (Datetime 0) /\
  distinct_tick_time two_by_two 0 = Some (Datetime 0) /\
  distinct_tick_time two_by_two 1 = Some (Datetime 1) /\
  (forall tick, tick_time two_by_two tick = Ok (Datetime 0)).
Proof.
  repeat split.
  intros tick. unfold tick_time. apply two_by_two_always_first.
Qed.

(** * Further properties of the two visualisers *)

(** ** The palette classifier *)

Lemma get_kandinsky_color_slot (value : R) (color_type : Kandinsky.ColorType) :
  exists i : nat,
    (i <= 5)%nat /\
    Kandinsky.get_kandinsky_color value color_type =
      nth i (Kandinsky.kandinsky_colors color_type) "" /\
    In (Kandinsky.get_kandinsky_color value color_type)
       (Kandinsky.kandinsky_colors color_type) /\
    (i = 0%nat \/ 50 * INR i <= value) /\
    (i = 5%nat \/ value < 50 * INR (i + 1)).
Proof.
  unfold Kandinsky.get_kandinsky_color.
  destruct (Rlt_dec value 50);
    [ exists 0%nat
    | destruct (Rlt_dec value 100);
      [ exists 1%nat
      | destruct (Rlt_dec value 150);
        [ exists 2%nat
        | destruct (Rlt_dec value 200);
          [ exists 3%nat
          | destruct (Rlt_dec value 250); [ exists 4%nat | exists 5%nat ] ] ] ] ];
    (split; [lia | ]);
    (split; [reflexivity | ]);
    (split; [destruct color_type; simpl; tauto | ]);
    simpl; split; try (left; reflexivity); right; lra.
Qed.


(** X1: the palette classifier returns the colour of one of the six slots
    of the chosen family; slot i is taken for values in [50 i, 50 (i + 1)),
    the first slot also for everything below 50 and the last one for
    everything from 250 on, so a value equal to a breakpoint falls in the
    upper slot. *)
Theorem X1_palette_slot (value : R) (color_type : Kandinsky.ColorType) :
  exists i : nat,
    (i <= 5)%nat /\
    Kandinsky.get_kandinsky_color value color_type =
      nth i (Kandinsky.kandinsky_colors color_type) "" /\
    In (Kandinsky.get_kandinsky_color value color_type)
       (Kandinsky.kandinsky_colors color_type) /\
    (i = 0%nat \/ 50 * INR i <= value) /\
    (i = 5%nat \/ value < 50 * INR (i + 1)).
Proof. exact (get_kandinsky_color_slot value color_type). Qed.

(** ** Rules under an invariant of the random source *)

Section IterrowsInv.

Context {A : Type}.
Variable body : Row -> Rand (option A).
Variable Inv : RandomSource -> Prop.
Variable Rel : Row -> A -> Prop.
Hypothesis body_inv : forall row g, Inv g -> Inv (snd (body row g)).
Hypothesis body_always : forall row g, Inv g ->
  exists a, fst (body row g) = Some a /\ Rel row a.

Lemma iterrows_inv (data : DataFrame) :
  forall g, Inv g -> Inv (snd (iterrows body data g)).
Proof.
  induction data as [| row rest IH]; intros g Hg; simpl; [exact Hg | ].
  unfold bind, ret.
  pose proof (body_inv row g Hg) as H1.
  destruct (body row g) as [o g1]; simpl in *.
  pose proof (IH g1 H1) as H2.
  destruct (iterrows body rest g1) as [l g2]; simpl in *. exact H2.
Qed.

(** One element per row, in row order, each related to its row. *)
Lemma iterrows_Forall2_all (data : DataFrame) :
  forall g, Inv g -> Forall2 Rel data (fst (iterrows body data g)).
Proof.
  induction data as [| row rest IH]; intros g Hg.
  - simpl. constructor.
  - rewrite iterrows_cons.
    destruct (body_always row g Hg) as (a & E & Ha).
    rewrite E. constructor; [exact Ha | apply IH, body_inv, Hg].
Qed.

End IterrowsInv.

Lemma uniform_range (a b : R) (g : RandomSource) :
  unit_draws g -> a <= b ->
  a <= fst (uniform a b g) /\ (a < b -> fst (uniform a b g) < b).
Proof.
  intros Hg Hab. unfold uniform. simpl.
  pose proof (Hg (unit_pos g)) as Hu. split; [nra | intros; nra].
Qed.

Ltac run_rule :=
  unfold bind, uniform, randint, ret;
  cbn [fst snd unit_tape int_tape unit_pos int_pos].

Ltac tape_bounds g :=
  repeat match goal with
         | |- context [unit_tape g ?n] =>
             lazymatch goal with
             | H : 0 <= unit_tape g n < 1 |- _ => fail
             | Hg : unit_draws g |- _ => pose proof (Hg n)
             end
         end.

(** ** The circle rule *)

Lemma circle_of_row_inv (row : Row) (g : RandomSource) :
  unit_draws g -> unit_draws (snd (Kandinsky.circle_of_row row g)).
Proof. intros Hg n. exact (Hg n). Qed.

Lemma circle_of_row_draws (row : Row) (g : RandomSource) :
  unit_draws g ->
  exists c, fst (Kandinsky.circle_of_row row g) = Some c /\ circle_for row c.
Proof.
  intros Hg. unfold Kandinsky.circle_of_row. run_rule.
  eexists. split; [reflexivity | ].
  unfold circle_for.
  cbn [Kandinsky.c_radius Kandinsky.c_color Kandinsky.c_alpha
       Kandinsky.c_rotation Kandinsky.c_x Kandinsky.c_y].
  pose proof (clamp_bounds 0.5 3.0 (PM25 row / 50) ltac:(lra)) as Hc.
  pose proof (COS_bound (radians (wd row))) as Hcos.
  pose proof (SIN_bound (radians (wd row))) as Hsin.
  destruct (get_kandinsky_color_slot (PM25 row) Kandinsky.primary) as (i & _ & _ & Hin & _).
  tape_bounds g.
  repeat split; try assumption; try lra; try nra.
Qed.

(** X2: over any slice the circle rule emits one circle per row, in row
    order; its radius is clamp(PM2.5 / 50, 0.5, 3.0) and its colour belongs
    to the primary family; when the values of [random()] lie in [0, 1), its
    alpha lies in [0.4, 0.8), its rotation in [0, 360) and its centre in
    the square [-8.5, 8.5) x [-8.5, 8.5), inside the plot limits. *)
Theorem X2_circle_rule (data : DataFrame) (g : RandomSource) :
  unit_draws g ->
  Forall2 circle_for data (fst (Kandinsky.create_abstract_circles data g)).
Proof.
  intros Hg. unfold Kandinsky.create_abstract_circles.
  apply (iterrows_Forall2_all Kandinsky.circle_of_row unit_draws circle_for);
    [exact circle_of_row_inv | exact circle_of_row_draws | exact Hg].
Qed.

Lemma sample_source_unit_draws : unit_draws sample_source.
Proof. intros n. simpl. lra. Qed.

(** X2 on the two-station store. *)
Lemma X2_circle_rule_witness :
  Forall2 circle_for two_by_two
          (fst (Kandinsky.create_abstract_circles two_by_two sample_source)).
Proof.
  apply (X2_circle_rule two_by_two sample_source).
  exact sample_source_unit_draws.
Defined.

(** X3: the centre of a circle lies at distance 0.5 from the point the rule
    has drawn: the wind moves every circle by the same length, in the wind
    direction. *)
Theorem X3_circle_wind_shift (row : Row) (g : RandomSource) :
  exists c,
    fst (Kandinsky.create_abstract_circles [row] g) = [c] /\
    Kandinsky.c_x c = fst (drawn_point g) + 0.5 * cos (radians (wd row)) /\
    Kandinsky.c_y c = snd (drawn_point g) + 0.5 * sin (radians (wd row)) /\
    dist (Kandinsky.c_x c, Kandinsky.c_y c) (drawn_point g) = 0.5.
Proof.
  unfold Kandinsky.create_abstract_circles.
  rewrite iterrows_cons.
  unfold Kandinsky.circle_of_row, drawn_point. run_rule.
  eexists. split; [reflexivity | ].
  cbn [Kandinsky.c_x Kandinsky.c_y].
  split; [ring | ]. split; [ring | ].
  rewrite <- (dist_polar (-8 + (8 - -8) * unit_tape g (unit_pos g))
                (-8 + (8 - -8) * unit_tape g (S (unit_pos g)))
                0.5 (radians (wd row))) at 3 by lra.
  f_equal. f_equal; ring.
Qed.

(** ** The rectangle and triangle rules *)

Lemma rectangle_of_row_inv (row : Row) (g : RandomSource) :
  unit_draws g -> unit_draws (snd (Kandinsky.rectangle_of_row row g)).
Proof. intros Hg n. exact (Hg n). Qed.

Lemma rectangle_of_row_draws (row : Row) (g : RandomSource) :
  unit_draws g ->
  exists r, fst (Kandinsky.rectangle_of_row row g) = Some r /\ rectangle_for row r.
Proof.
  intros Hg. unfold Kandinsky.rectangle_of_row. run_rule.
  eexists. split; [reflexivity | ].
  unfold rectangle_for.
  cbn [Kandinsky.r_width Kandinsky.r_height Kandinsky.r_color Kandinsky.r_alpha
       Kandinsky.r_rotation Kandinsky.r_x Kandinsky.r_y].
  pose proof (clamp_bounds 0.2 1.5 (NO2 row / 40) ltac:(lra)) as Hw.
  pose proof (clamp_bounds 0.2 0.8 (DEWP row / 100) ltac:(lra)) as Ha.
  destruct (get_kandinsky_color_slot (NO2 row) Kandinsky.accent) as (i & _ & _ & Hin & _).
  tape_bounds g.
  repeat split; try assumption; try reflexivity; try lra.
Qed.

(** X4: over any slice the rectangle rule emits one rectangle per row, in
    row order: a square of side clamp(NO2 / 40, 0.2, 1.5), coloured from
    the accent family, with alpha clamp(DEWP / 100, 0.2, 0.8), hence 0.2
    for every dew point at or below 20; with [random()] in [0, 1), its
    rotation lies in [0, 360) and its centre in [-6, 6) x [-6, 6). *)
Theorem X4_rectangle_rule (data : DataFrame) (g : RandomSource) :
  unit_draws g ->
  Forall2 rectangle_for data (fst (Kandinsky.create_abstract_rectangles data g)).
Proof.
  intros Hg. unfold Kandinsky.create_abstract_rectangles.
  apply (iterrows_Forall2_all Kandinsky.rectangle_of_row unit_draws rectangle_for);
    [exact rectangle_of_row_inv | exact rectangle_of_row_draws | exact Hg].
Qed.

(** X4 on the two-station store. *)
Lemma X4_rectangle_rule_witness :
  Forall2 rectangle_for two_by_two
          (fst (Kandinsky.create_abstract_rectangles two_by_two sample_source)).
Proof.
  apply (X4_rectangle_rule two_by_two sample_source).
  exact sample_source_unit_draws.
Defined.

Lemma triangle_of_row_inv (row : Row) (g : RandomSource) :
  unit_draws g -> unit_draws (snd (Kandinsky.triangle_of_row row g)).
Proof. intros Hg n. exact (Hg n). Qed.

Lemma triangle_of_row_draws (row : Row) (g : RandomSource) :
  unit_draws g ->
  exists t, fst (Kandinsky.triangle_of_row row g) = Some t /\ triangle_for row t.
Proof.
  intros Hg. unfold Kandinsky.triangle_of_row. run_rule.
  eexists. split; [reflexivity | ].
  unfold triangle_for.
  cbn [Kandinsky.t_color Kandinsky.t_alpha Kandinsky.t_rotation
       Kandinsky.t_x Kandinsky.t_y].
  destruct (get_kandinsky_color_slot (SO2 row) Kandinsky.secondary) as (i & _ & _ & Hin & _).
  tape_bounds g.
  repeat split; try assumption; try lra.
Qed.

(** X5: over any slice the triangle rule emits one triangle per row, in
    row order, coloured from the secondary family; with [random()] in
    [0, 1), its alpha lies in [0.3, 0.7), its rotation in [0, 360) and its
    centre in [-7, 7) x [-7, 7). *)
Theorem X5_triangle_rule (data : DataFrame) (g : RandomSource) :
  unit_draws g ->
  Forall2 triangle_for data (fst (Kandinsky.create_abstract_triangles data g)).
Proof.
  intros Hg. unfold Kandinsky.create_abstract_triangles.
  apply (iterrows_Forall2_all Kandinsky.triangle_of_row unit_draws triangle_for);
    [exact triangle_of_row_inv | exact triangle_of_row_draws | exact Hg].
Qed.

(** X5 on the two-station store. *)
Lemma X5_triangle_rule_witness :
  Forall2 triangle_for two_by_two
          (fst (Kandinsky.create_abstract_triangles two_by_two sample_source)).
Proof.
  apply (X5_triangle_rule two_by_two sample_source).
  exact sample_source_unit_draws.
Defined.

(** ** The conditional rules, measured *)

Section IterrowsFiresInv.

Context {A : Type}.
Variable body : Row -> Rand (option A).
Variable Inv : RandomSource -> Prop.
Variable fires : Row -> bool.
Variable Rel : Row -> A -> Prop.
Hypothesis body_inv : forall row g, Inv g -> Inv (snd (body row g)).
Hypothesis body_fires : forall row g, Inv g -> fires row = true ->
  exists a, fst (body row g) = Some a /\ Rel row a.
Hypothesis body_skips : forall row g,
  fires row = false -> fst (body row g) = None.

Lemma iterrows_Forall2_inv (data : DataFrame) :
  forall g, Inv g -> Forall2 Rel (filter fires data) (fst (iterrows body data g)).
Proof.
  induction data as [| row rest IH]; intros g Hg.
  - simpl. constructor.
  - rewrite iterrows_cons. simpl.
    destruct (fires row) eqn:F.
    + destruct (body_fires row g Hg F) as (a & E & Ha).
      rewrite E. constructor; [exact Ha | apply IH, body_inv, Hg].
    + rewrite (body_skips row g F). apply IH, body_inv, Hg.
Qed.

End IterrowsFiresInv.

Lemma line_of_row_inv (row : Row) (g : RandomSource) :
  unit_draws g -> unit_draws (snd (Kandinsky.line_of_row row g)).
Proof.
  intros Hg. unfold Kandinsky.line_of_row.
  destruct (Rgt_dec (WSPM row) 2); intros k; exact (Hg k).
Qed.

Lemma line_of_row_segment (row : Row) (g : RandomSource) :
  unit_draws g -> wind_fires row = true ->
  exists l, fst (Kandinsky.line_of_row row g) = Some l /\ segment_for row l.
Proof.
  intros Hg. unfold wind_fires, Kandinsky.line_of_row.
  destruct (Rgt_dec (WSPM row) 2) as [Hw | ]; [intros _ | discriminate].
  run_rule. eexists. split; [reflexivity | ].
  unfold segment_for.
  cbn [Kandinsky.start_x Kandinsky.start_y Kandinsky.end_x Kandinsky.end_y
       Kandinsky.l_width Kandinsky.l_color Kandinsky.l_alpha].
  assert (Hlen : Rmax 1.0 (Rmin 4.0 (WSPM row / 2)) = Rmin 4.0 (WSPM row / 2))
    by clamp.
  assert (Hwid : Rmax 1 (Rmin 5 (WSPM row)) = Rmin 5 (WSPM row)) by clamp.
  assert (Hl : 1 < Rmin 4.0 (WSPM row / 2) <= 4) by clamp.
  assert (Hd : 2 < Rmin 5 (WSPM row) <= 5) by clamp.
  destruct (get_kandinsky_color_slot (CO row) Kandinsky.neutral) as (i & _ & _ & Hin & _).
  tape_bounds g.
  rewrite Hlen, Hwid.
  split.
  { set (sx := -8 + (8 - -8) * unit_tape g (unit_pos g)).
    set (sy := -8 + (8 - -8) * unit_tape g (S (unit_pos g))).
    set (len := Rmin 4.0 (WSPM row / 2)) in *.
    set (a := radians (wd row)).
    unfold dist. cbn [fst snd].
    replace ((sx - (sx + cos a * len)) * (sx - (sx + cos a * len)) +
             (sy - (sy + sin a * len)) * (sy - (sy + sin a * len)))
      with (len * len * (Rsqr (sin a) + Rsqr (cos a))) by (unfold Rsqr; ring).
    rewrite sin2_cos2, Rmult_1_r. apply sqrt_square. lra. }
  repeat split; try assumption; try lra.
Qed.

(** X6: over any slice, with [random()] in [0, 1), every line the line rule
    emits is a segment whose length is min(4, wind_speed / 2), between 1
    (excluded) and 4, and whose width is min(5, wind_speed), between 2
    (excluded) and 5: the lower clamps at 1 never act on an emitted line.
    It is coloured from the neutral family, its alpha lies in [0.4, 0.8)
    and it starts in [-8, 8) x [-8, 8). *)
Theorem X6_line_segments (data : DataFrame) (g : RandomSource) :
  unit_draws g ->
  Forall2 segment_for (filter wind_fires data)
          (fst (Kandinsky.create_abstract_lines data g)).
Proof.
  intros Hg. unfold Kandinsky.create_abstract_lines.
  apply (iterrows_Forall2_inv Kandinsky.line_of_row unit_draws wind_fires segment_for);
    [exact line_of_row_inv | exact line_of_row_segment
     | exact line_of_row_skips | exact Hg].
Qed.

(** X6 on the two-station store. *)
Lemma X6_line_segments_witness :
  Forall2 segment_for (filter wind_fires two_by_two)
          (fst (Kandinsky.create_abstract_lines two_by_two sample_source)).
Proof.
  apply (X6_line_segments two_by_two sample_source).
  exact sample_source_unit_draws.
Defined.

Lemma polygon_of_row_inv (row : Row) (g : RandomSource) :
  unit_draws g -> unit_draws (snd (Kandinsky.polygon_of_row row g)).
Proof.
  intros Hg. unfold Kandinsky.polygon_of_row.
  destruct (Rgt_dec (O3 row) 50); intros k; exact (Hg k).
Qed.

Lemma polygon_of_row_within (row : Row) (g : RandomSource) :
  unit_draws g -> ozone_fires row = true ->
  exists p, fst (Kandinsky.polygon_of_row row g) = Some p /\ polygon_within row p.
Proof.
  intros Hg. unfold ozone_fires, Kandinsky.polygon_of_row.
  destruct (Rgt_dec (O3 row) 50) as [Ho | ]; [intros _ | discriminate].
  run_rule. eexists. split; [reflexivity | ].
  unfold polygon_within.
  cbn [Kandinsky.vertices Kandinsky.p_color Kandinsky.p_alpha Kandinsky.p_rotation].
  pose proof (clamp_bounds 0.5 2.0 (O3 row / 100) ltac:(lra)) as Hc.
  destruct (get_kandinsky_color_slot (O3 row) Kandinsky.primary) as (i & _ & _ & Hin & _).
  tape_bounds g.
  split.
  { unfold Kandinsky.polygon_vertices. apply Forall_forall. intros v Hv.
    apply in_map_iff in Hv. destruct Hv as (k & <- & _). cbn [fst snd].
    set (a := 2 * PI * INR k / IZR (5 + int_tape g (int_pos g) mod (8 - 5 + 1))).
    pose proof (COS_bound a) as Hcos. pose proof (SIN_bound a) as Hsin.
    set (r := Rmax 0.5 (Rmin 2.0 (O3 row / 100))) in *.
    split; split; nra. }
  repeat split; try assumption; try lra.
Qed.

(** X7: over any slice, with [random()] in [0, 1), every polygon the
    polygon rule emits has all its vertices, as generated, in the square
    [-9, 9] x [-9, 9], inside the plot limits; it is coloured from the
    primary family, its alpha lies in [0.3, 0.6) and its rotation in
    [0, 360). *)
Theorem X7_polygon_within_plot (data : DataFrame) (g : RandomSource) :
  unit_draws g ->
  Forall2 polygon_within (filter ozone_fires data)
          (fst (Kandinsky.create_abstract_polygons data g)).
Proof.
  intros Hg. unfold Kandinsky.create_abstract_polygons.
  apply (iterrows_Forall2_inv Kandinsky.polygon_of_row unit_draws ozone_fires
           polygon_within);
    [exact polygon_of_row_inv | exact polygon_of_row_within
     | exact polygon_of_row_skips | exact Hg].
Qed.

(** X7 on the two-station store. *)
Lemma X7_polygon_within_plot_witness :
  Forall2 polygon_within (filter ozone_fires two_by_two)
          (fst (Kandinsky.create_abstract_polygons two_by_two sample_source)).
Proof.
  apply (X7_polygon_within_plot two_by_two sample_source).
  exact sample_source_unit_draws.
Defined.

(** ** What a frame is made of *)

Lemma advance_advance (a b c d : nat) (g : RandomSource) :
  advance a b (advance c d g) = advance (c + a) (d + b) g.
Proof. unfold advance. simpl. f_equal; lia. Qed.

Lemma advance_zero (g : RandomSource) : advance 0 0 g = g.
Proof. destruct g. unfold advance. simpl. f_equal; lia. Qed.

Lemma iterrows_snd {A : Type} (body : Row -> Rand (option A))
    (row : Row) (rest : DataFrame) (g : RandomSource) :
  snd (iterrows body (row :: rest) g) = snd (iterrows body rest (snd (body row g))).
Proof.
  simpl. unfold bind, ret.
  destruct (body row g) as [o g1]; simpl.
  destruct (iterrows body rest g1) as [l g2]; reflexivity.
Qed.

Section IterrowsAdvance.

Context {A : Type}.
Variable body : Row -> Rand (option A).
Variable fires : Row -> bool.
Variables ku ki : nat.
Hypothesis body_advance : forall row g,
  snd (body row g) =
  advance (if fires row then ku else 0) (if fires row then ki else 0) g.

Lemma iterrows_advance (data : DataFrame) :
  forall g,
    snd (iterrows body data g) =
    advance (ku * List.length (filter fires data))
            (ki * List.length (filter fires data)) g.
Proof.
  induction data as [| row rest IH]; intros g.
  - simpl. rewrite !Nat.mul_0_r. symmetry. apply advance_zero.
  - rewrite iterrows_snd, IH, body_advance, advance_advance. simpl.
    destruct (fires row); simpl; f_equal; lia.
Qed.

End IterrowsAdvance.

Lemma filter_all (data : DataFrame) : filter (fun _ => true) data = data.
Proof. induction data as [| r l IH]; simpl; [reflexivity | rewrite IH; reflexivity]. Qed.

Lemma iterrows_length {A : Type} (body : Row -> Rand (option A))
    (fires : Row -> bool) :
  (forall row g, fires row = true -> exists a, fst (body row g) = Some a) ->
  (forall row g, fires row = false -> fst (body row g) = None) ->
  forall data g,
    List.length (fst (iterrows body data g)) = List.length (filter fires data).
Proof.
  intros Hf Hs data g.
  symmetry. apply (Forall2_length (R := fun _ _ => True)).
  apply iterrows_Forall2; [ | exact Hs].
  intros row g' F. destruct (Hf row g' F) as (a & E). exists a. split; [exact E | exact I].
Qed.

Lemma circles_run (data : DataFrame) (g : RandomSource) :
  List.length (fst (Kandinsky.create_abstract_circles data g)) = List.length data /\
  snd (Kandinsky.create_abstract_circles data g) = advance (4 * List.length data) 0 g.
Proof.
  unfold Kandinsky.create_abstract_circles. split.
  - rewrite (iterrows_length _ (fun _ => true)), filter_all; [reflexivity | | discriminate].
    intros row g' _. eexists. reflexivity.
  - rewrite (iterrows_advance _ (fun _ => true) 4 0), filter_all; [reflexivity | ].
    intros row g'. unfold Kandinsky.circle_of_row, advance. run_rule. f_equal; lia.
Qed.

Lemma triangles_run (data : DataFrame) (g : RandomSource) :
  List.length (fst (Kandinsky.create_abstract_triangles data g)) = List.length data /\
  snd (Kandinsky.create_abstract_triangles data g) = advance (4 * List.length data) 0 g.
Proof.
  unfold Kandinsky.create_abstract_triangles. split.
  - rewrite (iterrows_length _ (fun _ => true)), filter_all; [reflexivity | | discriminate].
    intros row g' _. eexists. reflexivity.
  - rewrite (iterrows_advance _ (fun _ => true) 4 0), filter_all; [reflexivity | ].
    intros row g'. unfold Kandinsky.triangle_of_row, advance. run_rule. f_equal; lia.
Qed.

Lemma rectangles_run (data : DataFrame) (g : RandomSource) :
  List.length (fst (Kandinsky.create_abstract_rectangles data g)) = List.length data /\
  snd (Kandinsky.create_abstract_rectangles data g) = advance (3 * List.length data) 0 g.
Proof.
  unfold Kandinsky.create_abstract_rectangles. split.
  - rewrite (iterrows_length _ (fun _ => true)), filter_all; [reflexivity | | discriminate].
    intros row g' _. eexists. reflexivity.
  - rewrite (iterrows_advance _ (fun _ => true) 3 0), filter_all; [reflexivity | ].
    intros row g'. unfold Kandinsky.rectangle_of_row, advance. run_rule. f_equal; lia.
Qed.

Lemma lines_run (data : DataFrame) (g : RandomSource) :
  List.length (fst (Kandinsky.create_abstract_lines data g)) =
    List.length (filter wind_fires data) /\
  snd (Kandinsky.create_abstract_lines data g) =
    advance (3 * List.length (filter wind_fires data)) 0 g.
Proof.
  unfold Kandinsky.create_abstract_lines. split.
  - apply iterrows_length; [ | apply line_of_row_skips].
    intros row g' F. destruct (line_of_row_fires row g' F) as (l & E & _).
    exists l. exact E.
  - rewrite (iterrows_advance _ wind_fires 3 0); [f_equal; lia | ].
    intros row g'. unfold wind_fires, Kandinsky.line_of_row, advance.
    destruct (Rgt_dec (WSPM row) 2); run_rule; [ | destruct g']; simpl; f_equal; lia.
Qed.

Lemma polygons_run (data : DataFrame) (g : RandomSource) :
  List.length (fst (Kandinsky.create_abstract_polygons data g)) =
    List.length (filter ozone_fires data) /\
  snd (Kandinsky.create_abstract_polygons data g) =
    advance (4 * List.length (filter ozone_fires data))
            (List.length (filter ozone_fires data)) g.
Proof.
  unfold Kandinsky.create_abstract_polygons. split.
  - apply iterrows_length; [ | apply polygon_of_row_skips].
    intros row g' F. destruct (polygon_of_row_fires row g' F) as (l & E & _).
    exists l. exact E.
  - rewrite (iterrows_advance _ ozone_fires 4 1); [f_equal; lia | ].
    intros row g'. unfold ozone_fires, Kandinsky.polygon_of_row, advance.
    destruct (Rgt_dec (O3 row) 50); run_rule; [ | destruct g']; simpl; f_equal; lia.
Qed.

Lemma extends_refl (ax : Axes) : extends ax ax 0 0.
Proof. unfold extends. repeat split; lia. Qed.

Lemma extends_trans (a b c : Axes) (p1 l1 p2 l2 : nat) :
  extends a b p1 l1 -> extends b c p2 l2 -> extends a c (p1 + p2) (l1 + l2).
Proof.
  unfold extends.
  intros (P1 & L1 & T1 & A1 & I1 & F1 & X1 & Y1 & Q1 & O1)
         (P2 & L2 & T2 & A2 & I2 & F2 & X2 & Y2 & Q2 & O2).
  repeat split; try congruence; lia.
Qed.

Lemma fold_extends {B : Type} (f : Axes -> B -> Axes) (np nl : nat) :
  (forall ax b, extends ax (f ax b) np nl) ->
  forall l ax,
    extends ax (fold_left f l ax) (np * List.length l) (nl * List.length l).
Proof.
  intros Hf l. induction l as [| b l IH]; intros ax; simpl.
  - rewrite !Nat.mul_0_r. apply extends_refl.
  - replace (np * S (List.length l))%nat with (np + np * List.length l)%nat by lia.
    replace (nl * S (List.length l))%nat with (nl + nl * List.length l)%nat by lia.
    eapply extends_trans; [apply Hf | apply IH].
Qed.

Lemma add_patch_extends (ax : Axes) (p : Patch) : extends ax (add_patch ax p) 1 0.
Proof.
  unfold extends, add_patch. simpl. rewrite length_app. simpl.
  repeat split; lia.
Qed.

Lemma draw_circle_extends (ax : Axes) (c : Kandinsky.CircleSpec) :
  extends ax (Kandinsky.draw_circle ax c) 3 0.
Proof.
  unfold extends, Kandinsky.draw_circle, add_patch. simpl.
  rewrite !length_app. simpl. repeat split; lia.
Qed.

Lemma draw_polygon_extends (ax : Axes) (p : Kandinsky.PolygonSpec) :
  extends ax (Kandinsky.draw_polygon ax p) 1 0.
Proof. unfold Kandinsky.draw_polygon. simpl. apply add_patch_extends. Qed.

Lemma draw_line_extends (ax : Axes) (l : Kandinsky.LineSpec) :
  extends ax (Kandinsky.draw_line ax l) 0 1.
Proof.
  unfold extends, Kandinsky.draw_line, plot. simpl. rewrite length_app. simpl.
  repeat split; lia.
Qed.

Lemma draw_triangle_extends (ax : Axes) (t : Kandinsky.TriangleSpec) :
  extends ax (Kandinsky.draw_triangle ax t) 1 0.
Proof. unfold Kandinsky.draw_triangle. apply add_patch_extends. Qed.

Lemma draw_rectangle_extends (ax : Axes) (r : Kandinsky.RectangleSpec) :
  extends ax (Kandinsky.draw_rectangle ax r) 1 0.
Proof. unfold Kandinsky.draw_rectangle. apply add_patch_extends. Qed.

Lemma add_background_gradient_shade (ax : Axes) (data : DataFrame) :
  exists shade,
    Kandinsky.add_background_gradient ax data = set_facecolor ax shade /\
    shade_of (mean (map PM25 data)) shade.
Proof.
  unfold Kandinsky.add_background_gradient, shade_of.
  destruct (Rlt_dec (mean (map PM25 data)) 50);
    [ | destruct (Rlt_dec (mean (map PM25 data)) 100);
        [ | destruct (Rlt_dec (mean (map PM25 data)) 150) ] ];
    eexists; (split; [reflexivity | ]).
  - left. split; [lra | reflexivity].
  - right; left. split; [lra | reflexivity].
  - right; right; left. split; [lra | reflexivity].
  - right; right; right. split; [lra | reflexivity].
Qed.

(** The drawing path, in one statement: what it adds to the axes, the
    shade it picks and the randomness it uses. *)
Lemma draw_frame_run (ax : Axes) (current : DataFrame) (g : RandomSource) :
  let n := List.length current in
  let w := List.length (filter wind_fires current) in
  let o := List.length (filter ozone_fires current) in
  exists ax5 shade,
    fst (Kandinsky.draw_frame ax current g) = set_facecolor ax5 shade /\
    extends ax ax5 (5 * n + o) w /\
    shade_of (mean (map PM25 current)) shade /\
    snd (Kandinsky.draw_frame ax current g) = advance (11 * n + 3 * w + 4 * o) o g.
Proof.
  intros n w o. unfold Kandinsky.draw_frame, bind, ret.
  destruct (circles_run current g) as [Lc Gc].
  destruct (Kandinsky.create_abstract_circles current g) as [cs g1].
  simpl in Lc, Gc. subst g1.
  match goal with |- context [Kandinsky.create_abstract_triangles current ?h] =>
    destruct (triangles_run current h) as [Lt Gt];
    destruct (Kandinsky.create_abstract_triangles current h) as [ts g2] end.
  simpl in Lt, Gt. subst g2.
  match goal with |- context [Kandinsky.create_abstract_rectangles current ?h] =>
    destruct (rectangles_run current h) as [Lr Gr];
    destruct (Kandinsky.create_abstract_rectangles current h) as [rs g3] end.
  simpl in Lr, Gr. subst g3.
  match goal with |- context [Kandinsky.create_abstract_lines current ?h] =>
    destruct (lines_run current h) as [Ll Gl];
    destruct (Kandinsky.create_abstract_lines current h) as [ls g4] end.
  simpl in Ll, Gl. subst g4.
  match goal with |- context [Kandinsky.create_abstract_polygons current ?h] =>
    destruct (polygons_run current h) as [Lp Gp];
    destruct (Kandinsky.create_abstract_polygons current h) as [ps g5] end.
  simpl in Lp, Gp. subst g5.
  cbn [fst snd].
  match goal with |- context [Kandinsky.add_background_gradient ?a current] =>
    destruct (add_background_gradient_shade a current) as (shade & Eb & Hs);
    exists a, shade end.
  split; [exact Eb | ]. split; [ | split; [exact Hs | ]].
  - unfold Kandinsky.draw_abstract_polygons, Kandinsky.draw_abstract_lines,
      Kandinsky.draw_abstract_rectangles, Kandinsky.draw_abstract_triangles,
      Kandinsky.draw_abstract_circles.
    replace (5 * n + o)%nat
      with (3 * List.length cs +
            (1 * List.length ts +
             (1 * List.length rs + (0 * List.length ls + 1 * List.length ps))))%nat
      by (unfold n, o; lia).
    replace w
      with (0 * List.length cs +
            (0 * List.length ts +
             (0 * List.length rs + (1 * List.length ls + 0 * List.length ps))))%nat
      by (unfold w; lia).
    eapply extends_trans; [apply (fold_extends Kandinsky.draw_circle 3 0 (draw_circle_extends)) | ].
    eapply extends_trans; [apply (fold_extends Kandinsky.draw_triangle 1 0 (draw_triangle_extends)) | ].
    eapply extends_trans; [apply (fold_extends Kandinsky.draw_rectangle 1 0 (draw_rectangle_extends)) | ].
    eapply extends_trans; [apply (fold_extends Kandinsky.draw_line 0 1 (draw_line_extends)) | ].
    apply (fold_extends Kandinsky.draw_polygon 1 0 draw_polygon_extends).
  - rewrite !advance_advance. unfold n, w, o. f_equal; lia.
Qed.

(** The composer past the selection, on any slice: what it adds to the
    axes and the randomness it uses. *)
Lemma compose_slice_run (ax : Axes) (current : DataFrame) (g : RandomSource) :
  List.length (patches (fst (Kandinsky.compose_slice ax current g))) =
    (List.length (patches ax) + (5 * List.length current +
       List.length (filter ozone_fires current)))%nat /\
  List.length (lines (fst (Kandinsky.compose_slice ax current g))) =
    (List.length (lines ax) + List.length (filter wind_fires current))%nat /\
  texts (fst (Kandinsky.compose_slice ax current g)) = texts ax /\
  arrows (fst (Kandinsky.compose_slice ax current g)) = arrows ax /\
  title (fst (Kandinsky.compose_slice ax current g)) = title ax /\
  xlim (fst (Kandinsky.compose_slice ax current g)) = xlim ax /\
  ylim (fst (Kandinsky.compose_slice ax current g)) = ylim ax /\
  aspect_equal (fst (Kandinsky.compose_slice ax current g)) = aspect_equal ax /\
  axis_on (fst (Kandinsky.compose_slice ax current g)) = axis_on ax /\
  snd (Kandinsky.compose_slice ax current g) =
    advance (11 * List.length current +
             3 * List.length (filter wind_fires current) +
             4 * List.length (filter ozone_fires current))
            (List.length (filter ozone_fires current)) g.
Proof.
  destruct current as [| r rest].
  - simpl. rewrite advance_zero. repeat split; lia.
  - rewrite compose_slice_nonempty by discriminate.
    destruct (draw_frame_run ax (r :: rest) g) as (ax5 & shade & Ef & Hext & _ & Hg).
    rewrite Ef, Hg.
    destruct Hext as (P & L & T & A & I & _ & X & Y & Q & O).
    simpl patches. simpl lines. simpl texts. simpl arrows. simpl title.
    simpl xlim. simpl ylim. simpl aspect_equal. simpl axis_on.
    repeat split; assumption.
Qed.

(** X8: on a store with rows, a frame of the abstract animation holds
    exactly five patches per row of the slice (three circles, a triangle
    and a rectangle) plus one per row with O3 above 50, and one line per
    row with wind speed above 2, whatever the axes held before; it has no
    text, arrow or title, and keeps the limits and switches of
    [setup_plot]. *)
Theorem X8_frame_contents (data : DataFrame) (frame : nat) (ax : Axes)
    (g : RandomSource) :
  data <> [] ->
  exists t ax' g',
    current_time data frame = Ok t /\
    Kandinsky.create_abstract_visualization ax data frame g = Ok (ax', g') /\
    List.length (patches ax') =
      (5 * List.length (current_data data t) +
       List.length (filter ozone_fires (current_data data t)))%nat /\
    List.length (lines ax') =
      List.length (filter wind_fires (current_data data t)) /\
    texts ax' = [] /\ arrows ax' = [] /\ title ax' = None /\
    xlim ax' = Some (-10, 10) /\ ylim ax' = Some (-10, 10) /\
    aspect_equal ax' = true /\ axis_on ax' = false.
Proof.
  intros Hne.
  destruct (composer_returns data frame ax g Hne) as (row & _ & Ht & Hrun).
  pose proof (compose_slice_run (Kandinsky.setup_plot (ax_clear ax))
                (current_data data (datetime row)) g)
    as (P & L & T & A & I & X & Y & Q & O & _).
  exists (datetime row),
    (fst (Kandinsky.compose_slice (Kandinsky.setup_plot (ax_clear ax))
            (current_data data (datetime row)) g)),
    (snd (Kandinsky.compose_slice (Kandinsky.setup_plot (ax_clear ax))
            (current_data data (datetime row)) g)).
  split; [exact Ht | ].
  split; [rewrite Hrun, <- surjective_pairing; reflexivity | ].
  simpl in P, L, T, A, I, X, Y, Q, O.
  repeat split; assumption.
Qed.

(** X8 on the two-station store, at frame 1. *)
Lemma X8_frame_contents_witness :
  exists t ax' g',
    current_time two_by_two 1 = Ok t /\
    Kandinsky.create_abstract_visualization blank_axes
      two_by_two 1 sample_source = Ok (ax', g') /\
    List.length (patches ax') =
      (5 * List.length (current_data two_by_two t) +
       List.length (filter ozone_fires (current_data two_by_two t)))%nat /\
    List.length (lines ax') =
      List.length (filter wind_fires (current_data two_by_two t)) /\
    texts ax' = [] /\ arrows ax' = [] /\ title ax' = None /\
    xlim ax' = Some (-10, 10) /\ ylim ax' = Some (-10, 10) /\
    aspect_equal ax' = true /\ axis_on ax' = false.
Proof.
  apply (X8_frame_contents two_by_two 1). discriminate.
Defined.

(** X9: on a store with rows, when the slice of a frame is not empty its
    background is one of four shades, chosen by the mean PM2.5 of the
    slice: below 50, from 50 to below 100, from 100 to below 150, and from
    150 on; a mean equal to a bound takes the darker shade.  When the
    slice is empty the background stays the one of [setup_plot]. *)
Theorem X9_frame_background (data : DataFrame) (frame : nat) (ax : Axes)
    (g : RandomSource) :
  data <> [] ->
  exists t ax' g',
    current_time data frame = Ok t /\
    Kandinsky.create_abstract_visualization ax data frame g = Ok (ax', g') /\
    ((current_data data t <> [] /\
      exists shade,
        facecolor ax' = Some shade /\
        shade_of (mean (map PM25 (current_data data t))) shade)
     \/
     (current_data data t = [] /\ facecolor ax' = Some "#e5dbc3")).
Proof.
  intros Hne.
  destruct (composer_returns data frame ax g Hne) as (row & _ & Ht & Hrun).
  exists (datetime row),
    (fst (Kandinsky.compose_slice (Kandinsky.setup_plot (ax_clear ax))
            (current_data data (datetime row)) g)),
    (snd (Kandinsky.compose_slice (Kandinsky.setup_plot (ax_clear ax))
            (current_data data (datetime row)) g)).
  split; [exact Ht | ].
  split; [rewrite Hrun, <- surjective_pairing; reflexivity | ].
  destruct (current_data data (datetime row)) as [| r rest] eqn:E.
  - right. split; reflexivity.
  - left. split; [discriminate | ].
    rewrite compose_slice_nonempty by discriminate.
    destruct (draw_frame_run (Kandinsky.setup_plot (ax_clear ax)) (r :: rest) g)
      as (ax5 & shade & Ef & _ & Hs & _).
    exists shade. rewrite Ef. split; [reflexivity | exact Hs].
Qed.

(** X9 on the two-station store, at frame 0. *)
Lemma X9_frame_background_witness :
  exists t ax' g',
    current_time two_by_two 0 = Ok t /\
    Kandinsky.create_abstract_visualization blank_axes
      two_by_two 0 sample_source = Ok (ax', g') /\
    ((current_data two_by_two t <> [] /\
      exists shade,
        facecolor ax' = Some shade /\
        shade_of (mean (map PM25 (current_data two_by_two t))) shade)
     \/
     (current_data two_by_two t = [] /\ facecolor ax' = Some "#e5dbc3")).
Proof.
  apply (X9_frame_background two_by_two 0). discriminate.
Defined.

(** X10: on a store with rows, composing a frame leaves the tapes of the
    random source as they are and moves its cursors by a count fixed by the
    slice: eleven calls of [random()] per row, three more per row with wind
    speed above 2 and four more per row with O3 above 50, and one integer
    draw per row with O3 above 50. *)
Theorem X10_frame_randomness (data : DataFrame) (frame : nat) (ax : Axes)
    (g : RandomSource) :
  data <> [] ->
  exists t ax',
    current_time data frame = Ok t /\
    Kandinsky.create_abstract_visualization ax data frame g =
    Ok (ax',
        advance (11 * List.length (current_data data t) +
                 3 * List.length (filter wind_fires (current_data data t)) +
                 4 * List.length (filter ozone_fires (current_data data t)))
                (List.length (filter ozone_fires (current_data data t))) g).
Proof.
  intros Hne.
  destruct (composer_returns data frame ax g Hne) as (row & _ & Ht & Hrun).
  pose proof (compose_slice_run (Kandinsky.setup_plot (ax_clear ax))
                (current_data data (datetime row)) g)
    as (_ & _ & _ & _ & _ & _ & _ & _ & _ & Hg).
  exists (datetime row),
    (fst (Kandinsky.compose_slice (Kandinsky.setup_plot (ax_clear ax))
            (current_data data (datetime row)) g)).
  split; [exact Ht | ].
  rewrite Hrun, <- Hg, <- surjective_pairing. reflexivity.
Qed.

(** X10 on the two-station store, at frame 0. *)
Lemma X10_frame_randomness_witness :
  exists t ax',
    current_time two_by_two 0 = Ok t /\
    Kandinsky.create_abstract_visualization blank_axes
      two_by_two 0 sample_source =
    Ok (ax',
        advance (11 * List.length (current_data two_by_two t) +
                 3 * List.length (filter wind_fires (current_data two_by_two t)) +
                 4 * List.length (filter ozone_fires (current_data two_by_two t)))
                (List.length (filter ozone_fires (current_data two_by_two t)))
                sample_source).
Proof.
  apply (X10_frame_randomness two_by_two 0). discriminate.
Defined.

(** ** What the composers end in *)

Lemma beijing_composer_path (data : DataFrame) (frame : nat) (ax : Axes) :
  data <> [] ->
  exists row,
    nth_error data (frame mod frame_count data) = Some row /\
    current_time data frame = Ok (datetime row) /\
    Beijing.create_pollutant_visualization ax data frame =
    Beijing.compose_slice (Beijing.setup_plot (ax_clear ax)) (datetime row)
      (current_data data (datetime row)).
Proof.
  intros Hne.
  destruct (current_time_row data frame Hne) as (row & Hrow & Ht).
  exists row. split; [exact Hrow | ]. split; [exact Ht | ].
  unfold Beijing.create_pollutant_visualization. rewrite Ht. reflexivity.
Qed.

(** On a store with rows, what the station-map composer ends in is decided
    by the reference timestamp. *)
Lemma beijing_composer_outcome (data : DataFrame) (frame : nat) (ax : Axes) :
  data <> [] ->
  exists row,
    nth_error data (frame mod frame_count data) = Some row /\
    current_time data frame = Ok (datetime row) /\
    match datetime row with
    | Datetime hours =>
        current_data data (datetime row) <> [] /\
        Beijing.create_pollutant_visualization ax data frame =
        Ok (Beijing.add_statistics
              (Beijing.add_legend
                 (set_title
                    (Beijing.draw_pollutant_flow
                       (fold_left
                          (Beijing.draw_station Beijing.create_station_layout)
                          (current_data data (datetime row))
                          (Beijing.setup_plot (ax_clear ax)))
                       (current_data data (datetime row))
                       Beijing.create_station_layout)
                    (mkTitle (Title hours) 16 "white" 20)))
              (current_data data (datetime row)))
    | Raw _ =>
        Beijing.create_pollutant_visualization ax data frame = Raise AttributeError
    | Missing =>
        Beijing.create_pollutant_visualization ax data frame =
        Ok (Beijing.setup_plot (ax_clear ax))
    end.
Proof.
  intros Hne.
  destruct (beijing_composer_path data frame ax Hne) as (row & Hrow & Ht & Hrun).
  exists row. split; [exact Hrow | ]. split; [exact Ht | ].
  rewrite Hrun. clear Hrun.
  pose proof (nth_error_In _ _ Hrow) as Hin.
  destruct (datetime row) as [hours | cell |] eqn:Ed.
  - assert (Hs : In row (current_data data (Datetime hours))).
    { rewrite <- Ed. apply current_data_In; [congruence | exact Hin]. }
    split; [intros E; rewrite E in Hs; exact Hs | ].
    unfold Beijing.compose_slice.
    destruct (current_data data (Datetime hours)); [contradiction | reflexivity].
  - assert (Hs : In row (current_data data (Raw cell))).
    { rewrite <- Ed. apply current_data_In; [congruence | exact Hin]. }
    unfold Beijing.compose_slice.
    destruct (current_data data (Raw cell)); [contradiction | reflexivity].
  - rewrite current_data_missing. reflexivity.
Qed.

Lemma dated_row (data : DataFrame) (row : Row) :
  forallb dated data = true -> In row data ->
  exists hours, datetime row = Datetime hours.
Proof.
  intros Hall Hin. rewrite forallb_forall in Hall. specialize (Hall row Hin).
  unfold dated in Hall. destruct (datetime row) as [hours | |];
    [exists hours; reflexivity | discriminate | discriminate].
Qed.

Lemma beijing_composer_dated (data : DataFrame) (frame : nat) (ax : Axes) :
  data <> [] -> forallb dated data = true ->
  exists out, Beijing.create_pollutant_visualization ax data frame = Ok out.
Proof.
  intros Hne Hall.
  destruct (beijing_composer_outcome data frame ax Hne) as (row & Hrow & _ & H).
  destruct (dated_row data row Hall (nth_error_In _ _ Hrow)) as (hours & Ed).
  rewrite Ed in H. destruct H as [_ H]. eexists. exact H.
Qed.

Lemma beijing_play_runs (data : DataFrame) (n ticks : nat) :
  data <> [] -> forallb dated data = true ->
  forall tick ax, exists out, Beijing.play n data tick ticks ax = Ok out.
Proof.
  intros Hne Hall. induction ticks as [| k IH]; intros tick ax; simpl.
  - eexists. reflexivity.
  - destruct (beijing_composer_dated data (animation_frame n tick) ax Hne Hall)
      as (out & Hout).
    rewrite Hout. apply IH.
Qed.

(** X11: on a store without rows neither [start_animation] starts
    anything.  On a store with rows the abstract composer returns for
    every frame number and its animation runs any number of ticks without
    raising; the station-map composer returns a frame when the reference
    timestamp is a datetime object, returns the bare set-up axes when it is
    missing, and raises AttributeError when it is the text of a cell, as
    every timestamp read from a file that is not missing is. *)
Theorem X11_composer_outcomes :
  (forall ticks ax g, Kandinsky.start_animation [] ticks ax g = None) /\
  (forall ticks ax, Beijing.start_animation [] ticks ax = None) /\
  (forall data frame, data <> [] ->
   exists row,
     nth_error data (frame mod frame_count data) = Some row /\
     current_time data frame = Ok (datetime row) /\
     (forall ax g, exists out,
        Kandinsky.create_abstract_visualization ax data frame g = Ok out) /\
     (forall ticks ax g, exists out,
        Kandinsky.start_animation data ticks ax g = Some (Ok out)) /\
     (forall ax,
        match datetime row with
        | Datetime _ =>
            exists out,
              Beijing.create_pollutant_visualization ax data frame = Ok out
        | Raw _ =>
            Beijing.create_pollutant_visualization ax data frame
            = Raise AttributeError
        | Missing =>
            Beijing.create_pollutant_visualization ax data frame
            = Ok (Beijing.setup_plot (ax_clear ax))
        end)).
Proof.
  split; [reflexivity | ]. split; [reflexivity | ].
  intros data frame Hne.
  destruct (current_time_row data frame Hne) as (row & Hrow & Ht).
  exists row. split; [exact Hrow | ]. split; [exact Ht | ].
  split; [ | split].
  - intros ax g.
    destruct (composer_returns data frame ax g Hne) as (r & _ & _ & H).
    eexists. exact H.
  - intros ticks ax g. unfold Kandinsky.start_animation.
    destruct data as [| r rest]; [congruence | ].
    destruct (play_runs (r :: rest) (frame_count (r :: rest)) ticks Hne 0%nat ax g)
      as (out & Hout).
    exists out. rewrite Hout. reflexivity.
  - intros ax.
    destruct (beijing_composer_outcome data frame ax Hne) as (r & Hr & _ & H).
    rewrite Hrow in Hr. injection Hr as <-.
    destruct (datetime row) as [hours | cell |].
    + destruct H as [_ H]. eexists. exact H.
    + exact H.
    + exact H.
Qed.

(** X11 on a one-row store read from a file: the station-map composer
    raises AttributeError. *)
Lemma X11_composer_outcomes_witness :
  Beijing.create_pollutant_visualization blank_axes [text_row] 0
  = Raise AttributeError.
Proof.
  destruct (proj2 (proj2 X11_composer_outcomes) [text_row] 0%nat
              ltac:(discriminate)) as (row & Hrow & _ & _ & _ & H).
  simpl in Hrow. injection Hrow as <-.
  exact (H blank_axes).
Defined.

(** ** Which timestamps the frames show *)

(** X12: on a store with rows and N distinct timestamps, frame number f
    shows the timestamp of the row at position f mod N, one of the first N
    rows of the store: the timestamps the frames ever show are those of
    the first N rows, whatever the rest of the store holds. *)
Theorem X12_leading_rows (data : DataFrame) (frame : nat) :
  data <> [] ->
  exists row,
    nth_error (firstn (frame_count data) data) (frame mod frame_count data)
      = Some row /\
    current_time data frame = Ok (datetime row).
Proof.
  intros Hne.
  pose proof (frame_count_pos data Hne) as Hpos.
  destruct (current_time_row data frame Hne) as (row & Hrow & Ht).
  exists row. split; [ | exact Ht].
  rewrite nth_error_firstn.
  pose proof (Nat.mod_upper_bound frame (frame_count data) ltac:(lia)) as Hlt.
  apply Nat.ltb_lt in Hlt. rewrite Hlt. exact Hrow.
Qed.

(** X12 on the two-station store, at frame 5. *)
Lemma X12_leading_rows_witness :
  exists row,
    nth_error (firstn (frame_count two_by_two) two_by_two)
              (5 mod frame_count two_by_two) = Some row /\
    current_time two_by_two 5 = Ok (datetime row).
Proof.
  apply (X12_leading_rows two_by_two 5). discriminate.
Defined.

(** ** More on rotation *)

Lemma radians_plus (a b : R) : radians (a + b) = radians a + radians b.
Proof. unfold radians. field. Qed.

Lemma rotate_vertex_compose (x y a b : R) (v : R * R) :
  Kandinsky.rotate_vertex x y b (Kandinsky.rotate_vertex x y a v) =
  Kandinsky.rotate_vertex x y (a + b) v.
Proof.
  destruct v as [vx vy]. unfold Kandinsky.rotate_vertex.
  rewrite cos_plus, sin_plus. f_equal; ring.
Qed.

Lemma rotate_vertex_zero (x y : R) (v : R * R) :
  Kandinsky.rotate_vertex x y 0 v = v.
Proof.
  destruct v as [vx vy]. unfold Kandinsky.rotate_vertex.
  rewrite cos_0, sin_0. f_equal; ring.
Qed.

Lemma radians_360 : radians 360 = 2 * PI.
Proof. unfold radians. field. Qed.

(** X13: rotations about one centre add up: turning a vertex list by a and
    then by b degrees is turning it by a + b; turning by 0 or by 360
    degrees changes nothing; and the centre itself never moves. *)
Theorem X13_rotation_composes (x y : R) :
  (forall a b vs,
     Kandinsky.rotate_vertices x y b (Kandinsky.rotate_vertices x y a vs) =
     Kandinsky.rotate_vertices x y (a + b) vs) /\
  (forall vs, Kandinsky.rotate_vertices x y 0 vs = vs) /\
  (forall vs, Kandinsky.rotate_vertices x y 360 vs = vs) /\
  (forall a, Kandinsky.rotate_vertices x y a [(x, y)] = [(x, y)]).
Proof.
  split; [ | split; [ | split]].
  - intros a b vs. unfold Kandinsky.rotate_vertices.
    rewrite map_map, radians_plus.
    apply map_ext. intros v. apply rotate_vertex_compose.
  - intros vs. unfold Kandinsky.rotate_vertices.
    replace (radians 0) with 0 by (unfold radians; field).
    rewrite <- (map_id vs) at 2. apply map_ext, rotate_vertex_zero.
  - intros vs. unfold Kandinsky.rotate_vertices.
    rewrite radians_360.
    rewrite <- (map_id vs) at 2. apply map_ext. intros [vx vy].
    unfold Kandinsky.rotate_vertex. rewrite cos_2PI, sin_2PI. f_equal; ring.
  - intros a. unfold Kandinsky.rotate_vertices, Kandinsky.rotate_vertex. simpl.
    do 2 f_equal; ring.
Qed.

Lemma Rsum_affine (a b d : R) (vs : list (R * R)) :
  Rsum (map (fun v => a * fst v + b * snd v + d) vs) =
  a * Rsum (map fst vs) + b * Rsum (map snd vs) + INR (List.length vs) * d.
Proof.
  induction vs as [| v vs IH].
  - simpl. ring.
  - cbn [map Rsum fold_right List.length]. fold (Rsum (map (fun v => a * fst v + b * snd v + d) vs)).
    fold (Rsum (map fst vs)). fold (Rsum (map snd vs)).
    rewrite IH, S_INR. ring.
Qed.

Lemma map_fst_rotate (x y angle : R) (vs : list (R * R)) :
  map fst (map (Kandinsky.rotate_vertex x y angle) vs) =
  map (fun v => cos angle * fst v + (- sin angle) * snd v
                + (x - cos angle * x + sin angle * y)) vs.
Proof.
  rewrite map_map. apply map_ext. intros [vx vy]. simpl. ring.
Qed.

Lemma map_snd_rotate (x y angle : R) (vs : list (R * R)) :
  map snd (map (Kandinsky.rotate_vertex x y angle) vs) =
  map (fun v => sin angle * fst v + cos angle * snd v
                + (y - sin angle * x - cos angle * y)) vs.
Proof.
  rewrite map_map. apply map_ext. intros [vx vy]. simpl. ring.
Qed.

Lemma centroid_rotate (x y rotation : R) (vs : list (R * R)) :
  vs <> [] ->
  Kandinsky.centroid (Kandinsky.rotate_vertices x y rotation vs) =
  Kandinsky.rotate_vertex x y (radians rotation) (Kandinsky.centroid vs).
Proof.
  intros Hne.
  assert (Hn : INR (List.length vs) <> 0).
  { apply not_0_INR. destruct vs; [congruence | simpl; lia]. }
  unfold Kandinsky.centroid, Kandinsky.rotate_vertices.
  rewrite length_map, map_fst_rotate, map_snd_rotate, !Rsum_affine.
  unfold Kandinsky.rotate_vertex. f_equal; field; exact Hn.
Qed.

(** X14: rotating a non-empty vertex list about any centre moves the mean
    of its vertices by the same rotation; so the polygon routine, which
    rotates about that mean, draws a polygon with the same mean as the one
    generated: the polygon turns in place. *)
Theorem X14_polygon_turns_in_place (x y rotation : R) (vs : list (R * R)) :
  vs <> [] ->
  Kandinsky.centroid (Kandinsky.rotate_vertices x y rotation vs) =
    Kandinsky.rotate_vertex x y (radians rotation) (Kandinsky.centroid vs) /\
  Kandinsky.centroid
    (Kandinsky.rotate_vertices (fst (Kandinsky.centroid vs))
       (snd (Kandinsky.centroid vs)) rotation vs) = Kandinsky.centroid vs.
Proof.
  intros Hne. split; [apply centroid_rotate, Hne | ].
  rewrite (centroid_rotate _ _ _ _ Hne).
  destruct (Kandinsky.centroid vs) as [cx cy]. simpl. f_equal; ring.
Qed.

(** X14 on a unit triangle turned by 30 degrees about the origin. *)
Lemma X14_polygon_turns_in_place_witness :
  Kandinsky.centroid
    (Kandinsky.rotate_vertices 0 0 30 (Kandinsky.triangle_vertices 0 0 1)) =
    Kandinsky.rotate_vertex 0 0 (radians 30)
      (Kandinsky.centroid (Kandinsky.triangle_vertices 0 0 1)) /\
  Kandinsky.centroid
    (Kandinsky.rotate_vertices
       (fst (Kandinsky.centroid (Kandinsky.triangle_vertices 0 0 1)))
       (snd (Kandinsky.centroid (Kandinsky.triangle_vertices 0 0 1))) 30
       (Kandinsky.triangle_vertices 0 0 1)) =
    Kandinsky.centroid (Kandinsky.triangle_vertices 0 0 1).
Proof.
  apply (X14_polygon_turns_in_place 0 0 30 (Kandinsky.triangle_vertices 0 0 1)).
  discriminate.
Defined.

(** ** The station map *)

Lemma aqi_color_found (v : R) :
  exists color,
    lookup (Beijing.get_aqi_level v) Beijing.aqi_colors = Some color /\
    In color (map snd Beijing.aqi_colors).
Proof.
  destruct (get_aqi_level_cases v) as [[_ E]|[[_ E]|[[_ E]|[[_ E]|[[_ E]|[_ E]]]]]];
    rewrite E; eexists; (split; [reflexivity | simpl; tauto]).
Qed.

Lemma stations_have_places :
  Forall (fun s => exists pos, lookup s Beijing.create_station_layout = Some pos)
         stations.
Proof. unfold stations. repeat constructor; eexists; reflexivity. Qed.

(** X15: a row whose station has no place on the map draws nothing; a row
    whose station has one draws one circle there, of radius
    clamp(PM2.5 / 100, 0.3, 2.0), in the legend colour of its air-quality
    level (the white fallback is never used), and two texts, the first
    four characters of the station name below and the PM2.5 value above;
    each of the twelve stations of the visualiser has a place. *)
Theorem X15_station_marker (ax : Axes) (row : Row) :
  ((lookup (station row) Beijing.create_station_layout = None /\
    Beijing.draw_station Beijing.create_station_layout ax row = ax)
   \/
   (exists x y color,
      lookup (station row) Beijing.create_station_layout = Some (x, y) /\
      lookup (Beijing.get_aqi_level (PM25 row)) Beijing.aqi_colors = Some color /\
      0.3 <= Rmax 0.3 (Rmin 2.0 (PM25 row / 100)) <= 2.0 /\
      patches (Beijing.draw_station Beijing.create_station_layout ax row) =
        (patches ax ++
         [CirclePatch (x, y) (Rmax 0.3 (Rmin 2.0 (PM25 row / 100))) color 0.8])%list /\
      texts (Beijing.draw_station Beijing.create_station_layout ax row) =
        (texts ax ++
         [mkText x (y - 0.3) (Literal (substring 0 4 (station row)))
                 8 "white" true false;
          mkText x (y + 0.3) (Pm25Value (PM25 row)) 7 "white" false false])%list))
  /\
  Forall (fun s => exists pos, lookup s Beijing.create_station_layout = Some pos)
         stations.
Proof.
  split.
  - unfold Beijing.draw_station.
    destruct (lookup (station row) Beijing.create_station_layout)
      as [[x y] |] eqn:E.
    + right. destruct (aqi_color_found (PM25 row)) as (color & Hc & _).
      exists x, y, color. rewrite Hc.
      split; [reflexivity | ]. split; [reflexivity | ].
      split; [apply clamp_bounds; lra | ].
      split; [reflexivity | ].
      unfold add_text, add_patch. simpl. rewrite <- app_assoc. reflexivity.
    + left. split; reflexivity.
  - exact stations_have_places.
Qed.

(** X16: the flow arrow is drawn exactly when the mean wind speed of the
    slice is above 1; it then starts at (5, 4), its length is 0.3 times the
    mean wind speed, and one label is placed (0.5, 0.5) beyond its tip;
    otherwise the axes are left as they are. *)
Theorem X16_flow_arrow (ax : Axes) (data : DataFrame)
    (positions : list (string * (R * R))) :
  (mean (map WSPM data) <= 1 /\
   Beijing.draw_pollutant_flow ax data positions = ax)
  \/
  (mean (map WSPM data) > 1 /\
   exists a t,
     arrows (Beijing.draw_pollutant_flow ax data positions) = (arrows ax ++ [a])%list /\
     texts (Beijing.draw_pollutant_flow ax data positions) = (texts ax ++ [t])%list /\
     patches (Beijing.draw_pollutant_flow ax data positions) = patches ax /\
     arrow_x a = 5 /\ arrow_y a = 4 /\
     sqrt (arrow_dx a * arrow_dx a + arrow_dy a * arrow_dy a)
       = 0.3 * mean (map WSPM data) /\
     text_x t = arrow_x a + arrow_dx a + 0.5 /\
     text_y t = arrow_y a + arrow_dy a + 0.5).
Proof.
  unfold Beijing.draw_pollutant_flow.
  destruct (Rgt_dec (mean (map WSPM data)) 1) as [Hw | Hw].
  - right. split; [exact Hw | ].
    eexists. eexists. unfold add_text, add_arrow. simpl.
    split; [reflexivity | ]. split; [reflexivity | ]. split; [reflexivity | ].
    split; [reflexivity | ]. split; [reflexivity | ]. split; [ | split; reflexivity].
    cbn [arrow_dx arrow_dy].
    set (m := mean (map WSPM data)) in *.
    set (a := radians (mean (map wd data))).
    replace (cos a * m * 0.3 * (cos a * m * 0.3) + sin a * m * 0.3 * (sin a * m * 0.3))
      with (0.3 * m * (0.3 * m) * (Rsqr (sin a) + Rsqr (cos a)))
      by (unfold Rsqr; ring).
    rewrite sin2_cos2, Rmult_1_r. apply sqrt_square. lra.
  - left. split; [lra | reflexivity].
Qed.

Lemma grows_refl (ax : Axes) : grows ax ax 0 0 0.
Proof. unfold grows. repeat split; lia. Qed.

Lemma grows_trans (a b c : Axes) (p1 t1 a1 p2 t2 a2 : nat) :
  grows a b p1 t1 a1 -> grows b c p2 t2 a2 ->
  grows a c (p1 + p2) (t1 + t2) (a1 + a2).
Proof.
  unfold grows.
  intros (P1 & T1 & A1 & L1 & I1 & F1 & X1 & Y1 & Q1 & O1)
         (P2 & T2 & A2 & L2 & I2 & F2 & X2 & Y2 & Q2 & O2).
  repeat split; try congruence; lia.
Qed.

Lemma add_patch_grows (ax : Axes) (p : Patch) : grows ax (add_patch ax p) 1 0 0.
Proof.
  unfold grows, add_patch. simpl. rewrite length_app. simpl. repeat split; lia.
Qed.

Lemma add_text_grows (ax : Axes) (t : Text) : grows ax (add_text ax t) 0 1 0.
Proof.
  unfold grows, add_text. simpl. rewrite length_app. simpl. repeat split; lia.
Qed.

Lemma add_arrow_grows (ax : Axes) (a : Arrow) : grows ax (add_arrow ax a) 0 0 1.
Proof.
  unfold grows, add_arrow. simpl. rewrite length_app. simpl. repeat split; lia.
Qed.

Section LegendLoop.

Variable step : Axes * R -> string * string -> Axes * R.
Hypothesis step_eq : forall a y level color,
  step (a, y) (level, color) =
  (add_text
     (add_patch a (CirclePatch (0.5 + 0.5, 7.5 - y) 0.1 color 0.8))
     (mkText (0.5 + 0.8) (7.5 - y) (Literal level) 10 "white" false false),
   y + 0.25).

Lemma legend_loop (items : list (string * string)) :
  forall a y,
  exists ps ts,
    patches (fst (fold_left step items (a, y))) = (patches a ++ ps)%list /\
    texts (fst (fold_left step items (a, y))) = (texts a ++ ts)%list /\
    List.length ps = List.length ts /\
    Forall2 legend_entry items (combine ps ts) /\
    grows a (fst (fold_left step items (a, y)))
          (List.length items) (List.length items) 0.
Proof.
  induction items as [| [level color] items IH]; intros a y.
  - exists [], []. simpl. rewrite !app_nil_r.
    split; [reflexivity | ]. split; [reflexivity | ]. split; [reflexivity | ].
    split; [constructor | apply grows_refl].
  - simpl fold_left. rewrite step_eq.
    destruct (IH (add_text
                    (add_patch a (CirclePatch (0.5 + 0.5, 7.5 - y) 0.1 color 0.8))
                    (mkText (0.5 + 0.8) (7.5 - y) (Literal level) 10 "white"
                            false false))
                 (y + 0.25)) as (ps & ts & Hp & Ht & Hl & Hf & Hg).
    exists (CirclePatch (0.5 + 0.5, 7.5 - y) 0.1 color 0.8 :: ps),
           (mkText (0.5 + 0.8) (7.5 - y) (Literal level) 10 "white" false false :: ts).
    split; [rewrite Hp; simpl; rewrite <- app_assoc; reflexivity | ].
    split; [rewrite Ht; simpl; rewrite <- app_assoc; reflexivity | ].
    split; [simpl; rewrite Hl; reflexivity | ].
    split.
    + simpl. constructor; [ | exact Hf].
      exists (7.5 - y). repeat split.
    + exact (grows_trans _ _ _ _ _ _ _ _ _
               (grows_trans _ _ _ _ _ _ _ _ _
                  (add_patch_grows _ _) (add_text_grows _ _))
               Hg).
Qed.

End LegendLoop.

Lemma add_legend_shape (ax : Axes) :
  exists ps heading ts,
    patches (Beijing.add_legend ax) = (patches ax ++ ps)%list /\
    texts (Beijing.add_legend ax) = (texts ax ++ heading :: ts)%list /\
    content heading = Literal "空气质量等级:" /\
    List.length ps = List.length ts /\
    Forall2 legend_entry Beijing.aqi_colors (combine ps ts) /\
    grows ax (Beijing.add_legend ax) 6 7 0.
Proof.
  unfold Beijing.add_legend.
  match goal with
  | |- context [fold_left ?f Beijing.aqi_colors (?a0, ?y0)] =>
      destruct (legend_loop f (fun a y level color => eq_refl)
                  Beijing.aqi_colors a0 y0)
        as (ps & ts & Hp & Ht & Hl & Hf & Hg);
      exists ps, (mkText 0.5 7.5 (Literal "空气质量等级:") 12 "white" true false), ts
  end.
  split; [rewrite Hp; reflexivity | ].
  split; [rewrite Ht; unfold add_text; simpl; rewrite <- app_assoc; reflexivity | ].
  split; [reflexivity | ]. split; [exact Hl | ]. split; [exact Hf | ].
  exact (grows_trans _ _ _ _ _ _ _ _ _ (add_text_grows _ _) Hg).
Qed.

(** X17: the legend adds a heading and, for each air-quality level in
    order of severity, a small circle in the colour of the level with the
    name of the level beside it, at the same height; nothing else on the
    axes changes. *)
Theorem X17_legend (ax : Axes) :
  exists ps heading ts,
    patches (Beijing.add_legend ax) = (patches ax ++ ps)%list /\
    texts (Beijing.add_legend ax) = (texts ax ++ heading :: ts)%list /\
    content heading = Literal "空气质量等级:" /\
    List.length ps = List.length ts /\
    Forall2 legend_entry Beijing.aqi_colors (combine ps ts) /\
    grows ax (Beijing.add_legend ax) 6 7 0.
Proof. exact (add_legend_shape ax). Qed.

(** ** A frame of the station map *)

Lemma draw_station_grows (ax : Axes) (row : Row) :
  grows ax (Beijing.draw_station Beijing.create_station_layout ax row)
        (if station_known row then 1 else 0)
        (if station_known row then 2 else 0) 0.
Proof.
  unfold Beijing.draw_station, station_known.
  destruct (lookup (station row) Beijing.create_station_layout) as [[x y] |].
  - exact (grows_trans _ _ _ _ _ _ _ _ _ (add_patch_grows _ _)
             (grows_trans _ _ _ _ _ _ _ _ _ (add_text_grows _ _)
                (add_text_grows _ _))).
  - apply grows_refl.
Qed.

Lemma draw_stations_grows (rows : DataFrame) :
  forall ax,
    grows ax (fold_left (Beijing.draw_station Beijing.create_station_layout) rows ax)
          (List.length (filter station_known rows))
          (2 * List.length (filter station_known rows)) 0.
Proof.
  induction rows as [| row rows IH]; intros ax.
  - simpl. apply grows_refl.
  - cbn [fold_left filter].
    pose proof (grows_trans _ _ _ _ _ _ _ _ _ (draw_station_grows ax row)
                  (IH (Beijing.draw_station Beijing.create_station_layout ax row)))
      as H.
    destruct (station_known row); cbn [List.length];
      unfold grows in H |- *;
      destruct H as (P & T & A & L & I & F & X & Y & Q & O);
      repeat split; try assumption; lia.
Qed.

Lemma draw_pollutant_flow_grows (ax : Axes) (data : DataFrame)
    (positions : list (string * (R * R))) :
  exists a, (a <= 1)%nat /\
    grows ax (Beijing.draw_pollutant_flow ax data positions) 0 a a.
Proof.
  unfold Beijing.draw_pollutant_flow.
  destruct (Rgt_dec (mean (map WSPM data)) 1).
  - exists 1%nat. split; [lia | ].
    exact (grows_trans _ _ _ _ _ _ _ _ _ (add_arrow_grows _ _) (add_text_grows _ _)).
  - exists 0%nat. split; [lia | apply grows_refl].
Qed.

Lemma add_statistics_grows (ax : Axes) (data : DataFrame) :
  grows ax (Beijing.add_statistics ax data) 0 1 0.
Proof. unfold Beijing.add_statistics. apply add_text_grows. Qed.

Lemma station_frame_shape (data : DataFrame) (frame : nat) (ax : Axes)
    (hours : Z) :
  data <> [] ->
  current_time data frame = Ok (Datetime hours) ->
  exists ax',
    Beijing.create_pollutant_visualization ax data frame = Ok ax' /\
    title ax' = Some (mkTitle (Title hours) 16 "white" 20) /\
    facecolor ax' = Some "#1a1a1a" /\
    xlim ax' = Some (-2, 10) /\ ylim ax' = Some (-2, 8) /\
    lines ax' = [] /\
    (List.length (arrows ax') <= 1)%nat /\
    List.length (patches ax') =
      (List.length (filter station_known (current_data data (Datetime hours)))
       + 6)%nat /\
    List.length (texts ax') =
      (2 * List.length (filter station_known (current_data data (Datetime hours)))
       + 8 + List.length (arrows ax'))%nat.
Proof.
  intros Hne Ht.
  destruct (beijing_composer_outcome data frame ax Hne) as (row & _ & Ht' & H).
  rewrite Ht in Ht'. injection Ht' as Ed. rewrite <- Ed in H.
  destruct H as [_ Hrun].
  eexists. split; [exact Hrun | ].
  set (ax0 := Beijing.setup_plot (ax_clear ax)).
  set (cur := current_data data (Datetime hours)).
  pose proof (draw_stations_grows cur ax0) as H1.
  set (ax1 := fold_left _ cur ax0) in *.
  destruct (draw_pollutant_flow_grows ax1 cur Beijing.create_station_layout)
    as (a & Ha & H2).
  set (ax2 := Beijing.draw_pollutant_flow ax1 cur Beijing.create_station_layout) in *.
  set (ax3 := set_title ax2 (mkTitle (Title hours) 16 "white" 20)).
  destruct (add_legend_shape ax3) as (_ & _ & _ & _ & _ & _ & _ & _ & H4).
  pose proof (add_statistics_grows (Beijing.add_legend ax3) cur) as H5.
  set (ax4 := Beijing.add_legend ax3) in *.
  set (ax5 := Beijing.add_statistics ax4 cur) in *.
  unfold grows in H1, H2, H4, H5.
  destruct H1 as (P1 & T1 & A1 & L1 & I1 & F1 & X1 & Y1 & _ & _).
  destruct H2 as (P2 & T2 & A2 & L2 & I2 & F2 & X2 & Y2 & _ & _).
  destruct H4 as (P4 & T4 & A4 & L4 & I4 & F4 & X4 & Y4 & _ & _).
  destruct H5 as (P5 & T5 & A5 & L5 & I5 & F5 & X5 & Y5 & _ & _).
  assert (E3 : patches ax3 = patches ax2 /\ texts ax3 = texts ax2 /\
               arrows ax3 = arrows ax2 /\ lines ax3 = lines ax2 /\
               facecolor ax3 = facecolor ax2 /\ xlim ax3 = xlim ax2 /\
               ylim ax3 = ylim ax2 /\
               title ax3 = Some (mkTitle (Title hours) 16 "white" 20))
    by (repeat split).
  destruct E3 as (P3 & T3 & A3 & L3 & F3 & X3 & Y3 & I3).
  assert (E0 : patches ax0 = [] /\ texts ax0 = [] /\ arrows ax0 = [] /\
               lines ax0 = [] /\ facecolor ax0 = Some "#1a1a1a" /\
               xlim ax0 = Some (-2, 10) /\ ylim ax0 = Some (-2, 8))
    by (repeat split).
  destruct E0 as (P0 & T0 & A0 & L0 & F0 & X0 & Y0).
  rewrite P3 in P4. rewrite T3 in T4. rewrite A3 in A4.
  rewrite P0 in P1. rewrite T0 in T1. rewrite A0 in A1.
  simpl List.length in P1, T1, A1.
  split; [congruence | ]. split; [congruence | ].
  split; [congruence | ]. split; [congruence | ].
  split; [congruence | ].
  split; [lia | ]. split; lia.
Qed.

(** X18: on a store with rows, a frame of the station map whose reference
    timestamp is a datetime object is titled with that timestamp, keeps
    the dark background and the limits of [setup_plot], and holds no line,
    at most one arrow, one circle per row of the slice whose station has a
    place on the map plus the six circles of the legend, and two texts per
    such row plus the seven of the legend, the statistics box and one
    label per arrow, whatever the axes held before. *)
Theorem X18_station_frame (data : DataFrame) (frame : nat) (ax : Axes)
    (hours : Z) :
  data <> [] ->
  current_time data frame = Ok (Datetime hours) ->
  exists ax',
    Beijing.create_pollutant_visualization ax data frame = Ok ax' /\
    title ax' = Some (mkTitle (Title hours) 16 "white" 20) /\
    facecolor ax' = Some "#1a1a1a" /\
    xlim ax' = Some (-2, 10) /\ ylim ax' = Some (-2, 8) /\
    lines ax' = [] /\
    (List.length (arrows ax') <= 1)%nat /\
    List.length (patches ax') =
      (List.length (filter station_known (current_data data (Datetime hours)))
       + 6)%nat /\
    List.length (texts ax') =
      (2 * List.length (filter station_known (current_data data (Datetime hours)))
       + 8 + List.length (arrows ax'))%nat.
Proof. exact (station_frame_shape data frame ax hours). Qed.

(** X18 on the two-station store, at frame 1, which shows hour 0. *)
Lemma X18_station_frame_witness :
  exists ax',
    Beijing.create_pollutant_visualization blank_axes two_by_two 1 = Ok ax' /\
    title ax' = Some (mkTitle (Title 0) 16 "white" 20) /\
    facecolor ax' = Some "#1a1a1a" /\
    xlim ax' = Some (-2, 10) /\ ylim ax' = Some (-2, 8) /\
    lines ax' = [] /\
    (List.length (arrows ax') <= 1)%nat /\
    List.length (patches ax') =
      (List.length (filter station_known (current_data two_by_two (Datetime 0)))
       + 6)%nat /\
    List.length (texts ax') =
      (2 * List.length (filter station_known (current_data two_by_two (Datetime 0)))
       + 8 + List.length (arrows ax'))%nat.
Proof.
  apply (X18_station_frame two_by_two 1 blank_axes 0).
  - discriminate.
  - reflexivity.
Defined.

(** ** Mock data *)

Lemma np_uniform_spec (low high v : R) (s s' : NumpyRandom) :
  numpy_draws s -> low <= high -> np_uniform low high s = (v, s') ->
  low <= v <= high /\ (low < high -> v < high) /\ numpy_draws s'.
Proof.
  intros [Hu He] Hle E. unfold np_uniform in E. injection E as <- <-.
  pose proof (Hu (uniform_pos s)) as U.
  split; [split; nra | ]. split; [intros; nra | split; assumption].
Qed.

Lemma np_normal_spec (loc scale v : R) (s s' : NumpyRandom) :
  numpy_draws s -> np_normal loc scale s = (v, s') -> numpy_draws s'.
Proof.
  intros [Hu He] E. unfold np_normal in E. injection E as <- <-.
  split; assumption.
Qed.

Lemma np_exponential_spec (scale v : R) (s s' : NumpyRandom) :
  numpy_draws s -> 0 <= scale -> np_exponential scale s = (v, s') ->
  0 <= v /\ numpy_draws s'.
Proof.
  intros [Hu He] Hs E. unfold np_exponential in E. injection E as <- <-.
  pose proof (He (exponential_pos s)) as X.
  split; [nra | split; assumption].
Qed.

Lemma mock_row_shape (i : nat) (sf df rf : R) (st : string) (s : NumpyRandom) :
  datetime (fst (mock_row i sf df rf st s)) = Datetime (Z.of_nat i) /\
  station (fst (mock_row i sf df rf st s)) = st /\
  (numpy_draws s ->
   mock_row_ok (fst (mock_row i sf df rf st s)) /\
   numpy_draws (snd (mock_row i sf df rf st s))).
Proof.
  unfold mock_row.
  destruct (np_uniform 0.8 1.2 s) as [stf s1] eqn:E1.
  destruct (np_uniform 1.2 1.8 s1) as [u10 s2] eqn:E2.
  destruct (np_normal 0 5 s2) as [nt s3] eqn:E3.
  destruct (np_normal 0 10 s3) as [np s4] eqn:E4.
  destruct (np_normal 0 15 s4) as [nh s5] eqn:E5.
  destruct (np_exponential 2 s5) as [ew s6] eqn:E6.
  destruct (np_uniform 0 360 s6) as [wdir s7] eqn:E7.
  destruct (np_exponential 0.5 s7) as [er s8] eqn:E8.
  cbn [fst snd datetime station].
  split; [reflexivity | ]. split; [reflexivity | ].
  intros H0.
  destruct (np_uniform_spec 0.8 1.2 _ _ _ H0 ltac:(lra) E1) as (_ & _ & H1).
  destruct (np_uniform_spec 1.2 1.8 _ _ _ H1 ltac:(lra) E2) as (U10 & _ & H2).
  pose proof (np_normal_spec _ _ _ _ _ H2 E3) as H3.
  pose proof (np_normal_spec _ _ _ _ _ H3 E4) as H4.
  pose proof (np_normal_spec _ _ _ _ _ H4 E5) as H5.
  destruct (np_exponential_spec 2 _ _ _ H5 ltac:(lra) E6) as (EW & H6).
  destruct (np_uniform_spec 0 360 _ _ _ H6 ltac:(lra) E7) as (WD & WD' & H7).
  destruct (np_exponential_spec 0.5 _ _ _ H7 ltac:(lra) E8) as (ER & H8).
  split; [ | exact H8].
  unfold mock_row_ok.
  cbn [PM25 PM10 SO2 NO2 CO O3 TEMP DEWP RAIN WSPM wd].
  set (P := sf * df * rf * stf).
  replace (50 * sf * df * rf * stf) with (50 * P) by (unfold P; ring).
  replace (40 * sf * df * rf * stf) with (40 * P) by (unfold P; ring).
  replace (2 * sf * df * rf * stf) with (2 * P) by (unfold P; ring).
  replace (80 * sf * df * rf * stf) with (80 * P) by (unfold P; ring).
  assert (H25 : 0 <= Rmax 0 (50 * P)) by apply Rmax_l.
  split; [exact H25 | ].
  split; [split; nra | ].
  split; [apply Rmax_l | ].
  split; [clamp | ]. split; [clamp | ]. split; [clamp | ].
  split; [reflexivity | ].
  split; [apply Rmax_l | ].
  split; [clamp | ].
  split; [lra | apply WD'; lra].
Qed.

Lemma mock_stations_shape (i : nat) (sf df rf : R) (sts : list string) :
  forall s,
    map datetime (fst (mock_stations i sf df rf sts s))
      = repeat (Datetime (Z.of_nat i)) (List.length sts) /\
    map station (fst (mock_stations i sf df rf sts s)) = sts /\
    (numpy_draws s ->
     Forall mock_row_ok (fst (mock_stations i sf df rf sts s)) /\
     numpy_draws (snd (mock_stations i sf df rf sts s))).
Proof.
  induction sts as [| st sts IH]; intros s.
  - simpl. split; [reflexivity | ]. split; [reflexivity | ].
    intros Hn. split; [constructor | exact Hn].
  - cbn [mock_stations].
    destruct (mock_row_shape i sf df rf st s) as (Hd & Hs & Hok).
    destruct (mock_row i sf df rf st s) as [row s1]. cbn [fst snd] in *.
    destruct (IH s1) as (Hd' & Hs' & Hok').
    destruct (mock_stations i sf df rf sts s1) as [rows s2]. cbn [fst snd] in *.
    split; [simpl; rewrite Hd, Hd'; reflexivity | ].
    split; [simpl; rewrite Hs, Hs'; reflexivity | ].
    intros Hn. destruct (Hok Hn) as [Hr Hn1]. destruct (Hok' Hn1) as [Hrs Hn2].
    split; [constructor; assumption | exact Hn2].
Qed.

Lemma mock_hour_shape (i : nat) (s : NumpyRandom) :
  map datetime (fst (mock_hour i s)) = repeat (Datetime (Z.of_nat i)) 12 /\
  map station (fst (mock_hour i s)) = stations /\
  (numpy_draws s ->
   Forall mock_row_ok (fst (mock_hour i s)) /\ numpy_draws (snd (mock_hour i s))).
Proof.
  unfold mock_hour, np_normal. cbn [fst snd].
  match goal with
  | |- context [mock_stations i ?a ?b ?c stations ?s1] =>
      destruct (mock_stations_shape i a b c stations s1) as (Hd & Hs & Hok)
  end.
  split; [exact Hd | ]. split; [exact Hs | ].
  intros Hn. apply Hok. exact Hn.
Qed.

Lemma mock_hours_shape (hours : list nat) :
  forall s,
    map datetime (fst (mock_hours hours s))
      = flat_map (fun i => repeat (Datetime (Z.of_nat i)) 12) hours /\
    map station (fst (mock_hours hours s))
      = flat_map (fun _ => stations) hours /\
    (numpy_draws s ->
     Forall mock_row_ok (fst (mock_hours hours s)) /\
     numpy_draws (snd (mock_hours hours s))).
Proof.
  induction hours as [| i hours IH]; intros s.
  - simpl. split; [reflexivity | ]. split; [reflexivity | ].
    intros Hn. split; [constructor | exact Hn].
  - cbn [mock_hours flat_map].
    destruct (mock_hour_shape i s) as (Hd & Hs & Hok).
    destruct (mock_hour i s) as [rows s1]. cbn [fst snd] in *.
    destruct (IH s1) as (Hd' & Hs' & Hok').
    destruct (mock_hours hours s1) as [more s2]. cbn [fst snd] in *.
    split; [rewrite map_app, Hd, Hd'; reflexivity | ].
    split; [rewrite map_app, Hs, Hs'; reflexivity | ].
    intros Hn. destruct (Hok Hn) as [Hr Hn1]. destruct (Hok' Hn1) as [Hrs Hn2].
    split; [apply Forall_app; split; assumption | exact Hn2].
Qed.

Lemma nth_error_hours (n : nat) :
  forall a p, (p < 12 * n)%nat ->
    nth_error (flat_map (fun i => repeat (Datetime (Z.of_nat i)) 12) (seq a n)) p
    = Some (Datetime (Z.of_nat (a + p / 12))).
Proof.
  induction n as [| n IH]; intros a p Hp; [lia | ].
  cbn [seq flat_map].
  destruct (Nat.lt_ge_cases p 12) as [Hlt | Hge].
  - rewrite nth_error_app1 by (rewrite repeat_length; exact Hlt).
    rewrite nth_error_repeat by exact Hlt.
    rewrite (Nat.div_small p 12 Hlt), Nat.add_0_r. reflexivity.
  - rewrite nth_error_app2 by (rewrite repeat_length; exact Hge).
    rewrite repeat_length, IH by lia.
    do 2 f_equal.
    replace p with ((p - 12) + 1 * 12)%nat at 2 by lia.
    rewrite Nat.div_add by lia. lia.
Qed.

Lemma nth_error_stations (n : nat) :
  forall p, (p < 12 * n)%nat ->
    nth_error (flat_map (fun _ : nat => stations) (seq 0 n)) p
    = nth_error stations (p mod 12).
Proof.
  assert (G : forall a p, (p < 12 * n)%nat ->
            nth_error (flat_map (fun _ : nat => stations) (seq a n)) p
            = nth_error stations (p mod 12)).
  { induction n as [| n IH]; intros a p Hp; [lia | ].
    cbn [seq flat_map].
    destruct (Nat.lt_ge_cases p 12) as [Hlt | Hge].
    - rewrite nth_error_app1 by exact Hlt.
      rewrite (Nat.mod_small p 12 Hlt). reflexivity.
    - rewrite nth_error_app2 by exact Hge.
      change (List.length stations) with 12%nat.
      rewrite IH by lia. f_equal.
      replace p with ((p - 12) + 1 * 12)%nat at 2 by lia.
      rewrite Nat.Div0.mod_add. reflexivity. }
  apply G.
Qed.

Lemma unique_In (l : list Timestamp) (x : Timestamp) : In x (unique l) -> In x l.
Proof.
  induction l as [| t l IH]; simpl; [tauto | ].
  intros [E | H]; [left; exact E | ].
  apply filter_In in H. right. apply IH. apply H.
Qed.

Lemma unique_repeat_app (x : Timestamp) (k : nat) (rest : list Timestamp) :
  ~ In x rest -> unique (repeat x (S k) ++ rest) = x :: unique rest.
Proof.
  intros Hn. induction k as [| k IH].
  - simpl. rewrite filter_absent; [reflexivity | ].
    intros H. apply Hn, unique_In, H.
  - change (repeat x (S (S k)) ++ rest)%list
      with (x :: (repeat x (S k) ++ rest))%list.
    cbn [unique]. rewrite IH. cbn [filter].
    destruct (same_stamp_spec x x) as [_ | Hx]; [ | congruence]. cbn [negb].
    rewrite filter_absent; [reflexivity | ].
    intros H. apply Hn, unique_In, H.
Qed.

Lemma unique_hours (n : nat) :
  forall a,
    unique (flat_map (fun i => repeat (Datetime (Z.of_nat i)) 12) (seq a n))
    = map (fun i => Datetime (Z.of_nat i)) (seq a n).
Proof.
  induction n as [| n IH]; intros a; [reflexivity | ].
  cbn [seq flat_map map].
  rewrite unique_repeat_app, IH; [reflexivity | ].
  intros H. apply in_flat_map in H. destruct H as (i & Hi & Hr).
  apply in_seq in Hi. apply repeat_spec in Hr. injection Hr as Hr. lia.
Qed.

Lemma mock_column (days : nat) (s : NumpyRandom) :
  map datetime (fst (generate_mock_data days s))
  = flat_map (fun i => repeat (Datetime (Z.of_nat i)) 12) (seq 0 (days * 24)).
Proof. unfold generate_mock_data. apply mock_hours_shape. Qed.

Lemma length_hours (hours : list nat) :
  List.length (flat_map (fun i => repeat (Datetime (Z.of_nat i)) 12) hours)
  = (12 * List.length hours)%nat.
Proof.
  induction hours as [| i hours IH]; [reflexivity | ].
  cbn [flat_map List.length]. rewrite length_app, repeat_length, IH. lia.
Qed.

Lemma mock_length (days : nat) (s : NumpyRandom) :
  List.length (fst (generate_mock_data days s)) = (12 * (days * 24))%nat.
Proof.
  rewrite <- (length_map datetime), mock_column, length_hours, length_seq.
  reflexivity.
Qed.

Lemma mock_frame_count (days : nat) (s : NumpyRandom) :
  frame_count (fst (generate_mock_data days s)) = (days * 24)%nat.
Proof.
  unfold frame_count. rewrite mock_column, unique_hours, length_map, length_seq.
  reflexivity.
Qed.

Lemma mock_row_at (days : nat) (s : NumpyRandom) (p : nat) :
  (p < 12 * (days * 24))%nat ->
  exists row,
    nth_error (fst (generate_mock_data days s)) p = Some row /\
    datetime row = Datetime (Z.of_nat (p / 12)) /\
    nth_error stations (p mod 12) = Some (station row).
Proof.
  intros Hp.
  pose proof (nth_error_hours (days * 24) 0 p Hp) as Hd.
  rewrite <- (mock_column days s), nth_error_map in Hd.
  pose proof (nth_error_stations (days * 24) p Hp) as Hs.
  unfold generate_mock_data in Hd |- *.
  rewrite <- (proj1 (proj2 (mock_hours_shape (seq 0 (days * 24)) s))),
    nth_error_map in Hs.
  unfold DataFrame in *.
  destruct (nth_error (fst (mock_hours (seq 0 (days * 24)) s)) p)
    as [row |] eqn:E; cbn [option_map] in Hd, Hs.
  - exists row. injection Hd as Hd.
    split; [reflexivity | ]. split; [exact Hd | ]. symmetry. exact Hs.
  - discriminate Hd.
Qed.

(** X19: the mock generator produces twelve rows per hour for days x 24
    hours, hour by hour: the row at position p is the one of hour p / 12
    and of the station at position p mod 12 of the station list; so the
    store has 288 rows and 24 distinct timestamps per day. *)
Theorem X19_mock_data_shape (days : nat) (s : NumpyRandom) :
  List.length (fst (generate_mock_data days s)) = (12 * (days * 24))%nat /\
  frame_count (fst (generate_mock_data days s)) = (days * 24)%nat /\
  (forall p, (p < 12 * (days * 24))%nat ->
     exists row,
       nth_error (fst (generate_mock_data days s)) p = Some row /\
       datetime row = Datetime (Z.of_nat (p / 12)) /\
       nth_error stations (p mod 12) = Some (station row)).
Proof.
  split; [apply mock_length | ]. split; [apply mock_frame_count | ].
  intros p Hp. apply mock_row_at, Hp.
Qed.

(** X19 at position 13 of one day of mock data. *)
Lemma X19_mock_data_shape_witness :
  exists row,
    nth_error (fst (generate_mock_data 1 sample_numpy)) 13 = Some row /\
    datetime row = Datetime (Z.of_nat (13 / 12)) /\
    nth_error stations (13 mod 12) = Some (station row).
Proof.
  apply (proj2 (proj2 (X19_mock_data_shape 1 sample_numpy)) 13%nat). simpl. lia.
Defined.

Lemma mock_rows_ok (days : nat) (s : NumpyRandom) :
  numpy_draws s -> Forall mock_row_ok (fst (generate_mock_data days s)).
Proof.
  intros Hs. unfold generate_mock_data.
  apply (proj2 (proj2 (mock_hours_shape (seq 0 (days * 24)) s))), Hs.
Qed.

(** X20: when numpy's uniform values lie in [0, 1) and its exponential
    values are not negative, every mock row has non-negative pollutant
    values, PM10 between 1.2 and 1.8 times PM2.5, NO2, CO and O3 equal to
    0.8, 0.04 and 1.6 times PM2.5, a dew point five degrees below the
    temperature, no negative rain, a wind speed of at least 3 and a wind
    direction in [0, 360). *)
Theorem X20_mock_rows (days : nat) (s : NumpyRandom) :
  numpy_draws s -> Forall mock_row_ok (fst (generate_mock_data days s)).
Proof. exact (mock_rows_ok days s). Qed.

Lemma sample_numpy_draws : numpy_draws sample_numpy.
Proof. split; intros n; simpl; lra. Qed.

(** X20 on one day of mock data. *)
Lemma X20_mock_rows_witness :
  Forall mock_row_ok (fst (generate_mock_data 1 sample_numpy)).
Proof.
  apply (X20_mock_rows 1 sample_numpy). exact sample_numpy_draws.
Defined.

Lemma mock_current_time (days : nat) (s : NumpyRandom) (frame : nat) :
  (0 < days)%nat ->
  current_time (fst (generate_mock_data days s)) frame
  = Ok (Datetime (Z.of_nat ((frame mod (days * 24)) / 12))).
Proof.
  intros Hd. unfold current_time.
  fold (frame_count (fst (generate_mock_data days s))).
  rewrite mock_frame_count.
  destruct (days * 24)%nat as [| n] eqn:En; [lia | ]. rewrite <- En.
  rewrite mock_column, nth_error_hours; [reflexivity | ].
  pose proof (Nat.mod_upper_bound frame (days * 24) ltac:(lia)). lia.
Qed.

(** X21: on mock data of at least one day, frame number f of either
    visualiser shows hour (f mod N) / 12, where N = days x 24 is the number
    of frames: whatever frame numbers the animation hands out, it shows
    only the first 2 x days hours, twelve successive frame numbers each. *)
Theorem X21_mock_animation (days : nat) (s : NumpyRandom) (frame : nat) :
  (0 < days)%nat ->
  current_time (fst (generate_mock_data days s)) frame
    = Ok (Datetime (Z.of_nat ((frame mod (days * 24)) / 12))) /\
  ((frame mod (days * 24)) / 12 < 2 * days)%nat.
Proof.
  intros Hd. split.
  - apply mock_current_time, Hd.
  - pose proof (Nat.mod_upper_bound frame (days * 24) ltac:(lia)) as H.
    apply Nat.Div0.div_lt_upper_bound. lia.
Qed.

(** X21 at frame 30 of one day of mock data. *)
Lemma X21_mock_animation_witness :
  current_time (fst (generate_mock_data 1 sample_numpy)) 30
    = Ok (Datetime (Z.of_nat ((30 mod (1 * 24)) / 12))) /\
  ((30 mod (1 * 24)) / 12 < 2 * 1)%nat.
Proof.
  apply (X21_mock_animation 1 sample_numpy 30). lia.
Defined.

Lemma slice_length (data : DataFrame) (t : Timestamp) :
  List.length (current_data data t)
  = List.length (filter (fun z => stamp_eq z t) (map datetime data)).
Proof.
  unfold current_data. induction data as [| row data IH]; [reflexivity | ].
  simpl. destruct (stamp_eq (datetime row) t); simpl; rewrite IH; reflexivity.
Qed.

Lemma filter_repeat (f : Timestamp -> bool) (x : Timestamp) (k : nat) :
  filter f (repeat x k) = if f x then repeat x k else [].
Proof.
  induction k as [| k IH]; simpl; [destruct (f x); reflexivity | ].
  rewrite IH. destruct (f x); reflexivity.
Qed.

Lemma count_hour_later (n : nat) :
  forall a h, (h < a)%nat ->
    filter (fun z => stamp_eq z (Datetime (Z.of_nat h)))
           (flat_map (fun i => repeat (Datetime (Z.of_nat i)) 12) (seq a n)) = [].
Proof.
  induction n as [| n IH]; intros a h Hh; [reflexivity | ].
  cbn [seq flat_map]. rewrite filter_app, filter_repeat, IH by lia.
  cbn [stamp_eq].
  destruct (Z.eqb_spec (Z.of_nat a) (Z.of_nat h)); [lia | reflexivity].
Qed.

Lemma count_hour (n : nat) :
  forall a h, (a <= h < a + n)%nat ->
    List.length
      (filter (fun z => stamp_eq z (Datetime (Z.of_nat h)))
              (flat_map (fun i => repeat (Datetime (Z.of_nat i)) 12) (seq a n)))
    = 12%nat.
Proof.
  induction n as [| n IH]; intros a h Hh; [lia | ].
  cbn [seq flat_map]. rewrite filter_app, filter_repeat, length_app.
  cbn [stamp_eq].
  destruct (Z.eqb_spec (Z.of_nat a) (Z.of_nat h)) as [E | Hne].
  - rewrite count_hour_later by lia. rewrite repeat_length. reflexivity.
  - rewrite IH by lia. reflexivity.
Qed.

Lemma mock_slice_length (days : nat) (s : NumpyRandom) (h : nat) :
  (h < days * 24)%nat ->
  List.length (current_data (fst (generate_mock_data days s))
                 (Datetime (Z.of_nat h))) = 12%nat.
Proof.
  intros Hh. rewrite slice_length, mock_column. apply count_hour. lia.
Qed.

Lemma mock_dated (days : nat) (s : NumpyRandom) :
  forallb dated (fst (generate_mock_data days s)) = true.
Proof.
  apply forallb_forall. intros row Hin.
  apply (in_map datetime) in Hin. rewrite mock_column in Hin.
  apply in_flat_map in Hin. destruct Hin as (i & _ & Hr).
  apply repeat_spec in Hr. unfold dated. rewrite Hr. reflexivity.
Qed.

Lemma filter_all_true {B : Type} (f : B -> bool) (l : list B) :
  Forall (fun b => f b = true) l -> filter f l = l.
Proof.
  induction 1 as [| b l Hb Hl IH]; [reflexivity | ].
  simpl. rewrite Hb, IH. reflexivity.
Qed.

Lemma mock_slice_windy (days : nat) (s : NumpyRandom) (t : Timestamp) :
  numpy_draws s ->
  filter wind_fires (current_data (fst (generate_mock_data days s)) t)
  = current_data (fst (generate_mock_data days s)) t.
Proof.
  intros Hs. apply filter_all_true. apply Forall_forall. intros row Hin.
  apply filter_In in Hin. destruct Hin as [Hin _].
  pose proof (mock_rows_ok days s Hs) as Hok.
  rewrite Forall_forall in Hok. specialize (Hok row Hin).
  apply wind_fires_true. unfold mock_row_ok in Hok. lra.
Qed.

Lemma mock_slice_known (days : nat) (s : NumpyRandom) (t : Timestamp) :
  filter station_known (current_data (fst (generate_mock_data days s)) t)
  = current_data (fst (generate_mock_data days s)) t.
Proof.
  apply filter_all_true. apply Forall_forall. intros row Hin.
  apply filter_In in Hin. destruct Hin as [Hin _].
  assert (Hst : In (station row) stations).
  { apply (in_map station) in Hin. unfold generate_mock_data in Hin.
    unfold DataFrame in Hin.
    rewrite (proj1 (proj2 (mock_hours_shape (seq 0 (days * 24)) s))) in Hin.
    apply in_flat_map in Hin. destruct Hin as (i & _ & H). exact H. }
  pose proof stations_have_places as Hp. rewrite Forall_forall in Hp.
  destruct (Hp _ Hst) as (pos & E).
  unfold station_known. rewrite E. reflexivity.
Qed.

(** X22: on mock data of at least one day, with numpy's uniform values in
    [0, 1) and non-negative exponential values, every frame of the abstract
    animation holds exactly twelve lines, one per station, since every mock
    wind speed is above the threshold, and between 60 and 72 patches; every
    frame of the station map holds eighteen circles, one per station and
    six for the legend. *)
Theorem X22_mock_frames (days : nat) (s : NumpyRandom) (frame : nat)
    (ax : Axes) (g : RandomSource) :
  numpy_draws s -> (0 < days)%nat ->
  (exists ax' g',
     Kandinsky.create_abstract_visualization ax
       (fst (generate_mock_data days s)) frame g = Ok (ax', g') /\
     List.length (lines ax') = 12%nat /\
     (60 <= List.length (patches ax') <= 72)%nat) /\
  (exists ax',
     Beijing.create_pollutant_visualization ax
       (fst (generate_mock_data days s)) frame = Ok ax' /\
     List.length (patches ax') = 18%nat).
Proof.
  intros Hs Hd.
  set (data := fst (generate_mock_data days s)).
  assert (Hne : data <> []).
  { intros E. pose proof (mock_length days s) as L. fold data in L.
    rewrite E in L. simpl in L. lia. }
  pose proof (mock_current_time days s frame Hd) as Ht. fold data in Ht.
  set (h := ((frame mod (days * 24)) / 12)%nat) in *.
  assert (Hh : (h < days * 24)%nat).
  { pose proof (Nat.mod_upper_bound frame (days * 24) ltac:(lia)) as H.
    unfold h. apply Nat.Div0.div_lt_upper_bound. lia. }
  pose proof (mock_slice_length days s h Hh) as Hlen. fold data in Hlen.
  split.
  - destruct (composer_returns data frame ax g Hne) as (row & _ & Ht' & Hrun).
    rewrite Ht in Ht'. injection Ht' as Ed. rewrite <- Ed in Hrun.
    pose proof (compose_slice_run (Kandinsky.setup_plot (ax_clear ax))
                  (current_data data (Datetime (Z.of_nat h))) g)
      as (P & L & _).
    exists (fst (Kandinsky.compose_slice (Kandinsky.setup_plot (ax_clear ax))
                   (current_data data (Datetime (Z.of_nat h))) g)),
           (snd (Kandinsky.compose_slice (Kandinsky.setup_plot (ax_clear ax))
                   (current_data data (Datetime (Z.of_nat h))) g)).
    split; [rewrite Hrun, <- surjective_pairing; reflexivity | ].
    pose proof (mock_slice_windy days s (Datetime (Z.of_nat h)) Hs) as Hw.
    fold data in Hw.
    rewrite Hw, Hlen in L. rewrite Hlen in P.
    pose proof (filter_length_le ozone_fires
                  (current_data data (Datetime (Z.of_nat h)))) as Ho.
    rewrite Hlen in Ho.
    simpl in P, L. split; [exact L | lia].
  - destruct (station_frame_shape data frame ax (Z.of_nat h) Hne Ht)
      as (ax' & Hrun & _ & _ & _ & _ & _ & _ & P & _).
    exists ax'. split; [exact Hrun | ].
    pose proof (mock_slice_known days s (Datetime (Z.of_nat h))) as Hk.
    fold data in Hk.
    rewrite Hk, Hlen in P. exact P.
Qed.

(** X22 at frame 30 of one day of mock data. *)
Lemma X22_mock_frames_witness :
  (exists ax' g',
     Kandinsky.create_abstract_visualization blank_axes
       (fst (generate_mock_data 1 sample_numpy)) 30 sample_source = Ok (ax', g') /\
     List.length (lines ax') = 12%nat /\
     (60 <= List.length (patches ax') <= 72)%nat) /\
  (exists ax',
     Beijing.create_pollutant_visualization blank_axes
       (fst (generate_mock_data 1 sample_numpy)) 30 = Ok ax' /\
     List.length (patches ax') = 18%nat).
Proof.
  apply (X22_mock_frames 1 sample_numpy 30 blank_axes sample_source).
  - exact sample_numpy_draws.
  - lia.
Defined.

(** X23: [load_data] keeps the frame read from a readable file; with
    no file, or a file it cannot read, it falls back on thirty days of mock
    data, 12 x 720 rows with 720 distinct timestamps, on which both animations
    start and run any number of ticks without raising. *)
Theorem X23_load_data (file : FileState) (s : NumpyRandom) :
  (exists df parsed, file = Readable df parsed /\ load_data file s = (df, s))
  \/
  ((file = NoFile \/ file = Unreadable) /\
   load_data file s = generate_mock_data 30 s /\
   List.length (fst (load_data file s)) = (12 * (30 * 24))%nat /\
   frame_count (fst (load_data file s)) = (30 * 24)%nat /\
   (forall ticks ax g, exists out,
      Kandinsky.start_animation (fst (load_data file s)) ticks ax g
      = Some (Ok out)) /\
   (forall ticks ax, exists out,
      Beijing.start_animation (fst (load_data file s)) ticks ax = Some (Ok out))).
Proof.
  assert (M : List.length (fst (generate_mock_data 30 s)) = (12 * (30 * 24))%nat /\
              frame_count (fst (generate_mock_data 30 s)) = (30 * 24)%nat /\
              (forall ticks ax g, exists out,
                 Kandinsky.start_animation (fst (generate_mock_data 30 s)) ticks ax g
                 = Some (Ok out)) /\
              (forall ticks ax, exists out,
                 Beijing.start_animation (fst (generate_mock_data 30 s)) ticks ax
                 = Some (Ok out))).
  { pose proof (mock_length 30 s) as L. pose proof (mock_frame_count 30 s) as F.
    pose proof (mock_dated 30 s) as D.
    set (data := fst (generate_mock_data 30 s)) in *.
    assert (Hne : data <> []).
    { intros E. rewrite E in L. simpl in L. lia. }
    split; [exact L | ]. split; [exact F | ].
    split.
    - intros ticks ax g. unfold Kandinsky.start_animation.
      destruct data as [| r rest]; [congruence | ].
      destruct (play_runs (r :: rest) (frame_count (r :: rest)) ticks Hne 0%nat ax g)
        as (out & Hout).
      exists out. rewrite Hout. reflexivity.
    - intros ticks ax. unfold Beijing.start_animation.
      destruct data as [| r rest]; [congruence | ].
      destruct (beijing_play_runs (r :: rest) (frame_count (r :: rest)) ticks Hne
                  D 0%nat ax) as (out & Hout).
      exists out. rewrite Hout. reflexivity. }
  destruct file as [| | df parsed].
  - right. split; [left; reflexivity | ]. split; [reflexivity | exact M].
  - right. split; [right; reflexivity | ]. split; [reflexivity | exact M].
  - left. exists df, parsed. split; reflexivity.
Qed.

Lemma read_row (df : DataFrame) (row : Row) :
  forallb read_stamp df = true -> In row df ->
  (exists cell, datetime row = Raw cell) \/ datetime row = Missing.
Proof.
  intros Hall Hin. rewrite forallb_forall in Hall. specialize (Hall row Hin).
  unfold read_stamp in Hall. destruct (datetime row) as [hours | cell |];
    [discriminate | left; exists cell; reflexivity | right; reflexivity].
Qed.

(** X24: on a store with rows that [load_data] has read from a file, the
    station-map composer never completes a frame: when the timestamp cell
    of the row it reads holds text it raises AttributeError at the title,
    and when that cell is empty it returns the bare set-up axes. *)
Theorem X24_station_map_on_read_store (df : DataFrame)
    (parsed : forallb read_stamp df = true) (s : NumpyRandom)
    (frame : nat) (ax : Axes) :
  df <> [] ->
  exists row,
    nth_error (fst (load_data (Readable df parsed) s))
              (frame mod frame_count (fst (load_data (Readable df parsed) s)))
      = Some row /\
    ((exists cell,
        datetime row = Raw cell /\
        Beijing.create_pollutant_visualization ax
          (fst (load_data (Readable df parsed) s)) frame = Raise AttributeError)
     \/
     (datetime row = Missing /\
      Beijing.create_pollutant_visualization ax
        (fst (load_data (Readable df parsed) s)) frame
      = Ok (Beijing.setup_plot (ax_clear ax)))).
Proof.
  intros Hne. cbn [load_data fst].
  destruct (beijing_composer_outcome df frame ax Hne) as (row & Hrow & _ & H).
  exists row. split; [exact Hrow | ].
  destruct (read_row df row parsed (nth_error_In _ _ Hrow)) as [(cell & E) | E];
    rewrite E in H.
  - left. exists cell. split; [exact E | exact H].
  - right. split; [exact E | exact H].
Qed.

(** X24 on a one-row file whose timestamp cell holds text. *)
Lemma X24_station_map_on_read_store_witness :
  exists row,
    nth_error (fst (load_data (Readable [text_row] eq_refl) sample_numpy))
              (0 mod frame_count
                       (fst (load_data (Readable [text_row] eq_refl) sample_numpy)))
      = Some row /\
    ((exists cell,
        datetime row = Raw cell /\
        Beijing.create_pollutant_visualization blank_axes
          (fst (load_data (Readable [text_row] eq_refl) sample_numpy)) 0
        = Raise AttributeError)
     \/
     (datetime row = Missing /\
      Beijing.create_pollutant_visualization blank_axes
        (fst (load_data (Readable [text_row] eq_refl) sample_numpy)) 0
      = Ok (Beijing.setup_plot (ax_clear blank_axes)))).
Proof.
  apply (X24_station_map_on_read_store [text_row] eq_refl sample_numpy 0 blank_axes).
  discriminate.
Defined.
